(** * dcf-calculator: the extraction pipeline and the valuation engine

    A shallow embedding of [server/routes/api.js] (document fetching, field
    extraction, currency detection, exchange-rate resolution, the
    [/stock/:ticker] handler) and of [calculateDCF] from the client, with the
    properties stated for them.

    Conventions of the embedding.
    - In the extraction pipeline and in the form of the client a JavaScript
      number is an exact rational, or one of [Infinity], [-Infinity],
      [NaN]: rounding to binary64, overflow and the sign of zero are not
      represented there.
    - The valuation engine and the numeric parser are embedded a second
      time over binary64 itself (module [B64], on the primitive floats),
      where every operation rounds as the processor does; the properties
      that depend on rounding are stated there.
    - A JavaScript string is a [string] of bytes, the UTF-8 encoding of its
      characters.  White space is that of the language (Unicode); case
      mapping is that of ASCII.
    - A parsed page is described by the answers it gives to the selector
      queries the code asks.
    - An [async] function is a function of the network and of the log of the
      requests issued so far; it returns an outcome (resolved or rejected)
      and the extended log. *)

From Stdlib Require Import QArith Qcanon Qabs Qround Qpower ZArith NArith Lia Bool List.
From Stdlib Require Import Ascii String DecimalString.
From Stdlib Require Floats.
Import ListNotations.

Local Close Scope Q_scope.
Local Close Scope Qc_scope.
Local Open Scope string_scope.

(* ------------------------------------------------------------------ *)
(** ** Numbers *)

Module JS.

Inductive number : Type :=
| Finite (q : Qc)
| PosInfinity
| NegInfinity
| NaN.

Definition of_Z (z : Z) : number := Finite (Q2Qc (inject_Z z)).

(** [decimal m k] is the literal with digits [m] and [k] digits after the
    point: [decimal 25 1] is [2.5]. *)
Definition decimal (m : Z) (k : nat) : number :=
  Finite (Q2Qc (inject_Z m / inject_Z (10 ^ Z.of_nat k))%Q).

Definition zero : number := of_Z 0.
Definition one : number := of_Z 1.

(** The infinity whose sign is that of a comparison with zero; [NaN] when
    the comparison says "equal" (zero times infinity, zero over zero). *)
Definition signed_infinity (c : comparison) : number :=
  match c with
  | Gt => PosInfinity
  | Lt => NegInfinity
  | Eq => NaN
  end.

Definition neg (x : number) : number :=
  match x with
  | Finite a => Finite (- a)
  | PosInfinity => NegInfinity
  | NegInfinity => PosInfinity
  | NaN => NaN
  end.

Definition add (x y : number) : number :=
  match x, y with
  | NaN, _ | _, NaN => NaN
  | Finite a, Finite b => Finite (a + b)
  | PosInfinity, NegInfinity | NegInfinity, PosInfinity => NaN
  | PosInfinity, _ | _, PosInfinity => PosInfinity
  | NegInfinity, _ | _, NegInfinity => NegInfinity
  end.

Definition sub (x y : number) : number := add x (neg y).

Definition mul (x y : number) : number :=
  match x, y with
  | NaN, _ | _, NaN => NaN
  | Finite a, Finite b => Finite (a * b)
  | Finite a, PosInfinity | PosInfinity, Finite a => signed_infinity (a ?= 0)%Qc
  | Finite a, NegInfinity | NegInfinity, Finite a => signed_infinity (0 ?= a)%Qc
  | PosInfinity, PosInfinity | NegInfinity, NegInfinity => PosInfinity
  | PosInfinity, NegInfinity | NegInfinity, PosInfinity => NegInfinity
  end.

Definition div (x y : number) : number :=
  match x, y with
  | NaN, _ | _, NaN => NaN
  | Finite a, Finite b =>
      if Qc_eq_dec b 0 then signed_infinity (a ?= 0)%Qc else Finite (a / b)
  | Finite _, (PosInfinity | NegInfinity) => Finite 0
  | PosInfinity, Finite b => if Qclt_le_dec b 0 then NegInfinity else PosInfinity
  | NegInfinity, Finite b => if Qclt_le_dec b 0 then PosInfinity else NegInfinity
  | (PosInfinity | NegInfinity), (PosInfinity | NegInfinity) => NaN
  end.

(** [x < y]; false as soon as one side is [NaN]. *)
Definition lt (x y : number) : bool :=
  match x, y with
  | NaN, _ | _, NaN => false
  | Finite a, Finite b => match (a ?= b)%Qc with Lt => true | _ => false end
  | NegInfinity, (Finite _ | PosInfinity) => true
  | Finite _, PosInfinity => true
  | _, _ => false
  end.

Definition gt (x y : number) : bool := lt y x.

(** [x >= y]; false as soon as one side is [NaN]. *)
Definition ge (x y : number) : bool :=
  match x, y with
  | NaN, _ | _, NaN => false
  | Finite a, Finite b => match (a ?= b)%Qc with Lt => false | _ => true end
  | PosInfinity, _ => true
  | _, NegInfinity => true
  | _, _ => false
  end.

(** [x <= y]; false as soon as one side is [NaN]. *)
Definition le (x y : number) : bool := ge y x.

Definition isNaN (x : number) : bool :=
  match x with NaN => true | _ => false end.

Definition Math_abs (x : number) : number :=
  match x with
  | Finite a => Finite (if Qclt_le_dec a 0 then - a else a)
  | PosInfinity | NegInfinity => PosInfinity
  | NaN => NaN
  end.

(** [Math.pow x n] for the exponents the code uses: the whole numbers
    [1] to [5]. *)
Fixpoint Math_pow (x : number) (n : nat) : number :=
  match n with
  | O => one
  | S n' => mul x (Math_pow x n')
  end.

(** Truthiness of a number: everything but zero and [NaN]. *)
Definition truthy (x : number) : bool :=
  match x with
  | Finite a => if Qc_eq_dec a 0 then false else true
  | NaN => false
  | _ => true
  end.

(** Decidable identity of numbers (not [===]: it equates [NaN] with
    itself), to compare computed values. *)
Definition same (x y : number) : bool :=
  match x, y with
  | Finite a, Finite b => Qeq_bool a b
  | PosInfinity, PosInfinity | NegInfinity, NegInfinity | NaN, NaN => true
  | _, _ => false
  end.

End JS.

Import JS.

(* ------------------------------------------------------------------ *)
(** ** The valuation engine ([calculateDCF]) *)

Record SourceUrls : Type := {
  overview : string;
  financials : string;
  cashFlow : string;
  balanceSheet : string
}.

Record StockData : Type := {
  companyName : string;
  ticker : string;
  reportingCurrency : string;
  exchangeRate : number;
  currentPrice : number;
  formattedCurrentPrice : string;
  freeCashFlow : number;
  freeCashFlowUSD : number;
  formattedFreeCashFlow : string;
  formattedFreeCashFlowUSD : string;
  cashAndEquivalents : number;
  cashAndEquivalentsUSD : number;
  formattedCashAndEquivalents : string;
  formattedCashAndEquivalentsUSD : string;
  totalDebt : number;
  totalDebtUSD : number;
  formattedTotalDebt : string;
  formattedTotalDebtUSD : string;
  sharesOutstanding : number;
  formattedSharesOutstanding : string;
  sourceUrls : SourceUrls
}.

Record DCFInputs : Type := {
  growthRate1to5 : number;
  perpetualGrowthRate : number;
  discountRate : number;
  marginOfSafety : number
}.

Record DCFResults : Type := {
  fairValue : number;
  safetyMarginValue : number;
  enterpriseValue : number;
  equityValue : number;
  yearlyProjections : list number;
  isPotentialBuy : bool;
  originalCurrency : string;
  fairValueInOriginalCurrency : number;
  resultExchangeRate : number
}.

(** What one run of [calculateDCF] does to the component state: it either
    stores results (and clears the error) or stores an error message.  The
    [try] block only does arithmetic on numbers, which never throws, so its
    [catch] block is never entered. *)
Inductive DCFUpdate : Type :=
| SetResults (results : DCFResults)
| SetError (message : string).

(** [for (let year = 1; year <= 5; year++)]: [n] rounds are left to run. *)
Fixpoint projection_loop (n : nat) (growthRateDecimal currentFCF : number)
    (projections : list number) : list number :=
  match n with
  | O => projections
  | S n' =>
      let currentFCF := mul currentFCF (add one growthRateDecimal) in
      projection_loop n' growthRateDecimal currentFCF (projections ++ [currentFCF])%list
  end.

(** [projections[year]]: reading past the end gives [undefined], which
    arithmetic turns into [NaN]. *)
Definition index (projections : list number) (year : nat) : number :=
  nth year projections NaN.

(** [for (let year = 0; year < 5; year++) presentValue += ...]: [n] rounds
    are left to run, the next one is for index [year]. *)
Fixpoint discount_loop (n year : nat) (projections : list number)
    (discountRateDecimal presentValue : number) : number :=
  match n with
  | O => presentValue
  | S n' =>
      let presentValue :=
        add presentValue
            (div (index projections year)
                 (Math_pow (add one discountRateDecimal) (year + 1))) in
      discount_loop n' (S year) projections discountRateDecimal presentValue
  end.

Definition hundred : number := of_Z 100.

Definition calculateDCF (stockData : option StockData) (dcfInputs : DCFInputs)
  : DCFUpdate :=
  match stockData with
  | None => SetError "Please fetch stock data first"
  | Some stockData =>
      let growthRateDecimal := div (growthRate1to5 dcfInputs) hundred in
      let perpetualGrowthRateDecimal := div (perpetualGrowthRate dcfInputs) hundred in
      let discountRateDecimal := div (discountRate dcfInputs) hundred in
      let marginOfSafetyDecimal := div (marginOfSafety dcfInputs) hundred in
      let projections :=
        projection_loop 5 growthRateDecimal (freeCashFlow stockData) [] in
      let terminalValue :=
        div (mul (index projections 4) (add one perpetualGrowthRateDecimal))
            (sub discountRateDecimal perpetualGrowthRateDecimal) in
      let presentValue := discount_loop 5 0 projections discountRateDecimal zero in
      let presentTerminalValue :=
        div terminalValue (Math_pow (add one discountRateDecimal) 5) in
      let enterpriseValue := add presentValue presentTerminalValue in
      let equityValue :=
        sub (add enterpriseValue (cashAndEquivalents stockData)) (totalDebt stockData) in
      let fairValueInOriginalCurrency := div equityValue (sharesOutstanding stockData) in
      let fairValue := mul fairValueInOriginalCurrency (exchangeRate stockData) in
      let safetyMarginValue := mul fairValue (sub one marginOfSafetyDecimal) in
      let isPotentialBuy := lt (currentPrice stockData) safetyMarginValue in
      SetResults {|
        fairValue := fairValue;
        safetyMarginValue := safetyMarginValue;
        enterpriseValue := enterpriseValue;
        equityValue := equityValue;
        yearlyProjections := projections;
        isPotentialBuy := isPotentialBuy;
        originalCurrency := reportingCurrency stockData;
        fairValueInOriginalCurrency := fairValueInOriginalCurrency;
        resultExchangeRate := exchangeRate stockData
      |}
  end.

(** The valuation formulas as the specification words them: closed forms
    in the inputs, to be compared with what [calculateDCF] computes. *)
Module Formula.
Section Formula.

Variable stockData : StockData.
Variable dcfInputs : DCFInputs.

Definition g : number := div (growthRate1to5 dcfInputs) hundred.
Definition p : number := div (perpetualGrowthRate dcfInputs) hundred.
Definition d : number := div (discountRate dcfInputs) hundred.

(** [yearlyProjections[i] = freeCashFlow * (1+g)^(i+1)] *)
Definition projection (i : nat) : number :=
  mul (freeCashFlow stockData) (Math_pow (add one g) (i + 1)).

(** [terminalValue = yearlyProjections[4] * (1+p) / (d-p)] *)
Definition terminal : number :=
  div (mul (projection 4) (add one p)) (sub d p).

(** [yearlyProjections[year-1] / (1+d)^year] *)
Definition discounted (year : nat) : number :=
  div (projection (year - 1)) (Math_pow (add one d) year).

(** Sum of the discounted projections over the years 1 to 5. *)
Definition present : number :=
  add (add (add (add (discounted 1) (discounted 2)) (discounted 3))
           (discounted 4)) (discounted 5).

(** The discounted projections plus the discounted terminal value. *)
Definition enterprise : number :=
  add present (div terminal (Math_pow (add one d) 5)).

Definition equity : number :=
  sub (add enterprise (cashAndEquivalents stockData)) (totalDebt stockData).

Definition fair : number :=
  mul (div equity (sharesOutstanding stockData)) (exchangeRate stockData).

Definition safetyMargin : number :=
  mul fair (sub one (div (marginOfSafety dcfInputs) hundred)).

Definition potentialBuy : bool :=
  lt (currentPrice stockData) safetyMargin.

End Formula.
End Formula.

(** The golden fixture: free cash flow 100, growth 10%, perpetual growth
    2.5%, discount rate 10%, cash 50, debt 20, 10 shares, exchange rate 1
    (price 100 and the default 25% margin of safety). *)
Definition golden_stock : StockData := {|
  companyName := "Golden Fixture Inc.";
  ticker := "GOLD";
  reportingCurrency := "USD";
  exchangeRate := of_Z 1;
  currentPrice := of_Z 100;
  formattedCurrentPrice := "100";
  freeCashFlow := of_Z 100;
  freeCashFlowUSD := of_Z 100;
  formattedFreeCashFlow := "100 USD";
  formattedFreeCashFlowUSD := "$100";
  cashAndEquivalents := of_Z 50;
  cashAndEquivalentsUSD := of_Z 50;
  formattedCashAndEquivalents := "50 USD";
  formattedCashAndEquivalentsUSD := "$50";
  totalDebt := of_Z 20;
  totalDebtUSD := of_Z 20;
  formattedTotalDebt := "20 USD";
  formattedTotalDebtUSD := "$20";
  sharesOutstanding := of_Z 10;
  formattedSharesOutstanding := "10";
  sourceUrls := {| overview := EmptyString; financials := EmptyString; cashFlow := EmptyString; balanceSheet := EmptyString |}
|}.

Definition golden_inputs : DCFInputs := {|
  growthRate1to5 := of_Z 10;
  perpetualGrowthRate := decimal 25 1;
  discountRate := of_Z 10;
  marginOfSafety := of_Z 25
|}.

(** A quotient of two integers, as a number. *)
Definition ratio (n : Z) (m : positive) : number := Finite (Q2Qc (n # m)).

(* ------------------------------------------------------------------ *)
(** ** Strings *)

Definition char_between (lo hi : nat) (c : ascii) : bool :=
  (lo <=? nat_of_ascii c)%nat && (nat_of_ascii c <=? hi)%nat.

Definition is_digit : ascii -> bool := char_between 48 57.
Definition is_upper : ascii -> bool := char_between 65 90.
Definition is_lower : ascii -> bool := char_between 97 122.

(** Tab, line feed, vertical tab, form feed, carriage return, space: the
    white space that is one byte long. *)
Definition is_space (c : ascii) : bool :=
  char_between 9 13 c || (nat_of_ascii c =? 32)%nat.

Definition is_byte (n : nat) (c : ascii) : bool := (nat_of_ascii c =? n)%nat.

(** The white space that is two bytes long: the no-break space U+00A0. *)
Definition is_space2 (a b : ascii) : bool := is_byte 194 a && is_byte 160 b.

(** The white space that is three bytes long: U+1680, U+2000 to U+200A,
    the line and paragraph separators U+2028 and U+2029, U+202F, U+205F,
    U+3000 and the byte order mark U+FEFF. *)
Definition is_space3 (a b c : ascii) : bool :=
  (is_byte 225 a && is_byte 154 b && is_byte 128 c)
  || (is_byte 226 a && is_byte 128 b
      && (char_between 128 138 c || char_between 168 169 c || is_byte 175 c))
  || (is_byte 226 a && is_byte 129 b && is_byte 159 c)
  || (is_byte 227 a && is_byte 128 b && is_byte 128 c)
  || (is_byte 239 a && is_byte 187 b && is_byte 191 c).

Definition lower_char (c : ascii) : ascii :=
  if is_upper c then ascii_of_nat (nat_of_ascii c + 32) else c.

Definition upper_char (c : ascii) : ascii :=
  if is_lower c then ascii_of_nat (nat_of_ascii c - 32) else c.

Fixpoint map_chars (f : ascii -> ascii) (s : string) : string :=
  match s with
  | EmptyString => EmptyString
  | String c rest => String (f c) (map_chars f rest)
  end.

Definition toLowerCase : string -> string := map_chars lower_char.
Definition toUpperCase : string -> string := map_chars upper_char.

(** [s.startsWith(pattern)] *)
Fixpoint startsWith (s pattern : string) : bool :=
  match pattern, s with
  | EmptyString, _ => true
  | String _ _, EmptyString => false
  | String p pattern', String c s' => Ascii.eqb p c && startsWith s' pattern'
  end.

(** [s.includes(pattern)] *)
Fixpoint includes (s pattern : string) : bool :=
  startsWith s pattern ||
  match s with
  | EmptyString => false
  | String _ rest => includes rest pattern
  end.

(** The string without its leading white space. *)
Fixpoint trimStart (s : string) : string :=
  match s with
  | String a rest1 =>
      if is_space a then trimStart rest1
      else
        match rest1 with
        | String b rest2 =>
            if is_space2 a b then trimStart rest2
            else
              match rest2 with
              | String c rest3 => if is_space3 a b c then trimStart rest3 else s
              | EmptyString => s
              end
        | EmptyString => s
        end
  | EmptyString => EmptyString
  end.

(** A string of white space only. *)
Definition blank (s : string) : bool :=
  match trimStart s with
  | EmptyString => true
  | String _ _ => false
  end.

(** The string without its trailing white space: it ends where only white
    space is left. *)
Fixpoint trimEnd (s : string) : string :=
  match s with
  | EmptyString => EmptyString
  | String c rest => if blank s then EmptyString else String c (trimEnd rest)
  end.

Definition trim (s : string) : string := trimEnd (trimStart s).

(** A string used as a condition: the empty string is false. *)
Definition nonempty (s : string) : bool :=
  match s with EmptyString => false | String _ _ => true end.

(* ------------------------------------------------------------------ *)
(** ** Numeric text: [parseFloat], [extractNumber] *)

Definition digit_value (c : ascii) : N := N.of_nat (nat_of_ascii c - 48).

(** Reads decimal digits off the front of [s]: the value read so far, the
    number of digits read so far, and what is left. *)
Fixpoint scan_digits (s : string) (value : N) (count : nat) : N * nat * string :=
  match s with
  | String c rest =>
      if is_digit c then scan_digits rest (value * 10 + digit_value c) (S count)
      else (value, count, s)
  | EmptyString => (value, count, s)
  end.

(** Whether [s] starts with the character [c]. *)
Definition head_is (c : ascii) (s : string) : bool :=
  match s with
  | String x _ => Ascii.eqb x c
  | EmptyString => false
  end.

Definition head_is_digit (s : string) : bool :=
  match s with
  | String x _ => is_digit x
  | EmptyString => false
  end.

Definition tail (s : string) : string :=
  match s with
  | String _ rest => rest
  | EmptyString => EmptyString
  end.

(** An exponent part [e], [e+], [e-] followed by at least one digit; zero
    when there is none. *)
Definition scan_exponent (s : string) : Z :=
  if head_is "e" s || head_is "E" s then
    let rest := tail s in
    let negative := head_is "-" rest in
    let digits := if head_is "-" rest || head_is "+" rest then tail rest else rest in
    let '(value, count, _) := scan_digits digits 0 0 in
    if (count =? 0)%nat then 0%Z
    else if negative then (- Z.of_N value)%Z else Z.of_N value
  else 0%Z.

(** [parseFloat]: leading white space is skipped, then the longest prefix
    that is a decimal literal (sign, digits, point, digits, exponent) or
    [Infinity] is read; [NaN] when there is no such prefix. *)
Definition parseFloat (input : string) : number :=
  let s := trimStart input in
  let negative := head_is "-" s in
  let body := if head_is "-" s || head_is "+" s then tail s else s in
  if startsWith body "Infinity" then
    (if negative then NegInfinity else PosInfinity)
  else
    let '(int_part, int_digits, rest) := scan_digits body 0 0 in
    let '(mantissa, frac_digits, rest) :=
      if head_is "." rest then scan_digits (tail rest) int_part 0
      else (int_part, 0%nat, rest) in
    if (int_digits + frac_digits =? 0)%nat then NaN
    else
      let exponent := scan_exponent rest in
      let magnitude :=
        Q2Qc (inject_Z (Z.of_N mantissa)
              * Qpower (10 # 1) (exponent - Z.of_nat frac_digits))%Q in
      Finite (if negative then (- magnitude)%Qc else magnitude).

(** The characters [text.replace(/[^0-9.-]/g, '')] keeps. *)
Definition numeric_char (c : ascii) : bool :=
  is_digit c || Ascii.eqb c "." || Ascii.eqb c "-".

(** [text.replace(/[^0-9.-]/g, '')] *)
Fixpoint replace_non_numeric (text : string) : string :=
  match text with
  | EmptyString => EmptyString
  | String c rest =>
      if numeric_char c then String c (replace_non_numeric rest)
      else replace_non_numeric rest
  end.

(** [extractNumber(text)]; [None] is a text that is [null] or
    [undefined], and the result [None] is [null]. *)
Definition extractNumber (text : option string) : option number :=
  match text with
  | None => None
  | Some text =>
      if negb (nonempty text) then None
      else
        let numericText := replace_non_numeric text in
        let parsedNumber := parseFloat numericText in
        if isNaN parsedNumber then None else Some parsedNumber
  end.

(** Whether a text of digits, points and minus signs starts with a decimal
    literal: an optional minus sign, then a digit, or a point and a
    digit. *)
Definition leading_digits (body : string) : bool :=
  match body with
  | String c rest => is_digit c || (Ascii.eqb c "." && head_is_digit rest)
  | EmptyString => false
  end.

Definition leading_number (s : string) : bool :=
  leading_digits (if head_is "-" s then tail s else s).

(* ------------------------------------------------------------------ *)
(** ** Number formatting: [toLocaleString], [formatNumberWithCommas] *)

(** Commas between groups of three digits, counted from the right;
    [remaining] is the number of digits of [digits]. *)
Fixpoint group_digits (digits : string) (remaining : nat) : string :=
  match digits with
  | EmptyString => EmptyString
  | String c rest =>
      let tail := group_digits rest (remaining - 1) in
      match rest with
      | EmptyString => String c tail
      | String _ _ =>
          if ((remaining - 1) mod 3 =? 0)%nat then String c ("," ++ tail)
          else String c tail
      end
  end.

Definition string_of_N (n : N) : string := NilZero.string_of_uint (N.to_uint n).

(** Up to two fraction digits, for a number of hundredths below 100. *)
Definition fraction_digits (hundredths : N) : string :=
  if (hundredths =? 0)%N then EmptyString
  else if (hundredths mod 10 =? 0)%N then "." ++ string_of_N (hundredths / 10)
  else if (hundredths <? 10)%N then ".0" ++ string_of_N hundredths
  else "." ++ string_of_N hundredths.

(** [x.toLocaleString('en-US', { minimumFractionDigits: 0,
    maximumFractionDigits: 2 })]: the magnitude is rounded to hundredths,
    ties away from zero, the whole part is grouped by commas, trailing
    zeros of the fraction are dropped. *)
Definition toLocaleString (x : number) : string :=
  match x with
  | NaN => "NaN"
  | PosInfinity => "∞"
  | NegInfinity => "-∞"
  | Finite q =>
      let magnitude := Qabs q in
      let hundredths := Z.to_N (Qfloor (magnitude * (100 # 1) + (1 # 2))%Q) in
      let whole := string_of_N (hundredths / 100) in
      let sign := if Qclt_le_dec q 0 then "-" else EmptyString in
      sign ++ group_digits whole (String.length whole)
           ++ fraction_digits (hundredths mod 100)
  end.

Definition billion : number := of_Z 1000000000.
Definition million : number := of_Z 1000000.

(** [formatNumberWithCommas(number)]; [None] is [null]. *)
Definition formatNumberWithCommas (number : option number) : string :=
  match number with
  | None => "N/A"
  | Some number =>
      if isNaN number then "N/A"
      else
        let '(number, suffix) :=
          if ge (Math_abs number) billion then (div number billion, "b")
          else if ge (Math_abs number) million then (div number million, "m")
          else (number, EmptyString) in
        toLocaleString number ++ suffix
  end.

(* ------------------------------------------------------------------ *)
(** ** Pages, the network, asynchronous functions *)

(** A row of [$('table tr, .table-row, [data-test="table-row"]')]: the
    text of its first-child cells and of its second-child cells, as
    [$(row).find(...).text()] returns them. *)
Record Row : Type := {
  firstCell : string;
  secondCell : string
}.

(** A cell of [$('table td, table th, [data-test="table-cell"],
    .table-cell')]: its text and the text of the element after it. *)
Record Cell : Type := {
  cellText : string;
  nextText : string
}.

(** A parsed page ([cheerio.load]), as the answers to the queries of the
    code: [select selector] is the text of the elements [selector] matches,
    [None] when it matches none. *)
Record Page : Type := {
  select : string -> option string;
  table_rows : list Row;
  table_cells : list Cell;
  header_elements : list string
}.

(** [$(selector).text()] *)
Definition text_of (page : Page) (selector : string) : string :=
  match select page selector with
  | Some text => text
  | None => EmptyString
  end.

(** What the code reads of a response. *)
Record Response : Type := {
  content_type : option string;           (* headers['content-type'] *)
  body : Page;                            (* cheerio.load(data) *)
  regularMarketPrice : option number;     (* data?.chart?.result?.[0]?.meta?.regularMarketPrice *)
  rates : option (string -> option number) (* data.rates *)
}.

(** A thrown value: its message, the status of [error.response] when there
    is one, and whether there is an [error.request]. *)
Record Error : Type := {
  message : string;
  response_status : option nat;
  has_request : bool
}.

(** [new Error(message)] *)
Definition new_Error (message : string) : Error :=
  {| message := message; response_status := None; has_request := false |}.

(** How a request ends: a response, a failure status, no response, or a
    failure before the request is sent. *)
Inductive AxiosResult : Type :=
| Fulfilled (response : Response)
| FailedStatus (status : nat)
| FailedNoResponse (message : string)
| FailedSetup (message : string).

(** The world outside: the answer to a request, given the requests already
    made; the order in which the five extractions settle; the clock. *)
Record Network : Type := {
  respond : list string -> string -> AxiosResult;
  settle_order : list nat;
  clock : string
}.

Inductive Outcome (A : Type) : Type :=
| Resolved (value : A)
| Rejected (error : Error).

Arguments Resolved {A} value.
Arguments Rejected {A} error.

(** An asynchronous computation: it reads the network, extends the log of
    the URLs requested, and resolves or rejects. *)
Definition Async (A : Type) : Type :=
  Network -> list string -> Outcome A * list string.

Definition ret {A : Type} (value : A) : Async A :=
  fun _ log => (Resolved value, log).

Definition throw {A : Type} (error : Error) : Async A :=
  fun _ log => (Rejected error, log).

Definition bind {A B : Type} (c : Async A) (k : A -> Async B) : Async B :=
  fun net log =>
    match c net log with
    | (Resolved value, log') => k value net log'
    | (Rejected error, log') => (Rejected error, log')
    end.

Definition try_catch {A : Type} (c : Async A) (handler : Error -> Async A) : Async A :=
  fun net log =>
    match c net log with
    | (Resolved value, log') => (Resolved value, log')
    | (Rejected error, log') => handler error net log'
    end.

Declare Scope async_scope.
Delimit Scope async_scope with async.
Notation "x <- c ;; k" := (bind c (fun x => k))
  (at level 61, c at next level, right associativity) : async_scope.
Local Open Scope async_scope.

Definition string_of_nat (n : nat) : string := string_of_N (N.of_nat n).

(** [axios.get(url)] *)
Definition axios_get (url : string) : Async Response :=
  fun net log =>
    let log' := (log ++ [url])%list in
    match respond net log url with
    | Fulfilled response => (Resolved response, log')
    | FailedStatus status =>
        (Rejected {| message := "Request failed with status code " ++ string_of_nat status;
                     response_status := Some status;
                     has_request := true |}, log')
    | FailedNoResponse message =>
        (Rejected {| message := message; response_status := None; has_request := true |}, log')
    | FailedSetup message =>
        (Rejected (new_Error message), log')
    end.

(** [new Date().toISOString()] *)
Definition now : Async string :=
  fun net log => (Resolved (clock net), log).

(** [fetchHtml(url)] *)
Definition fetchHtml (url : string) : Async Page :=
  try_catch
    (response <- axios_get url ;;
     let contentType :=
       match content_type response with Some value => value | None => EmptyString end in
     if negb (includes contentType "text/html") then
       throw (new_Error ("Unexpected content type: " ++ contentType))
     else ret (body response))
    (fun error =>
       match response_status error with
       | Some status =>
           throw (new_Error ("Failed to fetch data from " ++ url ++ ": HTTP "
                             ++ string_of_nat status))
       | None =>
           if has_request error then
             throw (new_Error ("Failed to fetch data from " ++ url
               ++ ": No response received. The service might be temporarily unavailable."))
           else
             throw (new_Error ("Failed to fetch data from " ++ url ++ ": "
                               ++ message error))
       end).

(* ------------------------------------------------------------------ *)
(** ** Field extraction *)

Record FieldResult : Type := {
  value : number;
  formattedValue : string;
  sourceUrl : string
}.

Definition rowLabel (row : Row) : string := trim (firstCell row).
Definition valueText (row : Row) : string := trim (secondCell row).
Definition rowValue (row : Row) : option number := extractNumber (Some (valueText row)).

(** An [each] loop that stops at the first row passing [test] and assigns
    the number read from that row: the assigned value, [None] when no row
    passes or the text of the row does not parse. *)
Definition first_row_value (test : string -> bool) (rows : list Row) : option number :=
  match find (fun row => test (rowLabel row)) rows with
  | Some row => rowValue row
  | None => None
  end.

Definition includes_any (label : string) (patterns : list string) : bool :=
  existsb (includes label) patterns.

(** First attempt: the row labelled exactly [Free Cash Flow]. *)
Definition fcf_exact (page : Page) : option number :=
  first_row_value (fun label => String.eqb label "Free Cash Flow") (table_rows page).

(** Second attempt: a row whose lower-cased label contains
    [free cash flow]. *)
Definition fcf_substring (page : Page) : option number :=
  first_row_value (fun label => includes (toLowerCase label) "free cash flow")
                  (table_rows page).

(** Third attempt, one round of the loop: the operating cash flow and the
    capital expenditures read so far. *)
Definition fcf_derived_step (state : option number * option number) (row : Row)
  : option number * option number :=
  let '(operatingCashFlow, capitalExpenditures) := state in
  let label := toLowerCase (rowLabel row) in
  if includes_any label ["operating cash flow"; "cash from operations";
                         "net cash provided by operating activities"] then
    (rowValue row, capitalExpenditures)
  else if includes_any label ["capital expenditure"; "capex";
                              "purchases of property and equipment"] then
    (operatingCashFlow, rowValue row)
  else state.

Definition fcf_derived (page : Page) : option number :=
  match fold_left fcf_derived_step (table_rows page) (None, None) with
  | (Some operatingCashFlow, Some capitalExpenditures) =>
      Some (sub operatingCashFlow (Math_abs capitalExpenditures))
  | _ => None
  end.

(** The chain of [getFreeCashFlow] on a fetched page. *)
Definition freeCashFlow_of_page (page : Page) : option number :=
  let freeCashFlow := fcf_exact page in
  let freeCashFlow :=
    match freeCashFlow with
    | None => fcf_substring page
    | Some _ => freeCashFlow
    end in
  match freeCashFlow with
  | None => fcf_derived page
  | Some _ => freeCashFlow
  end.

Definition cashFlowUrl (ticker : string) : string :=
  "https://stockanalysis.com/stocks/" ++ ticker ++ "/financials/cash-flow-statement/".

Definition getFreeCashFlow (ticker : string) : Async FieldResult :=
  let url := cashFlowUrl ticker in
  page <- fetchHtml url ;;
  match freeCashFlow_of_page page with
  | None => throw (new_Error ("Failed to parse Free Cash Flow data for " ++ ticker))
  | Some freeCashFlow =>
      ret {| value := freeCashFlow;
             formattedValue := formatNumberWithCommas (Some freeCashFlow);
             sourceUrl := url |}
  end.

Record BalanceSheet : Type := {
  bs_cashAndEquivalents : number;
  bs_formattedCashAndEquivalents : string;
  bs_totalDebt : number;
  bs_formattedTotalDebt : string;
  bs_sourceUrl : string
}.

(** First loop of [getBalanceSheetData], one round: cash and debt read so
    far. *)
Definition balance_step (state : option number * option number) (row : Row)
  : option number * option number :=
  let '(cashAndEquivalents, totalDebt) := state in
  let label := toLowerCase (rowLabel row) in
  if includes label "cash and cash equivalents"
     || String.eqb label "cash and equivalents"
     || String.eqb label "cash & equivalents" then
    (rowValue row, totalDebt)
  else if includes label "total debt" then
    (cashAndEquivalents, rowValue row)
  else state.

(** Long-term and short-term debt, one round of the loop. *)
Definition debt_step (state : option number * option number) (row : Row)
  : option number * option number :=
  let '(longTermDebt, shortTermDebt) := state in
  let label := toLowerCase (rowLabel row) in
  if includes_any label ["long-term debt"; "long term debt"] then
    (rowValue row, shortTermDebt)
  else if includes_any label ["short-term debt"; "short term debt";
                              "current portion of long-term debt"] then
    (longTermDebt, rowValue row)
  else state.

Definition balance_of_page (page : Page) : option number * option number :=
  let rows := table_rows page in
  let '(cashAndEquivalents, totalDebt) := fold_left balance_step rows (None, None) in
  let cashAndEquivalents :=
    match cashAndEquivalents with
    | None =>
        first_row_value
          (fun label => includes (toLowerCase label) "cash"
                        && negb (includes (toLowerCase label) "flow")) rows
    | Some _ => cashAndEquivalents
    end in
  let totalDebt :=
    match totalDebt with
    | None =>
        match fold_left debt_step rows (None, None) with
        | (Some longTermDebt, Some shortTermDebt) => Some (add longTermDebt shortTermDebt)
        | (Some longTermDebt, None) => Some longTermDebt
        | (None, _) => None
        end
    | Some _ => totalDebt
    end in
  (cashAndEquivalents, totalDebt).

Definition balanceSheetUrl (ticker : string) : string :=
  "https://stockanalysis.com/stocks/" ++ ticker ++ "/financials/balance-sheet/?p=trailing".

Definition getBalanceSheetData (ticker : string) : Async BalanceSheet :=
  let url := balanceSheetUrl ticker in
  page <- fetchHtml url ;;
  match balance_of_page page with
  | (None, _) =>
      throw (new_Error ("Failed to parse Cash and Equivalents data for " ++ ticker))
  | (Some _, None) =>
      throw (new_Error ("Failed to parse Total Debt data for " ++ ticker))
  | (Some cashAndEquivalents, Some totalDebt) =>
      ret {| bs_cashAndEquivalents := cashAndEquivalents;
             bs_formattedCashAndEquivalents := formatNumberWithCommas (Some cashAndEquivalents);
             bs_totalDebt := totalDebt;
             bs_formattedTotalDebt := formatNumberWithCommas (Some totalDebt);
             bs_sourceUrl := url |}
  end.

(** Third attempt of [getSharesOutstanding]: the first cell that mentions
    shares outstanding, not treasury, and has a number above a million
    next to it or in it. *)
Fixpoint shares_from_cells (cells : list Cell) : option number :=
  match cells with
  | [] => None
  | cell :: rest =>
      let text := toLowerCase (trim (cellText cell)) in
      if includes text "shares" && includes text "outstanding"
         && negb (includes text "treasury") then
        let valueText :=
          if nonempty (trim (nextText cell)) then trim (nextText cell) else text in
        match extractNumber (Some valueText) with
        | Some possibleValue =>
            if gt possibleValue million then Some possibleValue
            else shares_from_cells rest
        | None => shares_from_cells rest
        end
      else shares_from_cells rest
  end.

Definition sharesOutstanding_of_page (page : Page) : option number :=
  let rows := table_rows page in
  let sharesOutstanding :=
    first_row_value
      (fun label =>
         includes_any (toLowerCase label)
           ["shares outstanding (diluted)"; "diluted shares outstanding";
            "weighted average shares diluted"]) rows in
  let sharesOutstanding :=
    match sharesOutstanding with
    | None =>
        first_row_value
          (fun label =>
             includes_any (toLowerCase label)
               ["shares outstanding"; "common shares outstanding"]) rows
    | Some _ => sharesOutstanding
    end in
  match sharesOutstanding with
  | None => shares_from_cells (table_cells page)
  | Some _ => sharesOutstanding
  end.

Definition financialsUrl (ticker : string) : string :=
  "https://stockanalysis.com/stocks/" ++ ticker ++ "/financials/".

Definition getSharesOutstanding (ticker : string) : Async FieldResult :=
  let url := financialsUrl ticker in
  page <- fetchHtml url ;;
  match sharesOutstanding_of_page page with
  | None => throw (new_Error ("Failed to parse Shares Outstanding data for " ++ ticker))
  | Some sharesOutstanding =>
      ret {| value := sharesOutstanding;
             formattedValue := formatNumberWithCommas (Some sharesOutstanding);
             sourceUrl := url |}
  end.

(** The double quote, for the selectors that contain one. *)
Definition dq : string := String (ascii_of_nat 34) EmptyString.

Definition yahooUrl (ticker : string) : string :=
  "https://query1.finance.yahoo.com/v8/finance/chart/" ++ ticker.

Definition overviewUrl (ticker : string) : string :=
  "https://stockanalysis.com/stocks/" ++ ticker ++ "/".

Definition priceSelectors : list string :=
  [ "[data-test=" ++ dq ++ "price-value" ++ dq ++ "]";
    "[data-test=" ++ dq ++ "symbol-price" ++ dq ++ "]";
    ".symbol-price";
    ".price-value";
    "[data-test=" ++ dq ++ "instrument-price-last" ++ dq ++ "]" ].

(** [for (const selector of priceSelectors)]: the first selector that
    matches an element whose text is a positive number. *)
Fixpoint price_from_selectors (page : Page) (selectors : list string) : option number :=
  match selectors with
  | [] => None
  | selector :: rest =>
      match select page selector with
      | Some text =>
          match extractNumber (Some (trim text)) with
          | Some price =>
              if gt price zero then Some price
              else price_from_selectors page rest
          | None => price_from_selectors page rest
          end
      | None => price_from_selectors page rest
      end
  end.

(** A value used as a condition: [undefined], zero and [NaN] are false. *)
Definition if_truthy (price : option number) : option number :=
  match price with
  | Some p => if truthy p then Some p else None
  | None => None
  end.

Definition getCurrentPrice (ticker : string) : Async FieldResult :=
  try_catch
    (response <- axios_get (yahooUrl ticker) ;;
     match if_truthy (regularMarketPrice response) with
     | Some price =>
         ret {| value := price;
                formattedValue := formatNumberWithCommas (Some price);
                sourceUrl := "https://finance.yahoo.com/quote/" ++ ticker |}
     | None =>
         let url := overviewUrl ticker in
         page <- fetchHtml url ;;
         match price_from_selectors page priceSelectors with
         | None => throw (new_Error ("Failed to parse Current Price data for " ++ ticker))
         | Some currentPrice =>
             ret {| value := currentPrice;
                    formattedValue := formatNumberWithCommas (Some currentPrice);
                    sourceUrl := url |}
         end
     end)
    (fun error =>
       throw (new_Error ("Failed to fetch current price for " ++ ticker ++ ": "
                         ++ message error))).

Fixpoint drop (n : nat) (s : string) : string :=
  match n, s with
  | O, _ => s
  | S n', String _ rest => drop n' rest
  | S _, EmptyString => EmptyString
  end.

(** [s.replace(new RegExp(pattern, 'i'), '')] for a pattern without
    special characters: the first occurrence, whatever its case, is
    removed. *)
Fixpoint remove_first_ci (s pattern : string) : string :=
  if startsWith (toLowerCase s) (toLowerCase pattern) then drop (String.length pattern) s
  else
    match s with
    | EmptyString => EmptyString
    | String c rest => String c (remove_first_ci rest pattern)
    end.

(** [title.split('|')]: the first part when there are at least two. *)
Fixpoint before_bar (title : string) : option string :=
  match title with
  | EmptyString => None
  | String c rest =>
      if Ascii.eqb c "|" then Some EmptyString
      else option_map (String c) (before_bar rest)
  end.

(** The loop over [h1, h2, .header-text, [data-test*="header"]]: the first
    plausible text that is not empty once the ticker is removed. *)
Fixpoint name_from_headers (ticker : string) (texts : list string) : string :=
  match texts with
  | [] => EmptyString
  | raw :: rest =>
      let text := trim raw in
      if nonempty text && (1 <? String.length text)%nat && (String.length text <? 100)%nat
         && negb (includes text "http") && negb (includes text "www") then
        let cleanText := trim (remove_first_ci text ("(" ++ ticker ++ ")")) in
        if nonempty cleanText then cleanText else name_from_headers ticker rest
      else name_from_headers ticker rest
  end.

(** The chain of [getCompanyName] on a fetched page; the empty string
    stands for a name that is [null] or empty. *)
Definition companyName_of_page (ticker : string) (page : Page) : string :=
  let title := text_of page "title" in
  let companyName :=
    match before_bar title with
    | Some first => trim first
    | None => EmptyString
    end in
  let companyName :=
    if negb (nonempty companyName) then
      let header :=
        trim (text_of page ("[data-test=" ++ dq ++ "instrument-header-name" ++ dq
                            ++ "], .company-name, h1")) in
      trim (remove_first_ci header ("(" ++ ticker ++ ")"))
    else companyName in
  if negb (nonempty companyName) then name_from_headers ticker (header_elements page)
  else companyName.

Definition getCompanyName (ticker : string) : Async string :=
  page <- fetchHtml (overviewUrl ticker) ;;
  let companyName := companyName_of_page ticker page in
  if negb (nonempty companyName) then
    throw (new_Error ("Failed to parse Company Name for " ++ ticker))
  else ret companyName.

(* ------------------------------------------------------------------ *)
(** ** Currency detection and exchange rate *)

Definition currencyPatterns : list (string * list string) :=
  [ ("TWD", ["millions twd"; "twd millions"; "million twd"; "ntd";
             "new taiwan dollar"; "taiwan dollar"]);
    ("CNY", ["millions cny"; "cny millions"; "million cny"; "rmb"; "yuan";
             "chinese yuan"]);
    ("JPY", ["millions jpy"; "jpy millions"; "million jpy"; "yen"; "japanese yen"]);
    ("EUR", ["millions eur"; "eur millions"; "million eur"; "€"; "euro"]);
    ("GBP", ["millions gbp"; "gbp millions"; "million gbp"; "£"; "british pound"]);
    ("HKD", ["millions hkd"; "hkd millions"; "million hkd"; "hong kong dollar"]) ].

(** [for (const [curr, patterns] of Object.entries(currencyPatterns))]:
    the first code one of whose patterns the text contains. *)
Definition keyword_currency (text : string) : option string :=
  option_map fst
    (find (fun entry => existsb (includes text) (snd entry)) currencyPatterns).

Definition is_letter (c : ascii) : bool := is_lower c || is_upper c.

(** [/financials in millions ([a-z]{3})/i] tried at the start of [s]: the
    three letters captured. *)
Definition match_here (s : string) : option string :=
  if startsWith (toLowerCase s) "financials in millions " then
    match drop 23 s with
    | String a (String b (String c _)) =>
        if is_letter a && is_letter b && is_letter c
        then Some (String a (String b (String c EmptyString)))
        else None
    | _ => None
    end
  else None.

(** [text.match(/financials in millions ([a-z]{3})/i)]: the capture of the
    leftmost match. *)
Fixpoint match_financials (text : string) : option string :=
  match match_here text with
  | Some captured => Some captured
  | None =>
      match text with
      | EmptyString => None
      | String _ rest => match_financials rest
      end
  end.

(** The body of [detectReportingCurrency] on a fetched page. *)
Definition detectCurrency (page : Page) : string :=
  let currency := "USD" in
  let headerText := toLowerCase (text_of page "h1, .financials-header, .table-header") in
  let pageText := toLowerCase (text_of page "body") in
  let currency :=
    match keyword_currency headerText with
    | Some curr => curr
    | None => currency
    end in
  let currency :=
    if String.eqb currency "USD" then
      match keyword_currency pageText with
      | Some curr => curr
      | None => currency
      end
    else currency in
  match match_financials pageText with
  | Some captured =>
      let detectedCurrency := toUpperCase captured in
      if existsb (String.eqb detectedCurrency) (map fst currencyPatterns)
      then detectedCurrency
      else currency
  | None => currency
  end.

Definition detectReportingCurrency (ticker : string) : Async string :=
  page <- fetchHtml (financialsUrl ticker) ;;
  ret (detectCurrency page).

Record ExchangeRate : Type := {
  rate : number;
  timestamp : string;
  fromCurrency : string;
  toCurrency : string;
  error : bool     (* whether the object has [error: true] *)
}.

Definition exchangeRateUrl : string := "https://api.exchangerate-api.com/v4/latest/USD".

Definition getExchangeRate (fromCurrency : string) : Async ExchangeRate :=
  if String.eqb fromCurrency "USD" then
    time <- now ;;
    ret {| rate := one; timestamp := time;
           fromCurrency := "USD"; toCurrency := "USD"; error := false |}
  else
    try_catch
      (response <- axios_get exchangeRateUrl ;;
       match rates response with
       | None =>
           (* [rates] is undefined: reading [rates[fromCurrency]] throws *)
           throw (new_Error "Cannot read properties of undefined")
       | Some rates =>
           let quoted :=
             match rates fromCurrency with
             | Some r => r
             | None => NaN       (* [1 / undefined] *)
             end in
           time <- now ;;
           ret {| rate := div one quoted; timestamp := time;
                  fromCurrency := fromCurrency; toCurrency := "USD"; error := false |}
       end)
      (fun _ =>
         time <- now ;;
         ret {| rate := one; timestamp := time;
                fromCurrency := fromCurrency; toCurrency := "USD"; error := true |}).

(* ------------------------------------------------------------------ *)
(** ** The endpoint [GET /stock/:ticker] *)

(** What the handler sends: [res.json({ success: true, data })], or
    [res.status(status).json({ success: false, error: { message, status,
    originalError } })]. *)
Inductive ApiResponse : Type :=
| json_success (data : StockData)
| json_failure (status : nat) (message : string) (originalError : option string).

Definition success (response : ApiResponse) : bool :=
  match response with
  | json_success _ => true
  | json_failure _ _ _ => false
  end.

Definition data (response : ApiResponse) : option StockData :=
  match response with
  | json_success d => Some d
  | json_failure _ _ _ => None
  end.

Definition http_status (response : ApiResponse) : nat :=
  match response with
  | json_success _ => 200
  | json_failure status _ _ => status
  end.

(** [handleError(error, res, ticker)] *)
Definition handleError (error : Error) (ticker : string) : ApiResponse :=
  let isScrapingError :=
    includes (message error) "Failed to parse"
    || includes (message error) "Failed to fetch" in
  let fallback := if isScrapingError then 503 else 500 in
  let status :=
    match response_status error with
    | Some (S n) => S n
    | _ => fallback
    end in
  let text :=
    if isScrapingError then
      "Unable to retrieve data for " ++ ticker
      ++ ". This could be due to temporary service issues or changes in the website structure."
    else if nonempty (message error) then message error
    else "Internal Server Error" in
  json_failure status text (Some (message error)).

Fixpoint all_chars (test : ascii -> bool) (s : string) : bool :=
  match s with
  | EmptyString => true
  | String c rest => test c && all_chars test rest
  end.

(** [/^[A-Z]{1,5}$/.test(ticker)] *)
Definition ticker_format (ticker : string) : bool :=
  (1 <=? String.length ticker)%nat && (String.length ticker <=? 5)%nat
  && all_chars is_upper ticker.

Definition rejection {A : Type} (outcome : Outcome A) : option Error :=
  match outcome with
  | Resolved _ => None
  | Rejected error => Some error
  end.

(** The outcome of each of the five extractions.  Each is run to its end
    before the next, so the answer to a request is looked up with the log
    as this order makes it.  The code issues the first request of each
    before it handles any answer: the requests of the log are those of the
    code, the second request of the price lookup, when there is one, being
    logged earlier than the code issues it. *)
Definition settle_all {A B C D E : Type}
    (a : Async A) (b : Async B) (c : Async C) (d : Async D) (e : Async E)
    (net : Network) (log : list string)
  : (Outcome A * Outcome B * Outcome C * Outcome D * Outcome E) * list string :=
  let '(ra, log) := a net log in
  let '(rb, log) := b net log in
  let '(rc, log) := c net log in
  let '(rd, log) := d net log in
  let '(re, log) := e net log in
  ((ra, rb, rc, rd, re), log).

(** The rejection that settles first: the first position of [order], then
    of the launch order, at which there is one. *)
Fixpoint first_rejection (order : list nat) (rejections : list (option Error)) : Error :=
  match order with
  | [] => new_Error EmptyString
  | i :: rest =>
      match nth i rejections None with
      | Some error => error
      | None => first_rejection rest rejections
      end
  end.

(** [Promise.all([a, b, c, d, e])]: all five values, or the rejection that
    came first. *)
Definition Promise_all {A B C D E : Type}
    (a : Async A) (b : Async B) (c : Async C) (d : Async D) (e : Async E)
  : Async (A * B * C * D * E) :=
  fun net log =>
    let '((ra, rb, rc, rd, re), log') := settle_all a b c d e net log in
    match ra, rb, rc, rd, re with
    | Resolved va, Resolved vb, Resolved vc, Resolved vd, Resolved ve =>
        (Resolved (va, vb, vc, vd, ve), log')
    | _, _, _, _, _ =>
        (Rejected
           (first_rejection (settle_order net ++ [0; 1; 2; 3; 4])%list
              [rejection ra; rejection rb; rejection rc; rejection rd; rejection re]),
         log')
    end.

(** The object [stockData] the handler compiles. *)
Definition compile_stockData (ticker reportingCurrency : string)
    (exchangeRate : ExchangeRate) (companyName : string)
    (currentPriceData freeCashFlowData : FieldResult)
    (balanceSheetData : BalanceSheet) (sharesOutstandingData : FieldResult)
  : StockData :=
  let convertToUSD := fun v => mul v (rate exchangeRate) in
  {| companyName := companyName;
     ticker := ticker;
     reportingCurrency := reportingCurrency;
     exchangeRate := rate exchangeRate;
     currentPrice := value currentPriceData;
     formattedCurrentPrice := formattedValue currentPriceData;
     freeCashFlow := value freeCashFlowData;
     freeCashFlowUSD := convertToUSD (value freeCashFlowData);
     formattedFreeCashFlow :=
       formatNumberWithCommas (Some (value freeCashFlowData)) ++ " " ++ reportingCurrency;
     formattedFreeCashFlowUSD :=
       "$" ++ formatNumberWithCommas (Some (convertToUSD (value freeCashFlowData)));
     cashAndEquivalents := bs_cashAndEquivalents balanceSheetData;
     cashAndEquivalentsUSD := convertToUSD (bs_cashAndEquivalents balanceSheetData);
     formattedCashAndEquivalents :=
       formatNumberWithCommas (Some (bs_cashAndEquivalents balanceSheetData))
       ++ " " ++ reportingCurrency;
     formattedCashAndEquivalentsUSD :=
       "$" ++ formatNumberWithCommas
                (Some (convertToUSD (bs_cashAndEquivalents balanceSheetData)));
     totalDebt := bs_totalDebt balanceSheetData;
     totalDebtUSD := convertToUSD (bs_totalDebt balanceSheetData);
     formattedTotalDebt :=
       formatNumberWithCommas (Some (bs_totalDebt balanceSheetData))
       ++ " " ++ reportingCurrency;
     formattedTotalDebtUSD :=
       "$" ++ formatNumberWithCommas (Some (convertToUSD (bs_totalDebt balanceSheetData)));
     sharesOutstanding := value sharesOutstandingData;
     formattedSharesOutstanding := formattedValue sharesOutstandingData;
     sourceUrls :=
       {| overview := sourceUrl currentPriceData;
          financials := sourceUrl sharesOutstandingData;
          cashFlow := sourceUrl freeCashFlowData;
          balanceSheet := bs_sourceUrl balanceSheetData |} |}.

(** [res.status(400).json({ success: false, error: { message, status:
    400 } })] *)
Definition invalid_ticker_response : ApiResponse :=
  json_failure 400
    "Invalid ticker format. Please provide a valid stock ticker symbol." None.

(** The body of the [try] block of the handler. *)
Definition stock_try (ticker : string) : Async ApiResponse :=
  if negb (ticker_format ticker) then ret invalid_ticker_response
  else
    reportingCurrency <- detectReportingCurrency ticker ;;
    exchangeRate <- getExchangeRate reportingCurrency ;;
    results <- Promise_all (getCompanyName ticker)
                           (getCurrentPrice ticker)
                           (getFreeCashFlow ticker)
                           (getBalanceSheetData ticker)
                           (getSharesOutstanding ticker) ;;
    let '(companyName, currentPriceData, freeCashFlowData,
          balanceSheetData, sharesOutstandingData) := results in
    ret (json_success
           (compile_stockData ticker reportingCurrency exchangeRate companyName
              currentPriceData freeCashFlowData balanceSheetData
              sharesOutstandingData)).

(** [router.get('/stock/:ticker', ...)]: the response sent for the path
    parameter [param], and the URLs requested on the way. *)
Definition stock_route (param : string) (net : Network) : ApiResponse * list string :=
  let ticker := toUpperCase param in
  match stock_try ticker net [] with
  | (Resolved response, log) => (response, log)
  | (Rejected error, log) => (handleError error ticker, log)
  end.

(* ------------------------------------------------------------------ *)
(** ** Sample pages and networks *)

Definition empty_page : Page :=
  {| select := fun _ => None; table_rows := []; table_cells := []; header_elements := [] |}.

Definition html_response (page : Page) : AxiosResult :=
  Fulfilled {| content_type := Some "text/html; charset=utf-8";
               body := page;
               regularMarketPrice := None;
               rates := None |}.

Definition quote_response (price : number) : AxiosResult :=
  Fulfilled {| content_type := Some "application/json";
               body := empty_page;
               regularMarketPrice := Some price;
               rates := None |}.

Definition rates_response (table : string -> option number) : AxiosResult :=
  Fulfilled {| content_type := Some "application/json";
               body := empty_page;
               regularMarketPrice := None;
               rates := Some table |}.

Definition row (label text : string) : Row :=
  {| firstCell := label; secondCell := text |}.

(** A page with the given rows and the given text of its heading and of
    its body. *)
Definition statement_page (heading text : string) (rows : list Row) : Page :=
  {| select := fun selector =>
       if String.eqb selector "body" then Some text
       else if String.eqb selector "h1, .financials-header, .table-header"
       then Some heading
       else None;
     table_rows := rows;
     table_cells := [];
     header_elements := [heading] |}.

Definition tsm_financials : Page :=
  statement_page "Taiwan Semiconductor (TSM) Financials"
    "Taiwan Semiconductor (TSM) Financials Financials in millions TWD. Fiscal year is January - December."
    [ row "Revenue" "2,894,308";
      row "Shares Outstanding (Diluted)" "25,930" ].

Definition tsm_overview : Page :=
  {| select := fun selector =>
       if String.eqb selector "title"
       then Some "Taiwan Semiconductor (TSM) Stock Price & Overview | Stock Analysis"
       else None;
     table_rows := [];
     table_cells := [];
     header_elements := [] |}.

Definition tsm_cash_flow : Page :=
  statement_page "Taiwan Semiconductor (TSM) Cash Flow Statement"
    "Taiwan Semiconductor (TSM) Cash Flow Statement Financials in millions TWD."
    [ row "Operating Cash Flow" "1,826,177";
      row "Capital Expenditures" "-956,007";
      row "Free Cash Flow" "870,170" ].

Definition tsm_balance_sheet : Page :=
  statement_page "Taiwan Semiconductor (TSM) Balance Sheet"
    "Taiwan Semiconductor (TSM) Balance Sheet Financials in millions TWD."
    [ row "Cash & Equivalents" "2,127,627";
      row "Total Debt" "1,047,042" ].

(** A network that serves the pages of [TSM], with the given answers for
    the cash-flow page and for the rate feed. *)
Definition tsm_network (cash_flow feed : AxiosResult) : Network :=
  {| respond := fun _ url =>
       if String.eqb url (financialsUrl "TSM") then html_response tsm_financials
       else if String.eqb url (overviewUrl "TSM") then html_response tsm_overview
       else if String.eqb url (yahooUrl "TSM") then quote_response (of_Z 170)
       else if String.eqb url (cashFlowUrl "TSM") then cash_flow
       else if String.eqb url (balanceSheetUrl "TSM") then html_response tsm_balance_sheet
       else if String.eqb url exchangeRateUrl then feed
       else FailedStatus 404;
     settle_order := [];
     clock := "2025-01-01T00:00:00.000Z" |}.

(** The feed quotes 32 TWD for a dollar. *)
Definition feed_quote (units : number) : AxiosResult :=
  rates_response (fun code => if String.eqb code "TWD" then Some units else None).

Definition tsm_net : Network :=
  tsm_network (html_response tsm_cash_flow) (feed_quote (of_Z 32)).

(** The rate feed is down. *)
Definition feed_down_net : Network :=
  tsm_network (html_response tsm_cash_flow) (FailedNoResponse "timeout of 15000ms exceeded").

(** The rate feed works and quotes one TWD for a dollar. *)
Definition feed_par_net : Network :=
  tsm_network (html_response tsm_cash_flow) (feed_quote (of_Z 1)).

(** The cash-flow page has lost its table. *)
Definition no_cash_flow_net : Network :=
  tsm_network
    (html_response (statement_page "Taiwan Semiconductor (TSM) Cash Flow Statement"
                                   "Taiwan Semiconductor (TSM) Cash Flow Statement" []))
    (feed_quote (of_Z 32)).

(** The rejections among five outcomes, in launch order. *)
Definition rejections {A B C D E : Type}
    (outcomes : Outcome A * Outcome B * Outcome C * Outcome D * Outcome E)
  : list (option Error) :=
  let '(ra, rb, rc, rd, re) := outcomes in
  [rejection ra; rejection rb; rejection rc; rejection rd; rejection re].

Definition is_some {A : Type} (o : option A) : bool :=
  match o with Some _ => true | None => false end.

Definition any_rejected {A B C D E : Type}
    (outcomes : Outcome A * Outcome B * Outcome C * Outcome D * Outcome E) : bool :=
  existsb is_some (rejections outcomes).

(** The codes a snapshot may carry as its reporting currency. *)
Definition known_codes : list string :=
  ["USD"; "TWD"; "CNY"; "JPY"; "EUR"; "GBP"; "HKD"].

(** Whether the rate feed fails for a request made after [log]: the
    request fails, or the answer carries no table of rates. *)
Definition feed_fails (net : Network) (log : list string) : bool :=
  match respond net log exchangeRateUrl with
  | Fulfilled response => negb (is_some (rates response))
  | _ => true
  end.

(** A cash-flow page whose first row mentions free cash flow without being
    the row of that name. *)
Definition mixed_cash_flow : Page :=
  statement_page "Taiwan Semiconductor (TSM) Cash Flow Statement"
    "Taiwan Semiconductor (TSM) Cash Flow Statement Financials in millions TWD."
    [ row "Levered Free Cash Flow" "612,400";
      row "Operating Cash Flow" "1,826,177";
      row "Capital Expenditures" "-956,007";
      row "Free Cash Flow" "870,170" ].

(** The same page when the figure of the [Free Cash Flow] row is missing. *)
Definition dashed_cash_flow : Page :=
  statement_page "Taiwan Semiconductor (TSM) Cash Flow Statement"
    "Taiwan Semiconductor (TSM) Cash Flow Statement Financials in millions TWD."
    [ row "Levered Free Cash Flow" "612,400";
      row "Operating Cash Flow" "1,826,177";
      row "Capital Expenditures" "-956,007";
      row "Free Cash Flow" "-" ].

(** The figure is missing and no other row mentions free cash flow. *)
Definition derived_cash_flow : Page :=
  statement_page "Taiwan Semiconductor (TSM) Cash Flow Statement"
    "Taiwan Semiconductor (TSM) Cash Flow Statement Financials in millions TWD."
    [ row "Operating Cash Flow" "1,826,177";
      row "Capital Expenditures" "-956,007";
      row "Free Cash Flow" "-" ].

(** Whether a row has exactly the label, and whether its label mentions
    it. *)
Definition exact_label (r : Row) : bool :=
  String.eqb (rowLabel r) "Free Cash Flow".

Definition substring_label (r : Row) : bool :=
  includes (toLowerCase (rowLabel r)) "free cash flow".

(** A page that reports two statements, the first one in yen. *)
Definition two_statements_page : Page :=
  statement_page "Group Financials"
    "Group Financials Subsidiary, financials in millions JPY. Parent, financials in millions TWD."
    [].

(** A page without any mention of a currency. *)
Definition plain_page : Page :=
  statement_page "Apple (AAPL) Financials"
    "Apple (AAPL) Financials Fiscal year is October - September."
    [].

(** A page whose only mention of a currency is the phrase. *)
Definition phrase_page : Page :=
  statement_page "Acme (ACME) Financials"
    "Acme (ACME) Financials financials in millions TWD"
    [].

(** A text without upper-case letters, such as a lower-cased text. *)
Definition lowered (s : string) : bool :=
  all_chars (fun c => negb (is_upper c)) s.

(* ------------------------------------------------------------------ *)
(** ** Notions used in the statements and proofs *)

(** Sign of a product, as a comparison with zero. *)
Definition cmp_mul (c d : comparison) : comparison :=
  match c, d with
  | Eq, _ | _, Eq => Eq
  | Gt, Gt | Lt, Lt => Gt
  | _, _ => Lt
  end.

(** A text made of digits, points and minus signs only. *)
Fixpoint all_numeric (s : string) : bool :=
  match s with
  | EmptyString => true
  | String c rest => numeric_char c && all_numeric rest
  end.

(** A computation only adds to the log of requests. *)
Definition extends {A : Type} (c : Async A) : Prop :=
  forall net log, exists added, snd (c net log) = (log ++ added)%list.

(** The five extractions of a request for [t]. *)
Definition extractions (t : string) (net : Network) (log : list string) :=
  settle_all (getCompanyName t) (getCurrentPrice t) (getFreeCashFlow t)
             (getBalanceSheetData t) (getSharesOutstanding t) net log.

(** The lower-case forms of the codes of the table. *)
Definition lower_codes : list string := ["twd"; "cny"; "jpy"; "eur"; "gbp"; "hkd"].

(* ------------------------------------------------------------------ *)
(** ** Further notions: errors, request traces *)

(** What [handleError] calls a scraping error. *)
Definition isScrapingError (e : Error) : bool :=
  includes (message e) "Failed to parse" || includes (message e) "Failed to fetch".

(** An error as the extraction functions throw them: a [new Error] whose
    message [handleError] recognises. *)
Definition pipeline_error (e : Error) : Prop :=
  response_status e = None /\ isScrapingError e = true.

(** Every rejection of a computation satisfies [P]. *)
Definition rejects_with {A : Type} (P : Error -> Prop) (c : Async A) : Prop :=
  forall net log e log', c net log = (Rejected e, log') -> P e.

Definition is_fulfilled (result : AxiosResult) : bool :=
  match result with
  | Fulfilled _ => true
  | _ => false
  end.

(** The message the endpoint sends with status 503. *)
Definition unavailable_message (ticker : string) : string :=
  "Unable to retrieve data for " ++ ticker
  ++ ". This could be due to temporary service issues or changes in the website structure.".

(** A network on which every request times out. *)
Definition dead_net : Network :=
  {| respond := fun _ _ => FailedNoResponse "timeout of 15000ms exceeded";
     settle_order := [4; 3; 2; 1; 0];
     clock := "2025-01-01T00:00:00.000Z" |}.

(** A computation that makes no request. *)
Definition silent {A : Type} (c : Async A) : Prop :=
  forall net log, snd (c net log) = log.

(** The requests for the rate of a currency: none for [USD], one
    otherwise. *)
Definition rate_requests (currency : string) : list string :=
  if String.eqb currency "USD" then [] else [exchangeRateUrl].

(** The second request of the price lookup: the overview page, asked for
    when the quote feed, requested after [log], answers without a usable
    price. *)
Definition fallback_requests (ticker : string) (net : Network) (log : list string)
  : list string :=
  match respond net log (yahooUrl ticker) with
  | Fulfilled response =>
      match if_truthy (regularMarketPrice response) with
      | Some _ => []
      | None => [overviewUrl ticker]
      end
  | _ => []
  end.

(* ------------------------------------------------------------------ *)
(** ** Further notions: loops over rows *)

(** One round of an [each] loop without a [break] that assigns the value
    of the row to a first variable when [first] holds of the row, else to a
    second variable when [second] holds. *)
Definition assign_step (first second : Row -> bool)
    (state : option number * option number) (r : Row)
  : option number * option number :=
  if first r then (rowValue r, snd state)
  else if second r then (fst state, rowValue r)
  else state.

(** The value of the last row of which [test] holds, [initial] when there
    is none. *)
Definition last_row_value (test : Row -> bool) (rows : list Row)
    (initial : option number) : option number :=
  match find test (rev rows) with
  | Some r => rowValue r
  | None => initial
  end.

Definition is_cash_row (r : Row) : bool :=
  let label := toLowerCase (rowLabel r) in
  includes label "cash and cash equivalents"
  || String.eqb label "cash and equivalents"
  || String.eqb label "cash & equivalents".

Definition is_total_debt_row (r : Row) : bool :=
  negb (is_cash_row r) && includes (toLowerCase (rowLabel r)) "total debt".

Definition is_operating_row (r : Row) : bool :=
  includes_any (toLowerCase (rowLabel r))
    ["operating cash flow"; "cash from operations";
     "net cash provided by operating activities"].

Definition is_capex_row (r : Row) : bool :=
  negb (is_operating_row r)
  && includes_any (toLowerCase (rowLabel r))
       ["capital expenditure"; "capex"; "purchases of property and equipment"].

(** Whether a cell is one the last attempt of [getSharesOutstanding]
    looks at. *)
Definition mentions_shares (cell : Cell) : bool :=
  let text := toLowerCase (trim (cellText cell)) in
  includes text "shares" && includes text "outstanding"
  && negb (includes text "treasury").

(** A financials page without a usable row: the share count has to come
    from the cells. *)
Definition cells_page : Page :=
  {| select := fun _ => None;
     table_rows := [];
     table_cells :=
       [ {| cellText := "Treasury Shares Outstanding"; nextText := "5,000,000" |};
         {| cellText := "Shares Outstanding (in thousands)"; nextText := "25,930" |};
         {| cellText := "Shares Outstanding"; nextText := "25,930,380,000" |} ];
     header_elements := [] |}.

(* ------------------------------------------------------------------ *)
(** ** The form of the client *)

(** [parseFloat(e.target.value) || 0], the value an edited field of the
    stock data takes. *)
Definition parse_or_zero (text : string) : number :=
  let parsed := parseFloat text in
  if truthy parsed then parsed else zero.

(** The [onChange] of the shares field:
    [setStockData({...stockData, sharesOutstanding: parseFloat(e.target.value) || 0})] *)
Definition edit_sharesOutstanding (text : string) (stockData : StockData) : StockData :=
  {| companyName := companyName stockData;
     ticker := ticker stockData;
     reportingCurrency := reportingCurrency stockData;
     exchangeRate := exchangeRate stockData;
     currentPrice := currentPrice stockData;
     formattedCurrentPrice := formattedCurrentPrice stockData;
     freeCashFlow := freeCashFlow stockData;
     freeCashFlowUSD := freeCashFlowUSD stockData;
     formattedFreeCashFlow := formattedFreeCashFlow stockData;
     formattedFreeCashFlowUSD := formattedFreeCashFlowUSD stockData;
     cashAndEquivalents := cashAndEquivalents stockData;
     cashAndEquivalentsUSD := cashAndEquivalentsUSD stockData;
     formattedCashAndEquivalents := formattedCashAndEquivalents stockData;
     formattedCashAndEquivalentsUSD := formattedCashAndEquivalentsUSD stockData;
     totalDebt := totalDebt stockData;
     totalDebtUSD := totalDebtUSD stockData;
     formattedTotalDebt := formattedTotalDebt stockData;
     formattedTotalDebtUSD := formattedTotalDebtUSD stockData;
     sharesOutstanding := parse_or_zero text;
     formattedSharesOutstanding := formattedSharesOutstanding stockData;
     sourceUrls := sourceUrls stockData |}.

Definition is_finite (x : number) : bool :=
  match x with Finite _ => true | _ => false end.

(** The ticker field and the four parameters of the form. *)
Record Form : Type := {
  form_ticker : string;
  form_inputs : DCFInputs
}.

(** [{ ...prev, [name]: numValue }]: a name that is not one of the four
    parameters leaves them as they are. *)
Definition set_input (name : string) (numValue : number) (prev : DCFInputs) : DCFInputs :=
  if String.eqb name "growthRate1to5" then
    {| growthRate1to5 := numValue;
       perpetualGrowthRate := perpetualGrowthRate prev;
       discountRate := discountRate prev;
       marginOfSafety := marginOfSafety prev |}
  else if String.eqb name "perpetualGrowthRate" then
    {| growthRate1to5 := growthRate1to5 prev;
       perpetualGrowthRate := numValue;
       discountRate := discountRate prev;
       marginOfSafety := marginOfSafety prev |}
  else if String.eqb name "discountRate" then
    {| growthRate1to5 := growthRate1to5 prev;
       perpetualGrowthRate := perpetualGrowthRate prev;
       discountRate := numValue;
       marginOfSafety := marginOfSafety prev |}
  else if String.eqb name "marginOfSafety" then
    {| growthRate1to5 := growthRate1to5 prev;
       perpetualGrowthRate := perpetualGrowthRate prev;
       discountRate := discountRate prev;
       marginOfSafety := numValue |}
  else prev.

(** [handleInputChange] for an event with [e.target.name = name] and
    [e.target.value = value]. *)
Definition handleInputChange (name value : string) (form : Form) : Form :=
  if String.eqb name "ticker" then
    {| form_ticker := toUpperCase value; form_inputs := form_inputs form |}
  else
    let numValue := parseFloat value in
    if negb (isNaN numValue) then
      {| form_ticker := form_ticker form;
         form_inputs := set_input name numValue (form_inputs form) |}
    else form.

(** The state [useState] starts from, and [resetForm] returns to. *)
Definition initial_form : Form :=
  {| form_ticker := EmptyString;
     form_inputs := {| growthRate1to5 := of_Z 10;
                       perpetualGrowthRate := decimal 25 1;
                       discountRate := of_Z 10;
                       marginOfSafety := of_Z 25 |} |}.

(** The form after a sequence of change events (name and value). *)
Definition after_events (events : list (string * string)) : Form :=
  fold_left (fun form event => handleInputChange (fst event) (snd event) form)
            events initial_form.

(** An entry of the history kept in local storage. *)
Record Calculation : Type := {
  calc_ticker : string;
  calc_companyName : string;
  calc_timestamp : string;
  calc_fairValue : number;
  calc_currentPrice : number
}.

(** [[calculation, ...savedCalculations.slice(0, 4)]] *)
Definition updatedCalculations (calculation : Calculation)
    (savedCalculations : list Calculation) : list Calculation :=
  calculation :: firstn 4 savedCalculations.

(** The history after the calculations of [saved], the oldest first, have
    been stored one after the other. *)
Definition history_after (saved : list Calculation) (stored : list Calculation)
  : list Calculation :=
  fold_left (fun history calculation => updatedCalculations calculation history)
            saved stored.

(** What the change handler keeps true of the form. *)
Definition form_ok (form : Form) : Prop :=
  isNaN (growthRate1to5 (form_inputs form)) = false /\
  isNaN (perpetualGrowthRate (form_inputs form)) = false /\
  isNaN (discountRate (form_inputs form)) = false /\
  isNaN (marginOfSafety (form_inputs form)) = false /\
  toUpperCase (form_ticker form) = form_ticker form.

(** A page whose heading names the euro and whose body also mentions the
    yen. *)
Definition euro_heading_page : Page :=
  statement_page "Airbus (AIR) Financials in Euro"
    "Airbus (AIR) Financials in Euro Hedged against the yen."
    [].

(* ------------------------------------------------------------------ *)
(** ** Further notions: hosts, rows and cells *)

(** The handler on a host whose [String.prototype.toUpperCase] is [upper]:
    the response sent for the path parameter [param], and the URLs
    requested on the way.  [stock_route] is the handler on a host that is
    only given ASCII. *)
Definition stock_route_on (upper : string -> string) (param : string) (net : Network)
  : ApiResponse * list string :=
  let ticker := upper param in
  match stock_try ticker net [] with
  | (Resolved response, log) => (response, log)
  | (Rejected error, log) => (handleError error ticker, log)
  end.

(** The sharp s U+00DF, which [toUpperCase] turns into [SS]. *)
Definition sharp_s : string := String (ascii_of_nat 195) (String (ascii_of_nat 159) EmptyString).

(** The no-break space U+00A0, as [&nbsp;] leaves it in the text of a
    cell. *)
Definition nbsp : string := String (ascii_of_nat 194) (String (ascii_of_nat 160) EmptyString).

(** A cash-flow page whose first row has a no-break space after its
    label. *)
Definition padded_cash_flow : Page :=
  statement_page "Taiwan Semiconductor (TSM) Cash Flow Statement"
    "Taiwan Semiconductor (TSM) Cash Flow Statement Financials in millions TWD."
    [ row ("Free Cash Flow" ++ nbsp) "111";
      row "Free Cash Flow" "222" ].



(** The text the last attempt of [getSharesOutstanding] reads the figure
    of a cell from: the text of the next element, or the lower-cased text
    of the cell itself when the next element has none. *)
Definition cell_valueText (cell : Cell) : string :=
  if nonempty (trim (nextText cell)) then trim (nextText cell)
  else toLowerCase (trim (cellText cell)).

(** Whether that attempt stops at a cell: the cell mentions shares
    outstanding and its figure is above a million. *)
Definition is_shares_cell (cell : Cell) : bool :=
  mentions_shares cell
  && match extractNumber (Some (cell_valueText cell)) with
     | Some possibleValue => gt possibleValue million
     | None => false
     end.

(** A cash-flow statement with two rows of operating cash flow and two of
    capital expenditures, and no row of free cash flow. *)
Definition restated_cash_flow : Page :=
  statement_page "Acme (ACME) Cash Flow Statement"
    "Acme (ACME) Cash Flow Statement"
    [ row "Operating Cash Flow" "900";
      row "Capital Expenditures" "-400";
      row "Operating Cash Flow (restated)" "1,000";
      row "Capital Expenditures (restated)" "300";
      row "Net Income" "250" ].

(** A text of decimal digits only. *)
Definition all_digits (s : string) : bool := all_chars is_digit s.

(** The number a text of decimal digits denotes: each digit counts for its
    value times the power of ten of its position. *)
Fixpoint numeral (digits : string) : N :=
  match digits with
  | EmptyString => 0%N
  | String c rest =>
      (digit_value c * 10 ^ N.of_nat (String.length rest) + numeral rest)%N
  end.

(** The text of a sign and of a fraction part. *)
Definition sign_text (negative : bool) : string :=
  if negative then "-" else EmptyString.

Definition fraction_text (fraction : option string) : string :=
  match fraction with
  | Some digits => "." ++ digits
  | None => EmptyString
  end.

Definition fraction_of (fraction : option string) : string :=
  match fraction with
  | Some digits => digits
  | None => EmptyString
  end.

(* ------------------------------------------------------------------ *)
(** ** Binary64: the numeric parser and the valuation engine *)

(** The same code over the numbers the language has: IEEE 754 binary64,
    with the operations of the processor (the primitive floats), so that
    every sum, product and quotient is rounded to the nearest
    representable number, a division by zero gives an infinity of the sign
    of the operands, and zero has a sign. *)
Module B64.

Import PrimFloat SpecFloat FloatOps.
Local Open Scope float_scope.

Definition number : Set := float.

(** The binary64 number nearest to [mantissa * 10^exponent] (ties to
    even; infinite beyond the largest number), with the given sign: the
    value of a decimal literal. *)
Definition nearest (negative : bool) (mantissa : N) (exponent : Z) : number :=
  match mantissa with
  | N0 => if negative then neg_zero else zero
  | Npos m =>
      SF2Prim
        (if (0 <=? exponent)%Z then
           let magnitude := (Z.pos m * 10 ^ exponent)%Z in
           binary_normalize prec emax
             (if negative then (- magnitude)%Z else magnitude) 0 false
         else
           SFdiv prec emax (S754_finite negative m 0)
                 (S754_finite false (Z.to_pos (10 ^ (- exponent))) 0))
  end.

(** [parseFloat]: leading white space is skipped, then the longest prefix
    that is a decimal literal (sign, digits, point, digits, exponent) or
    [Infinity] is read and rounded to binary64; [NaN] when there is no such
    prefix. *)
Definition parseFloat (input : string) : number :=
  let s := trimStart input in
  let negative := head_is "-" s in
  let body := if head_is "-" s || head_is "+" s then tail s else s in
  if startsWith body "Infinity" then
    (if negative then neg_infinity else infinity)
  else
    let '(int_part, int_digits, rest) := scan_digits body 0 0 in
    let '(mantissa, frac_digits, rest) :=
      if head_is "." rest then scan_digits (tail rest) int_part 0
      else (int_part, 0%nat, rest) in
    if (int_digits + frac_digits =? 0)%nat then nan
    else nearest negative mantissa (scan_exponent rest - Z.of_nat frac_digits).

(** [extractNumber(text)]; [None] is a text that is [null] or
    [undefined], and the result [None] is [null]. *)
Definition extractNumber (text : option string) : option number :=
  match text with
  | None => None
  | Some text =>
      if negb (nonempty text) then None
      else
        let numericText := replace_non_numeric text in
        let parsedNumber := parseFloat numericText in
        if is_nan parsedNumber then None else Some parsedNumber
  end.

(** What [calculateDCF] reads of the stock data. *)
Record StockData : Type := {
  freeCashFlow : number;
  cashAndEquivalents : number;
  totalDebt : number;
  sharesOutstanding : number;
  exchangeRate : number;
  reportingCurrency : string;
  currentPrice : number
}.

Record DCFInputs : Type := {
  growthRate1to5 : number;
  perpetualGrowthRate : number;
  discountRate : number;
  marginOfSafety : number
}.

Record DCFResults : Type := {
  fairValue : number;
  safetyMarginValue : number;
  enterpriseValue : number;
  equityValue : number;
  yearlyProjections : list number;
  isPotentialBuy : bool;
  originalCurrency : string;
  fairValueInOriginalCurrency : number;
  resultExchangeRate : number
}.

Inductive DCFUpdate : Type :=
| SetResults (results : DCFResults)
| SetError (message : string).

(** [for (let year = 1; year <= 5; year++)]: [n] rounds are left to run. *)
Fixpoint projection_loop (n : nat) (growthRateDecimal currentFCF : number)
    (projections : list number) : list number :=
  match n with
  | O => projections
  | S n' =>
      let currentFCF := currentFCF * (1 + growthRateDecimal) in
      projection_loop n' growthRateDecimal currentFCF (projections ++ [currentFCF])%list
  end.

(** [projections[year]]: reading past the end gives [undefined], which
    arithmetic turns into [NaN]. *)
Definition index (projections : list number) (year : nat) : number :=
  nth year projections nan.

Section Host.

(** [Math.pow(x, n)] for a whole number [n].  The language leaves its
    result to the host (an approximation of the power), so the engine is
    embedded for any such function. *)
Variable Math_pow : number -> nat -> number.

(** [for (let year = 0; year < 5; year++) presentValue += ...]: [n] rounds
    are left to run, the next one is for index [year]. *)
Fixpoint discount_loop (n year : nat) (projections : list number)
    (discountRateDecimal presentValue : number) : number :=
  match n with
  | O => presentValue
  | S n' =>
      let presentValue :=
        presentValue
        + index projections year / Math_pow (1 + discountRateDecimal) (year + 1) in
      discount_loop n' (S year) projections discountRateDecimal presentValue
  end.

Definition calculateDCF (stockData : option StockData) (dcfInputs : DCFInputs)
  : DCFUpdate :=
  match stockData with
  | None => SetError "Please fetch stock data first"
  | Some stockData =>
      let growthRateDecimal := growthRate1to5 dcfInputs / 100 in
      let perpetualGrowthRateDecimal := perpetualGrowthRate dcfInputs / 100 in
      let discountRateDecimal := discountRate dcfInputs / 100 in
      let marginOfSafetyDecimal := marginOfSafety dcfInputs / 100 in
      let projections :=
        projection_loop 5 growthRateDecimal (freeCashFlow stockData) [] in
      let terminalValue :=
        index projections 4 * (1 + perpetualGrowthRateDecimal)
        / (discountRateDecimal - perpetualGrowthRateDecimal) in
      let presentValue := discount_loop 5 0 projections discountRateDecimal 0 in
      let presentTerminalValue :=
        terminalValue / Math_pow (1 + discountRateDecimal) 5 in
      let enterpriseValue := presentValue + presentTerminalValue in
      let equityValue :=
        enterpriseValue + cashAndEquivalents stockData - totalDebt stockData in
      let fairValueInOriginalCurrency := equityValue / sharesOutstanding stockData in
      let fairValue := fairValueInOriginalCurrency * exchangeRate stockData in
      let safetyMarginValue := fairValue * (1 - marginOfSafetyDecimal) in
      let isPotentialBuy := currentPrice stockData <? safetyMarginValue in
      SetResults {|
        fairValue := fairValue;
        safetyMarginValue := safetyMarginValue;
        enterpriseValue := enterpriseValue;
        equityValue := equityValue;
        yearlyProjections := projections;
        isPotentialBuy := isPotentialBuy;
        originalCurrency := reportingCurrency stockData;
        fairValueInOriginalCurrency := fairValueInOriginalCurrency;
        resultExchangeRate := exchangeRate stockData
      |}
  end.

End Host.

(** The valuation formulas in the inputs, every operation rounded: the
    projection of a year is that of the year before times [1+g]. *)
Module Formula.
Section Formula.

Variable Math_pow : number -> nat -> number.
Variable stockData : StockData.
Variable dcfInputs : DCFInputs.

Definition g : number := growthRate1to5 dcfInputs / 100.
Definition p : number := perpetualGrowthRate dcfInputs / 100.
Definition d : number := discountRate dcfInputs / 100.

(** [yearlyProjections[i]]: the free cash flow compounded [i+1] times. *)
Fixpoint compounded (years : nat) : number :=
  match years with
  | O => freeCashFlow stockData
  | S years' => compounded years' * (1 + g)
  end.

Definition projection (i : nat) : number := compounded (i + 1).

(** [freeCashFlow * (1+g)^(i+1)], the power taken first. *)
Definition closed_form (i : nat) : number :=
  freeCashFlow stockData * Math_pow (1 + g) (i + 1).

(** [terminalValue = yearlyProjections[4] * (1+p) / (d-p)] *)
Definition terminal : number := projection 4 * (1 + p) / (d - p).

(** [yearlyProjections[year-1] / (1+d)^year] *)
Definition discounted (year : nat) : number :=
  projection (year - 1) / Math_pow (1 + d) year.

(** Sum of the discounted projections over the years 1 to 5, from zero. *)
Definition present : number :=
  0 + discounted 1 + discounted 2 + discounted 3 + discounted 4 + discounted 5.

(** The discounted projections plus the discounted terminal value. *)
Definition enterprise : number := present + terminal / Math_pow (1 + d) 5.

Definition equity : number :=
  enterprise + cashAndEquivalents stockData - totalDebt stockData.

Definition fair : number :=
  equity / sharesOutstanding stockData * exchangeRate stockData.

Definition safetyMargin : number := fair * (1 - marginOfSafety dcfInputs / 100).

Definition potentialBuy : bool := currentPrice stockData <? safetyMargin.

End Formula.
End Formula.

(** The power rounded to nearest: the best a host can do.  For a finite
    base that is not zero the exact power of the base is rounded once; the
    other bases are multiplied out, which is exact for them. *)
Fixpoint multiplied_out (x : number) (n : nat) : number :=
  match n with
  | O => 1
  | S n' => x * multiplied_out x n'
  end.

Definition nearest_power (x : number) (n : nat) : number :=
  match Prim2SF x with
  | S754_finite negative m e =>
      SF2Prim (binary_normalize prec emax
                 ((if negative then Z.neg m else Z.pos m) ^ Z.of_nat n)
                 (e * Z.of_nat n) false)
  | _ => multiplied_out x n
  end.

(** The golden fixture: free cash flow 100, growth 10%, perpetual growth
    2.5%, discount rate 10%, cash 50, debt 20, 10 shares, exchange rate 1
    (price 100 and the default 25% margin of safety). *)
Definition golden_stock : StockData := {|
  freeCashFlow := 100;
  cashAndEquivalents := 50;
  totalDebt := 20;
  sharesOutstanding := 10;
  exchangeRate := 1;
  reportingCurrency := "USD";
  currentPrice := 100
|}.

Definition golden_inputs : DCFInputs := {|
  growthRate1to5 := 10;
  perpetualGrowthRate := 2.5;
  discountRate := 10;
  marginOfSafety := 25
|}.

(** Parameters with the discount rate equal to the perpetual growth rate,
    below it, and equal to it as a zero of the other sign. *)
Definition equal_rates_inputs : DCFInputs := {|
  growthRate1to5 := 10;
  perpetualGrowthRate := 10;
  discountRate := 10;
  marginOfSafety := 25
|}.

Definition low_discount_inputs : DCFInputs := {|
  growthRate1to5 := 10;
  perpetualGrowthRate := 5;
  discountRate := 4;
  marginOfSafety := 25
|}.

Definition signed_zero_inputs : DCFInputs := {|
  growthRate1to5 := 10;
  perpetualGrowthRate := 0;
  discountRate := neg_zero;
  marginOfSafety := 25
|}.

End B64.
(* ================================================================== *)
(** * Properties *)

(* ------------------------------------------------------------------ *)
(** ** Arithmetic of [number] *)

Section NumberFacts.

Local Open Scope Qc_scope.

Lemma Qc_sign_num (a : Qc) : (a ?= 0) = (Qnum a ?= 0)%Z.
Proof.
  unfold Qccompare, Qcompare. simpl. now rewrite Z.mul_1_r.
Qed.

Lemma Qc_sign_opp (a : Qc) : (0 ?= a) = CompOpp (a ?= 0).
Proof.
  unfold Qccompare. now rewrite <- Qcompare_antisym.
Qed.

Lemma Qc_sign_mul (a b : Qc) : (a * b ?= 0) = cmp_mul (a ?= 0) (b ?= 0).
Proof.
  rewrite (Qc_sign_num a), (Qc_sign_num b).
  unfold Qccompare, Qcmult, Q2Qc. cbn [this].
  change (Qred (a * b) ?= 0)%Q with (Qred (a * b) ?= Qred 0)%Q.
  rewrite <- Qred_compare.
  unfold Qcompare. cbn [Qnum Qden Qmult]. rewrite Z.mul_1_r.
  change (Qnum (this 0)) with 0%Z. cbn [Z.mul].
  destruct (Qnum a), (Qnum b); reflexivity.
Qed.

Lemma mul_comm (x y : number) : mul x y = mul y x.
Proof.
  destruct x, y; cbn; try reflexivity.
  f_equal. ring.
Qed.

Lemma mul_assoc (x y z : number) : mul x (mul y z) = mul (mul x y) z.
Proof.
  destruct x as [a| | |], y as [b| | |], z as [c| | |]; cbn [mul];
    try reflexivity;
    try (f_equal; ring);
    rewrite ?Qc_sign_opp;
    try destruct (a ?= 0) eqn:Ha;
    try destruct (b ?= 0) eqn:Hb;
    try destruct (c ?= 0) eqn:Hc;
    cbn [mul signed_infinity CompOpp];
    rewrite ?Qc_sign_opp, ?Qc_sign_mul, ?Ha, ?Hb, ?Hc;
    reflexivity.
Qed.

Lemma add_zero_l (x : number) : add zero x = x.
Proof.
  destruct x; cbn; try reflexivity.
  f_equal. unfold zero. apply Qcplus_0_l.
Qed.

End NumberFacts.
(* ------------------------------------------------------------------ *)
(** ** The valuation engine *)

Lemma mul_one_r (x : number) : mul x one = x.
Proof.
  destruct x; cbn [mul one of_Z]; try reflexivity.
  f_equal. apply Qcmult_1_r.
Qed.

(** The compounding loop yields the closed forms [c * (1+g)^(i+1)]. *)
Lemma projection_loop_closed (n : nat) :
  forall (g c : number) (acc : list number),
    projection_loop n g c acc =
    (acc ++ map (fun i => mul c (Math_pow (add one g) (i + 1))) (seq 0 n))%list.
Proof.
  induction n as [|n IH]; intros g c acc.
  - cbn. now rewrite app_nil_r.
  - cbn [projection_loop]. rewrite IH, <- app_assoc. f_equal.
    cbn [seq map app]. f_equal.
    + cbn [Nat.add Math_pow]. now rewrite mul_one_r.
    + rewrite <- seq_shift, map_map. apply map_ext. intros i.
      cbn [Nat.add Math_pow]. now rewrite mul_assoc.
Qed.

Lemma calculateDCF_projections (sd : StockData) (inputs : DCFInputs) :
  projection_loop 5 (Formula.g inputs) (freeCashFlow sd) [] =
  map (Formula.projection sd inputs) [0; 1; 2; 3; 4]%nat.
Proof.
  rewrite projection_loop_closed. reflexivity.
Qed.

Lemma calculateDCF_result (sd : StockData) (inputs : DCFInputs) :
  calculateDCF (Some sd) inputs =
  SetResults {|
    fairValue := Formula.fair sd inputs;
    safetyMarginValue := Formula.safetyMargin sd inputs;
    enterpriseValue := Formula.enterprise sd inputs;
    equityValue := Formula.equity sd inputs;
    yearlyProjections := map (Formula.projection sd inputs) [0; 1; 2; 3; 4]%nat;
    isPotentialBuy := Formula.potentialBuy sd inputs;
    originalCurrency := reportingCurrency sd;
    fairValueInOriginalCurrency :=
      div (Formula.equity sd inputs) (sharesOutstanding sd);
    resultExchangeRate := exchangeRate sd
  |}.
Proof.
  unfold calculateDCF.
  change (div (growthRate1to5 inputs) hundred) with (Formula.g inputs).
  rewrite calculateDCF_projections.
  assert (Hev :
    add (discount_loop 5 0 (map (Formula.projection sd inputs) [0; 1; 2; 3; 4]%nat)
           (div (discountRate inputs) hundred) zero)
        (div (div (mul (index (map (Formula.projection sd inputs) [0; 1; 2; 3; 4]%nat) 4)
                       (add one (div (perpetualGrowthRate inputs) hundred)))
                  (sub (div (discountRate inputs) hundred)
                       (div (perpetualGrowthRate inputs) hundred)))
             (Math_pow (add one (div (discountRate inputs) hundred)) 5))
    = Formula.enterprise sd inputs).
  { unfold Formula.enterprise, Formula.present, Formula.terminal, Formula.discounted, Formula.d, Formula.p.
    cbn [discount_loop index nth map Nat.add Nat.sub].
    now rewrite add_zero_l. }
  cbv zeta. rewrite Hev. reflexivity.
Qed.

Lemma same_eq (x y : number) : same x y = true -> x = y.
Proof.
  destruct x as [a| | |], y as [b| | |]; cbn; try discriminate; try reflexivity.
  intros H. f_equal. apply Qc_is_canon. now apply Qeq_bool_eq.
Qed.

Ltac number_compute := apply same_eq; vm_compute; reflexivity.

(** In exact arithmetic the loop and the closed forms agree, and the golden
    fixture gives 110, 121, 133.1, 146.41, 161.051, enterprise value
    5600/3, equity value 5690/3 and fair value 569/3. *)
Example golden_fixture_exact :
  exists r : DCFResults,
    calculateDCF (Some golden_stock) golden_inputs = SetResults r /\
    yearlyProjections r =
      [of_Z 110; of_Z 121; decimal 1331 1; decimal 14641 2; decimal 161051 3] /\
    enterpriseValue r = ratio 5600 3 /\
    equityValue r = ratio 5690 3 /\
    fairValue r = ratio 569 3.
Proof.
  eexists. split; [apply calculateDCF_result|].
  cbn [yearlyProjections enterpriseValue equityValue fairValue].
  split; [|split; [|split]].
  + cbn [map]. repeat (f_equal; try number_compute).
  + number_compute.
  + number_compute.
  + number_compute.
Qed.

(* ------------------------------------------------------------------ *)
(** ** The valuation engine in binary64 *)

Section Binary64.

Import PrimFloat.
#[local] Set Warnings "-inexact-float".

(** The compounding loop appends the free cash flow compounded once more
    at each round. *)
Lemma B64_projection_loop_compounded (sd : B64.StockData) (inputs : B64.DCFInputs)
    (n : nat) :
  forall (done : nat) (acc : list B64.number),
    B64.projection_loop n (B64.Formula.g inputs)
      (B64.Formula.compounded sd inputs done) acc =
    (acc ++ map (fun i => B64.Formula.compounded sd inputs (done + i + 1)) (seq 0 n))%list.
Proof.
  induction n as [|n IH]; intros done acc.
  - cbn. now rewrite app_nil_r.
  - cbn [B64.projection_loop].
    change (PrimFloat.mul (B64.Formula.compounded sd inputs done)
              (PrimFloat.add 1%float (B64.Formula.g inputs)))
      with (B64.Formula.compounded sd inputs (S done)).
    rewrite IH, <- app_assoc. f_equal.
    cbn [seq map app]. f_equal.
    + now rewrite Nat.add_0_r, Nat.add_1_r.
    + rewrite <- seq_shift, map_map. apply map_ext. intros i.
      f_equal. lia.
Qed.

Lemma B64_calculateDCF_result (Math_pow : B64.number -> nat -> B64.number)
    (sd : B64.StockData) (inputs : B64.DCFInputs) :
  B64.calculateDCF Math_pow (Some sd) inputs =
  B64.SetResults {|
    B64.fairValue := B64.Formula.fair Math_pow sd inputs;
    B64.safetyMarginValue := B64.Formula.safetyMargin Math_pow sd inputs;
    B64.enterpriseValue := B64.Formula.enterprise Math_pow sd inputs;
    B64.equityValue := B64.Formula.equity Math_pow sd inputs;
    B64.yearlyProjections := map (B64.Formula.projection sd inputs) [0; 1; 2; 3; 4]%nat;
    B64.isPotentialBuy := B64.Formula.potentialBuy Math_pow sd inputs;
    B64.originalCurrency := B64.reportingCurrency sd;
    B64.fairValueInOriginalCurrency :=
      (B64.Formula.equity Math_pow sd inputs / B64.sharesOutstanding sd)%float;
    B64.resultExchangeRate := B64.exchangeRate sd
  |}.
Proof.
  unfold B64.calculateDCF.
  change (PrimFloat.div (B64.growthRate1to5 inputs) 100%float) with (B64.Formula.g inputs).
  pose proof (B64_projection_loop_compounded sd inputs 5 0 []) as Hp.
  cbn [B64.Formula.compounded] in Hp. rewrite Hp.
  reflexivity.
Qed.

(** C1, as stated, fails in the arithmetic of the language: on the golden
    fixture the second, fourth and fifth projections of the loop are not
    [freeCashFlow * (1+g)^(i+1)], even for a power rounded to nearest, and
    they are not the binary64 numbers nearest to 121, 146.41 and 161.051
    either; the enterprise value is not the one nearest to 5600/3. *)
Lemma C1_closed_form_counterexample :
  exists r : B64.DCFResults,
    B64.calculateDCF B64.nearest_power (Some B64.golden_stock) B64.golden_inputs
      = B64.SetResults r /\
    nth 1 (B64.yearlyProjections r) PrimFloat.nan = 121.00000000000003%float /\
    B64.Formula.closed_form B64.nearest_power B64.golden_stock B64.golden_inputs 1
      = 121.00000000000001%float /\
    nth 1 (B64.yearlyProjections r) PrimFloat.nan
      <> B64.Formula.closed_form B64.nearest_power B64.golden_stock B64.golden_inputs 1 /\
    nth 3 (B64.yearlyProjections r) PrimFloat.nan
      <> B64.Formula.closed_form B64.nearest_power B64.golden_stock B64.golden_inputs 3 /\
    nth 4 (B64.yearlyProjections r) PrimFloat.nan
      <> B64.Formula.closed_form B64.nearest_power B64.golden_stock B64.golden_inputs 4 /\
    nth 1 (B64.yearlyProjections r) PrimFloat.nan <> 121%float /\
    nth 3 (B64.yearlyProjections r) PrimFloat.nan <> 146.41%float /\
    nth 4 (B64.yearlyProjections r) PrimFloat.nan <> 161.051%float /\
    B64.enterpriseValue r = 1866.666666666667%float /\
    B64.enterpriseValue r <> (5600 / 3)%float.
Proof.
  eexists. split; [apply B64_calculateDCF_result|].
  cbn [B64.yearlyProjections B64.enterpriseValue map nth].
  split; [vm_compute; reflexivity|]. split; [vm_compute; reflexivity|].
  repeat split;
    try (intros H; apply (f_equal FloatOps.Prim2SF) in H;
         vm_compute in H; discriminate H).
Qed.

(** C1 (amended). For every snapshot and every parameter set,
    [calculateDCF] stores the values of the stated formulas as binary64
    arithmetic computes them, each operation rounded: the projection of a
    year is that of the year before times [1+g] (the free cash flow
    compounded, not [freeCashFlow * (1+g)^(i+1)] with the power taken
    first); the enterprise value is the sum from zero of the projections
    over [Math.pow(1+d, year)] plus the terminal value
    [yearlyProjections[4] * (1+p) / (d-p)] over [Math.pow(1+d, 5)]; then the
    equity value, the fair value, the safety-margin value and the buy flag.
    On the golden fixture the projections are 110.00000000000001,
    121.00000000000003, 133.10000000000005, 146.41000000000008 and
    161.0510000000001 on every host, and with powers rounded to nearest
    the enterprise value is 1866.666666666667, the equity value
    1896.666666666667 and the fair value 189.66666666666669. *)
Theorem C1_calculateDCF_formulas :
  (forall (Math_pow : B64.number -> nat -> B64.number)
          (sd : B64.StockData) (inputs : B64.DCFInputs),
     exists r : B64.DCFResults,
       B64.calculateDCF Math_pow (Some sd) inputs = B64.SetResults r /\
       B64.yearlyProjections r =
         map (B64.Formula.projection sd inputs) [0; 1; 2; 3; 4]%nat /\
       B64.enterpriseValue r = B64.Formula.enterprise Math_pow sd inputs /\
       B64.equityValue r =
         (B64.Formula.enterprise Math_pow sd inputs + B64.cashAndEquivalents sd
          - B64.totalDebt sd)%float /\
       B64.fairValue r =
         (B64.Formula.equity Math_pow sd inputs / B64.sharesOutstanding sd
          * B64.exchangeRate sd)%float /\
       B64.safetyMarginValue r =
         (B64.Formula.fair Math_pow sd inputs
          * (1 - B64.marginOfSafety inputs / 100))%float /\
       B64.isPotentialBuy r =
         (B64.currentPrice sd <? B64.Formula.safetyMargin Math_pow sd inputs)%float) /\
  (forall Math_pow : B64.number -> nat -> B64.number,
     exists r : B64.DCFResults,
       B64.calculateDCF Math_pow (Some B64.golden_stock) B64.golden_inputs
         = B64.SetResults r /\
       B64.yearlyProjections r =
         [110.00000000000001; 121.00000000000003; 133.10000000000005;
          146.41000000000008; 161.0510000000001]%float) /\
  (exists r : B64.DCFResults,
     B64.calculateDCF B64.nearest_power (Some B64.golden_stock) B64.golden_inputs
       = B64.SetResults r /\
     B64.enterpriseValue r = 1866.666666666667%float /\
     B64.equityValue r = 1896.666666666667%float /\
     B64.fairValue r = 189.66666666666669%float).
Proof.
  split; [|split].
  - intros Math_pow sd inputs. eexists. split; [apply B64_calculateDCF_result|].
    cbn [B64.yearlyProjections B64.enterpriseValue B64.equityValue B64.fairValue
         B64.safetyMarginValue B64.isPotentialBuy].
    repeat split.
  - intros Math_pow. eexists. split; [apply B64_calculateDCF_result|].
    cbn [B64.yearlyProjections]. vm_compute. reflexivity.
  - eexists. split; [apply B64_calculateDCF_result|].
    cbn [B64.enterpriseValue B64.equityValue B64.fairValue].
    repeat split; vm_compute; reflexivity.
Qed.

(** C5. For every parameter set with [discountRate <= perpetualGrowthRate]
    the computation stores results, never an error, and nothing is clamped:
    the terminal value is the quotient of the fifth projection times [1+p]
    by [d - p], whatever that quotient is, and the stored enterprise value
    is the discounted projections plus that terminal value over
    [Math.pow(1+d, 5)]; the stored equity value and fair value are computed
    from that enterprise value. *)
Theorem C5_terminal_value_unguarded (Math_pow : B64.number -> nat -> B64.number)
    (sd : B64.StockData) (inputs : B64.DCFInputs) :
  (B64.discountRate inputs <=? B64.perpetualGrowthRate inputs)%float = true ->
  exists (r : B64.DCFResults) (terminalValue : B64.number),
    B64.calculateDCF Math_pow (Some sd) inputs = B64.SetResults r /\
    terminalValue =
      (B64.Formula.compounded sd inputs 5
       * (1 + B64.perpetualGrowthRate inputs / 100)
       / (B64.discountRate inputs / 100 - B64.perpetualGrowthRate inputs / 100))%float /\
    nth 4 (B64.yearlyProjections r) PrimFloat.nan = B64.Formula.compounded sd inputs 5 /\
    B64.enterpriseValue r =
      (B64.Formula.present Math_pow sd inputs
       + terminalValue / Math_pow (1 + B64.discountRate inputs / 100) 5%nat)%float /\
    B64.equityValue r =
      (B64.Formula.present Math_pow sd inputs
       + terminalValue / Math_pow (1 + B64.discountRate inputs / 100) 5%nat
       + B64.cashAndEquivalents sd - B64.totalDebt sd)%float /\
    B64.fairValue r =
      ((B64.Formula.present Math_pow sd inputs
        + terminalValue / Math_pow (1 + B64.discountRate inputs / 100) 5%nat
        + B64.cashAndEquivalents sd - B64.totalDebt sd)
       / B64.sharesOutstanding sd * B64.exchangeRate sd)%float.
Proof.
  intros _. eexists _, _. split; [apply B64_calculateDCF_result|].
  split; [reflexivity|].
  cbn [B64.yearlyProjections B64.enterpriseValue B64.equityValue B64.fairValue map nth].
  repeat split.
Qed.

(** The theorem at [discountRate = perpetualGrowthRate = 10], with powers
    rounded to nearest. *)
Lemma C5_terminal_value_unguarded_witness :
  exists (r : B64.DCFResults) (terminalValue : B64.number),
    B64.calculateDCF B64.nearest_power (Some B64.golden_stock) B64.equal_rates_inputs
      = B64.SetResults r /\
    terminalValue =
      (B64.Formula.compounded B64.golden_stock B64.equal_rates_inputs 5
       * (1 + B64.perpetualGrowthRate B64.equal_rates_inputs / 100)
       / (B64.discountRate B64.equal_rates_inputs / 100
          - B64.perpetualGrowthRate B64.equal_rates_inputs / 100))%float /\
    nth 4 (B64.yearlyProjections r) PrimFloat.nan
      = B64.Formula.compounded B64.golden_stock B64.equal_rates_inputs 5 /\
    B64.enterpriseValue r =
      (B64.Formula.present B64.nearest_power B64.golden_stock B64.equal_rates_inputs
       + terminalValue
         / B64.nearest_power (1 + B64.discountRate B64.equal_rates_inputs / 100) 5%nat)%float /\
    B64.equityValue r =
      (B64.Formula.present B64.nearest_power B64.golden_stock B64.equal_rates_inputs
       + terminalValue
         / B64.nearest_power (1 + B64.discountRate B64.equal_rates_inputs / 100) 5%nat
       + B64.cashAndEquivalents B64.golden_stock - B64.totalDebt B64.golden_stock)%float /\
    B64.fairValue r =
      ((B64.Formula.present B64.nearest_power B64.golden_stock B64.equal_rates_inputs
        + terminalValue
          / B64.nearest_power (1 + B64.discountRate B64.equal_rates_inputs / 100) 5%nat
        + B64.cashAndEquivalents B64.golden_stock - B64.totalDebt B64.golden_stock)
       / B64.sharesOutstanding B64.golden_stock * B64.exchangeRate B64.golden_stock)%float.
Proof.
  apply (C5_terminal_value_unguarded B64.nearest_power B64.golden_stock
           B64.equal_rates_inputs).
  vm_compute. reflexivity.
Defined.

(** Equal rates: the division by zero gives an infinite terminal value,
    which reaches the fair value. *)
Example equal_rates_infinite :
  exists r : B64.DCFResults,
    B64.calculateDCF B64.nearest_power (Some B64.golden_stock) B64.equal_rates_inputs
      = B64.SetResults r /\
    B64.Formula.terminal B64.golden_stock B64.equal_rates_inputs = PrimFloat.infinity /\
    B64.enterpriseValue r = PrimFloat.infinity /\
    B64.equityValue r = PrimFloat.infinity /\
    B64.fairValue r = PrimFloat.infinity /\
    B64.isPotentialBuy r = true.
Proof.
  eexists. split; [apply B64_calculateDCF_result|].
  cbn [B64.enterpriseValue B64.equityValue B64.fairValue B64.isPotentialBuy].
  repeat split; vm_compute; reflexivity.
Qed.

(** A discount rate below the perpetual growth rate: a negative terminal
    value, and with it a negative fair value. *)
Example low_discount_negative :
  exists r : B64.DCFResults,
    B64.calculateDCF B64.nearest_power (Some B64.golden_stock) B64.low_discount_inputs
      = B64.SetResults r /\
    (B64.Formula.terminal B64.golden_stock B64.low_discount_inputs <? 0)%float = true /\
    (B64.enterpriseValue r <? 0)%float = true /\
    (B64.fairValue r <? 0)%float = true /\
    B64.isPotentialBuy r = false.
Proof.
  eexists. split; [apply B64_calculateDCF_result|].
  cbn [B64.enterpriseValue B64.equityValue B64.fairValue B64.isPotentialBuy].
  repeat split; vm_compute; reflexivity.
Qed.

(** A discount rate of [-0] against a perpetual growth rate of [0]: the
    divisor is [-0] and the terminal value is [-Infinity]. *)
Example signed_zero_divisor :
  (B64.discountRate B64.signed_zero_inputs
   <=? B64.perpetualGrowthRate B64.signed_zero_inputs)%float = true /\
  exists r : B64.DCFResults,
    B64.calculateDCF B64.nearest_power (Some B64.golden_stock) B64.signed_zero_inputs
      = B64.SetResults r /\
    B64.Formula.terminal B64.golden_stock B64.signed_zero_inputs
      = PrimFloat.neg_infinity /\
    B64.enterpriseValue r = PrimFloat.neg_infinity /\
    B64.fairValue r = PrimFloat.neg_infinity.
Proof.
  split; [vm_compute; reflexivity|].
  eexists. split; [apply B64_calculateDCF_result|].
  cbn [B64.enterpriseValue B64.equityValue B64.fairValue].
  repeat split; vm_compute; reflexivity.
Qed.

End Binary64.

(* ------------------------------------------------------------------ *)
(** ** Numeric text *)


Lemma replace_non_numeric_all_numeric (text : string) :
  all_numeric (replace_non_numeric text) = true.
Proof.
  induction text as [|c rest IH]; cbn; [reflexivity|].
  destruct (numeric_char c) eqn:E; cbn; [now rewrite E|exact IH].
Qed.

(** A kept character does not start white space, of any length. *)
Lemma numeric_char_not_space (c : ascii) :
  numeric_char c = true ->
  is_space c = false /\
  (forall b, is_space2 c b = false) /\
  (forall b d, is_space3 c b d = false).
Proof.
  destruct c as [[] [] [] [] [] [] [] []]; cbn; intros H;
    try discriminate H; repeat split; intros; reflexivity.
Qed.

Lemma trimStart_numeric (s : string) : all_numeric s = true -> trimStart s = s.
Proof.
  destruct s as [|c rest]; [reflexivity|]. cbn [all_numeric].
  intros H. apply andb_prop in H as [Hc _].
  destruct (numeric_char_not_space c Hc) as (H1 & H2 & H3).
  cbn [trimStart]. rewrite H1.
  destruct rest as [|b rest2]; [reflexivity|]. rewrite H2.
  destruct rest2 as [|d rest3]; [reflexivity|]. now rewrite H3.
Qed.

(** What a kept character is not: white space, a plus sign, the letter
    that starts [Infinity]. *)
Lemma numeric_char_plain (c : ascii) :
  numeric_char c = true ->
  is_space c = false /\ Ascii.eqb c "+" = false /\ Ascii.eqb "I" c = false.
Proof.
  destruct c as [[] [] [] [] [] [] [] []]; cbn; intros H;
    try discriminate H; repeat split.
Qed.

Lemma numeric_char_cases (c : ascii) :
  numeric_char c = true ->
  (is_digit c = true /\ Ascii.eqb c "." = false /\ Ascii.eqb c "-" = false) \/
  (is_digit c = false /\ c = "."%char) \/
  (is_digit c = false /\ c = "-"%char).
Proof.
  destruct c as [[] [] [] [] [] [] [] []]; cbn; intros H;
    try discriminate H; auto.
Qed.

Lemma scan_digits_count (s : string) :
  forall value count,
    (count <= snd (fst (scan_digits s value count)))%nat.
Proof.
  induction s as [|c rest IH]; intros value count; cbn; [lia|].
  destruct (is_digit c); cbn; [|lia].
  specialize (IH (value * 10 + digit_value c)%N (S count)). lia.
Qed.

Lemma scan_digits_no_digit (s : string) (value : N) (count : nat) :
  head_is_digit s = false -> scan_digits s value count = (value, count, s).
Proof.
  destruct s as [|c rest]; cbn; [reflexivity|].
  now intros ->.
Qed.

(** How many digits the mantissa of a text of kept characters has: none
    exactly when the text does not start with a digit or a point and a
    digit. *)
Lemma mantissa_digits (body : string) :
  all_numeric body = true ->
  startsWith body "Infinity" = false /\
  (let '(int_part, int_digits, rest) := scan_digits body 0 0 in
   let '(_, frac_digits, _) :=
     if head_is "." rest then scan_digits (tail rest) int_part 0
     else (int_part, 0%nat, rest) in
   (int_digits + frac_digits =? 0)%nat) = negb (leading_digits body).
Proof.
  destruct body as [|c rest]; [intros _; split; reflexivity|].
  cbn [all_numeric]. intros H. apply andb_prop in H as [Hc _].
  destruct (numeric_char_plain c Hc) as (_ & _ & HI).
  split; [cbn [startsWith]; now rewrite HI|].
  destruct (numeric_char_cases c Hc) as [(Hd & _ & _)|[(Hd & ->)|(Hd & ->)]].
  - cbn [scan_digits leading_digits]. rewrite Hd. cbn [orb negb].
    pose proof (scan_digits_count rest (0 * 10 + digit_value c)%N 1) as Hn.
    destruct (scan_digits rest _ 1) as [[v n] r]. cbn [fst snd] in Hn.
    destruct (if head_is "." r then _ else _) as [[m f] r'].
    apply Nat.eqb_neq. lia.
  - cbn [scan_digits leading_digits]. rewrite Hd.
    cbn [head_is tail orb andb]. rewrite Ascii.eqb_refl. cbn [andb].
    destruct (head_is_digit rest) eqn:Hr.
    + destruct rest as [|c' rest']; [discriminate Hr|]. cbn in Hr.
      cbn [scan_digits]. rewrite Hr.
      pose proof (scan_digits_count rest' (0 * 10 + digit_value c')%N 1) as Hn.
      destruct (scan_digits rest' _ 1) as [[v n] r]. cbn [fst snd] in Hn.
      cbn [negb]. apply Nat.eqb_neq. lia.
    + rewrite scan_digits_no_digit by exact Hr. reflexivity.
  - reflexivity.
Qed.

(** On a text of kept characters [parseFloat] fails exactly when the text
    does not start with a decimal literal. *)
Lemma parseFloat_numeric (s : string) :
  all_numeric s = true ->
  isNaN (parseFloat s) = negb (leading_number s).
Proof.
  intros H. unfold parseFloat, leading_number.
  rewrite (trimStart_numeric s H).
  assert (Hplus : head_is "+" s = false).
  { destruct s as [|c rest]; [reflexivity|]. cbn in H |- *.
    apply andb_prop in H as [Hc _].
    now destruct (numeric_char_plain c Hc) as (_ & -> & _). }
  rewrite Hplus, orb_false_r.
  set (body := if head_is "-" s then tail s else s).
  assert (Hb : all_numeric body = true).
  { subst body. destruct (head_is "-" s); [|exact H].
    destruct s as [|c rest]; [reflexivity|]. cbn in H |- *.
    now apply andb_prop in H as [_ H]. }
  destruct (mantissa_digits body Hb) as [HI Hm].
  rewrite HI.
  destruct (scan_digits body 0 0) as [[ip id] rest].
  destruct (if head_is "." rest then _ else _) as [[m f] r'].
  rewrite <- Hm.
  destruct (id + f =? 0)%nat; reflexivity.
Qed.

Lemma extractNumber_leading (text : string) :
  extractNumber (Some text) =
  if leading_number (replace_non_numeric text)
  then Some (parseFloat (replace_non_numeric text))
  else None.
Proof.
  unfold extractNumber.
  pose proof (parseFloat_numeric _ (replace_non_numeric_all_numeric text)) as Hp.
  destruct text as [|c rest]; [reflexivity|].
  cbn [nonempty negb]. cbv zeta. rewrite Hp.
  destruct (leading_number _); reflexivity.
Qed.

Lemma extractNumber_is (text : option string) (v : number) :
  match extractNumber text with Some x => same x v | None => false end = true ->
  extractNumber text = Some v.
Proof.
  destruct (extractNumber text) as [x|]; [|discriminate].
  intros H. f_equal. now apply same_eq.
Qed.

Ltac extract_compute :=
  first [ apply extractNumber_is; vm_compute; reflexivity
        | vm_compute; reflexivity ].

(** Texts on which the reading stops early, or finds nothing. *)
Example extractNumber_prefixes :
  extractNumber (Some "1.2.3") = Some (decimal 12 1) /\
  extractNumber (Some "2023-12-31") = Some (of_Z 2023) /\
  extractNumber (Some "-45.5%") = Some (decimal (-455) 1) /\
  extractNumber (Some "1e5") = Some (of_Z 15) /\
  extractNumber (Some "-") = None /\
  extractNumber (Some "n/a") = None.
Proof.
  repeat split; extract_compute.
Qed.

(* ------------------------------------------------------------------ *)
(** ** Numeric text in binary64 *)

(** The digits of a literal and the number they denote. *)
Lemma pow10_succ (n : nat) :
  (10 ^ N.of_nat (S n) = 10 * 10 ^ N.of_nat n)%N.
Proof.
  rewrite Nat2N.inj_succ. apply N.pow_succ_r'.
Qed.

Lemma triple_eq (a a' : N) (b b' : nat) (r : string) :
  a = a' -> b = b' -> (a, b, r) = (a', b', r).
Proof. now intros -> ->. Qed.

Lemma scan_digits_app (digits rest : string) :
  all_digits digits = true ->
  head_is_digit rest = false ->
  forall (value : N) (count : nat),
    scan_digits (digits ++ rest) value count =
    ((value * 10 ^ N.of_nat (String.length digits) + numeral digits)%N,
     (count + String.length digits)%nat, rest).
Proof.
  intros Hd Hr. induction digits as [|c digits IH]; intros value count.
  - cbn [append String.length numeral N.of_nat].
    rewrite (scan_digits_no_digit rest value count Hr).
    apply triple_eq; [now rewrite N.pow_0_r, N.mul_1_r, N.add_0_r|lia].
  - cbn [all_digits all_chars] in Hd. unfold all_digits in IH.
    apply andb_prop in Hd as [Hc Hd].
    cbn [append scan_digits]. rewrite Hc, (IH Hd).
    cbn [String.length numeral]. rewrite pow10_succ.
    apply triple_eq; [ring|lia].
Qed.

Lemma string_length_app (a b : string) :
  String.length (a ++ b) = (String.length a + String.length b)%nat.
Proof.
  induction a as [|c a IH]; cbn [append String.length]; [reflexivity|].
  now rewrite IH.
Qed.

Lemma nonempty_length (s : string) : nonempty s = true -> String.length s <> 0%nat.
Proof. destruct s; [discriminate|]. cbn [String.length]. lia. Qed.

Lemma numeral_app (a b : string) :
  numeral (a ++ b) = (numeral a * 10 ^ N.of_nat (String.length b) + numeral b)%N.
Proof.
  induction a as [|c a IH]; cbn [append numeral]; [reflexivity|].
  rewrite IH, string_length_app, Nat2N.inj_add, N.pow_add_r. ring.
Qed.

Lemma all_numeric_app (a b : string) :
  all_numeric (a ++ b) = true -> all_numeric b = true.
Proof.
  induction a as [|c a IH]; cbn [append all_numeric]; [auto|].
  intros H. apply andb_prop in H as [_ H]. auto.
Qed.

Lemma numeric_char_no_exponent (c : ascii) :
  numeric_char c = true -> Ascii.eqb c "e" = false /\ Ascii.eqb c "E" = false.
Proof.
  destruct c as [[] [] [] [] [] [] [] []]; cbn; intros H;
    try discriminate H; split; reflexivity.
Qed.

Lemma scan_exponent_numeric (s : string) :
  all_numeric s = true -> scan_exponent s = 0%Z.
Proof.
  destruct s as [|c rest]; [reflexivity|]. cbn [all_numeric].
  intros H. apply andb_prop in H as [Hc _].
  destruct (numeric_char_no_exponent c Hc) as [He HE].
  unfold scan_exponent. cbn [head_is]. now rewrite He, HE.
Qed.

(** What a digit and a point are not: a sign, the letter that starts
    [Infinity]. *)
Lemma digit_plain (c : ascii) :
  is_digit c = true \/ c = "."%char ->
  Ascii.eqb c "-" = false /\ Ascii.eqb c "+" = false /\ Ascii.eqb "I" c = false.
Proof.
  intros [H| ->]; [|repeat split].
  revert H. destruct c as [[] [] [] [] [] [] [] []]; cbn; intros H;
    try discriminate H; repeat split.
Qed.

Section Binary64Text.

Import PrimFloat SpecFloat FloatOps FloatAxioms FloatLemmas.
#[local] Set Warnings "-inexact-float".

(** Rounding never makes [NaN]. *)
Lemma shr_1_nonneg (mrs : shr_record) :
  (0 <= shr_m mrs)%Z -> (0 <= shr_m (shr_1 mrs))%Z.
Proof.
  destruct mrs as [m r s]. cbn [shr_m]. intros H.
  destruct m as [|[p|p|]|[p|p|]]; cbn; lia.
Qed.

Lemma iter_pos_shr_1_nonneg (p : positive) :
  forall mrs : shr_record,
    (0 <= shr_m mrs)%Z -> (0 <= shr_m (iter_pos shr_1 p mrs))%Z.
Proof.
  induction p as [p IH|p IH|]; intros mrs H; cbn [iter_pos].
  - apply IH, IH. now apply shr_1_nonneg.
  - now apply IH, IH.
  - now apply shr_1_nonneg.
Qed.

Lemma shr_fexp_nonneg (m e : Z) (l : location) :
  (0 <= m)%Z -> (0 <= shr_m (fst (shr_fexp prec emax m e l)))%Z.
Proof.
  intros H. unfold shr_fexp, shr.
  assert (H0 : (0 <= shr_m (shr_record_of_loc m l))%Z).
  { destruct l as [|[]]; exact H. }
  destruct (fexp prec emax (Zdigits2 m + e) - e)%Z; cbn [fst]; try exact H0.
  now apply iter_pos_shr_1_nonneg.
Qed.

Lemma round_nearest_even_nonneg (m : Z) (l : location) :
  (0 <= m)%Z -> (0 <= round_nearest_even m l)%Z.
Proof.
  intros H. unfold round_nearest_even.
  destruct l as [|[]]; try lia. destruct (Z.even m); lia.
Qed.

Lemma binary_round_aux_not_nan (s : bool) (m e : Z) (l : location) :
  (0 <= m)%Z -> binary_round_aux prec emax s m e l <> S754_nan.
Proof.
  intros H. unfold binary_round_aux.
  pose proof (shr_fexp_nonneg m e l H) as H1.
  destruct (shr_fexp prec emax m e l) as [mrs1 e1]. cbn [fst] in H1.
  pose proof (shr_fexp_nonneg _ e1 loc_Exact
                (round_nearest_even_nonneg _ (loc_of_shr_record mrs1) H1)) as H2.
  destruct (shr_fexp prec emax _ e1 loc_Exact) as [mrs2 e2]. cbn [fst] in H2.
  destruct (shr_m mrs2) as [|p|p]; [discriminate| |lia].
  destruct (e2 <=? emax - prec)%Z; discriminate.
Qed.

Lemma binary_round_not_nan (s : bool) (m : positive) (e : Z) :
  binary_round prec emax s m e <> S754_nan.
Proof.
  unfold binary_round. destruct (shl_align _ _ _) as [mz ez].
  apply binary_round_aux_not_nan. lia.
Qed.

Lemma binary_normalize_not_nan (m e : Z) (szero : bool) :
  binary_normalize prec emax m e szero <> S754_nan.
Proof.
  destruct m; cbn [binary_normalize]; [discriminate| |]; apply binary_round_not_nan.
Qed.

Lemma SFdiv_finite_not_nan (s1 s2 : bool) (m1 m2 : positive) (e1 e2 : Z) :
  SFdiv prec emax (S754_finite s1 m1 e1) (S754_finite s2 m2 e2) <> S754_nan.
Proof.
  cbn [SFdiv]. unfold SFdiv_core_binary.
  set (shifted := match (e1 - e2 - _)%Z with
                  | Z0 => Z.pos m1
                  | Z.pos _ => Z.shiftl (Z.pos m1) _
                  | Z.neg _ => 0%Z
                  end).
  assert (Hs : (0 <= shifted)%Z).
  { subst shifted. destruct (e1 - e2 - _)%Z; try lia.
    apply Z.shiftl_nonneg. lia. }
  pose proof (Z.div_pos shifted (Z.pos m2) Hs ltac:(lia)) as Hq.
  unfold Z.div in Hq.
  destruct (Z.div_eucl shifted (Z.pos m2)) as [q r].
  now apply binary_round_aux_not_nan.
Qed.

Lemma SFcompare_refl (x : spec_float) :
  x <> S754_nan -> SFcompare x x = Some Eq.
Proof.
  destruct x as [s|s| |s m e]; intros H; cbn [SFcompare]; try reflexivity.
  - now destruct s.
  - now elim H.
  - destruct s; rewrite Z.compare_refl, Pos.compare_cont_refl; reflexivity.
Qed.

Lemma is_nan_Prim2SF (f : float) : Prim2SF f <> S754_nan -> is_nan f = false.
Proof.
  intros H. unfold is_nan. rewrite eqb_spec. unfold SFeqb.
  now rewrite (SFcompare_refl _ H).
Qed.

Lemma SF2Prim_not_nan (x : spec_float) : x <> S754_nan -> is_nan (SF2Prim x) = false.
Proof.
  destruct x as [[]|[]| |s m e]; intros H; try reflexivity; [now elim H|].
  assert (Hl : Prim2SF (Z.ldexp (of_uint63 (Uint63Axioms.of_Z (Z.pos m))) e) <> S754_nan).
  { rewrite Z_ldexp_spec, of_uint63_spec.
    pose proof (binary_normalize_not_nan
                  (Uint63Axioms.to_Z (Uint63Axioms.of_Z (Z.pos m))) 0 false) as Hn.
    destruct (binary_normalize prec emax _ 0 false) as [s0|s0| |s0 m0 e0];
      cbn [SFldexp]; try discriminate; [now elim Hn|].
    apply binary_round_not_nan. }
  apply is_nan_Prim2SF. cbn [SF2Prim]. destruct s; [|exact Hl].
  rewrite opp_spec.
  destruct (Prim2SF (Z.ldexp _ e)); cbn [SFopp]; try discriminate. now elim Hl.
Qed.

Lemma nearest_not_nan (negative : bool) (mantissa : N) (exponent : Z) :
  is_nan (B64.nearest negative mantissa exponent) = false.
Proof.
  unfold B64.nearest. destruct mantissa as [|m]; [now destruct negative|].
  apply SF2Prim_not_nan.
  destruct (0 <=? exponent)%Z.
  - apply binary_normalize_not_nan.
  - apply SFdiv_finite_not_nan.
Qed.

(** The number read off a text that starts with a decimal literal: a sign,
    digits, a fraction part, and then something that does not carry the
    literal on. *)
Lemma B64_parseFloat_numeral (negative : bool) (digits : string)
    (fraction : option string) (rest : string) :
  all_numeric (sign_text negative ++ digits ++ fraction_text fraction ++ rest) = true ->
  all_digits digits = true ->
  all_digits (fraction_of fraction) = true ->
  nonempty (digits ++ fraction_of fraction) = true ->
  head_is_digit rest = false ->
  (fraction = None -> head_is "." rest = false) ->
  B64.parseFloat (sign_text negative ++ digits ++ fraction_text fraction ++ rest) =
  B64.nearest negative (numeral (digits ++ fraction_of fraction))
              (- Z.of_nat (String.length (fraction_of fraction))).
Proof.
  intros Hn Hd Hf Hne Hr Hp.
  set (body := digits ++ fraction_text fraction ++ rest) in *.
  assert (Hrest : all_numeric rest = true).
  { apply all_numeric_app in Hn. subst body.
    now apply all_numeric_app, all_numeric_app in Hn. }
  assert (Hhead : exists c tl, body = String c tl /\ (is_digit c = true \/ c = "."%char)).
  { subst body. destruct digits as [|c ds].
    - destruct fraction as [fs|]; [|discriminate Hne].
      exists "."%char, (fs ++ rest). split; [reflexivity|now right].
    - exists c, (ds ++ fraction_text fraction ++ rest). split; [reflexivity|].
      left. cbn [all_digits all_chars] in Hd. now apply andb_prop in Hd as [Hc _]. }
  destruct Hhead as (c & tl & Hbody & Hc).
  destruct (digit_plain c Hc) as (Hminus & Hplus & HI).
  assert (Hscan : scan_digits body 0 0
                  = (numeral digits, String.length digits, fraction_text fraction ++ rest)).
  { subst body. rewrite scan_digits_app; [reflexivity|exact Hd|].
    destruct fraction as [fs|]; [reflexivity|exact (Hr)]. }
  unfold B64.parseFloat. rewrite (trimStart_numeric _ Hn). cbv zeta.
  assert (Hsign : head_is "-" (sign_text negative ++ body) = negative
                  /\ (if head_is "-" (sign_text negative ++ body)
                         || head_is "+" (sign_text negative ++ body)
                      then tail (sign_text negative ++ body)
                      else sign_text negative ++ body) = body).
  { destruct negative; cbn [sign_text append head_is tail orb].
    - split; reflexivity.
    - rewrite Hbody. cbn [head_is]. rewrite Hminus, Hplus. split; reflexivity. }
  destruct Hsign as [Hs1 Hs2]. rewrite Hs2, Hs1.
  assert (Hinf : startsWith body "Infinity" = false).
  { rewrite Hbody. cbn [startsWith]. now rewrite HI. }
  rewrite Hinf, Hscan.
  destruct fraction as [fs|].
  - cbn [fraction_text fraction_of append head_is tail] in *.
    rewrite Ascii.eqb_refl.
    rewrite (scan_digits_app fs rest Hf Hr).
    pose proof (nonempty_length _ Hne) as Hl. rewrite string_length_app in Hl.
    assert (Hlen : (String.length digits + (0 + String.length fs) =? 0)%nat = false)
      by (apply Nat.eqb_neq; lia).
    rewrite Hlen, (scan_exponent_numeric rest Hrest), numeral_app.
    f_equal; lia.
  - cbn [fraction_text fraction_of append] in *.
    rewrite (Hp eq_refl).
    pose proof (nonempty_length _ Hne) as Hl. rewrite string_length_app in Hl.
    cbn [String.length] in Hl.
    assert (Hlen : (String.length digits + 0 =? 0)%nat = false)
      by (apply Nat.eqb_neq; lia).
    rewrite Hlen, (scan_exponent_numeric rest Hrest), numeral_app.
    cbn [String.length numeral N.of_nat].
    rewrite N.pow_0_r, N.mul_1_r, N.add_0_r. f_equal; lia.
Qed.

(** On a text of kept characters [parseFloat] fails exactly when the text
    does not start with a decimal literal. *)
Lemma B64_parseFloat_numeric (s : string) :
  all_numeric s = true ->
  is_nan (B64.parseFloat s) = negb (leading_number s).
Proof.
  intros H. unfold B64.parseFloat, leading_number.
  rewrite (trimStart_numeric s H).
  assert (Hplus : head_is "+" s = false).
  { destruct s as [|c rest]; [reflexivity|]. cbn in H |- *.
    apply andb_prop in H as [Hc _].
    now destruct (numeric_char_plain c Hc) as (_ & -> & _). }
  rewrite Hplus, orb_false_r.
  set (body := if head_is "-" s then tail s else s).
  assert (Hb : all_numeric body = true).
  { subst body. destruct (head_is "-" s); [|exact H].
    destruct s as [|c rest]; [reflexivity|]. cbn in H |- *.
    now apply andb_prop in H as [_ H]. }
  destruct (mantissa_digits body Hb) as [HI Hm].
  cbv zeta. rewrite HI.
  destruct (scan_digits body 0 0) as [[ip id] rest].
  destruct (if head_is "." rest then _ else _) as [[m f] r'].
  rewrite <- Hm.
  destruct (id + f =? 0)%nat; [reflexivity|]. apply nearest_not_nan.
Qed.

Lemma B64_extractNumber_leading (text : string) :
  B64.extractNumber (Some text) =
  if leading_number (replace_non_numeric text)
  then Some (B64.parseFloat (replace_non_numeric text))
  else None.
Proof.
  unfold B64.extractNumber.
  pose proof (B64_parseFloat_numeric _ (replace_non_numeric_all_numeric text)) as Hp.
  destruct text as [|c rest]; [reflexivity|].
  cbn [nonempty negb]. cbv zeta. rewrite Hp.
  destruct (leading_number _); reflexivity.
Qed.

(** The number [extractNumber] reads off a text whose kept characters
    start with a decimal literal. *)
Lemma B64_extractNumber_literal (text : string) (negative : bool) (digits : string)
    (fraction : option string) (rest : string) :
  replace_non_numeric text =
    sign_text negative ++ digits ++ fraction_text fraction ++ rest ->
  all_digits digits = true ->
  all_digits (fraction_of fraction) = true ->
  nonempty (digits ++ fraction_of fraction) = true ->
  head_is_digit rest = false ->
  (fraction = None -> head_is "." rest = false) ->
  B64.extractNumber (Some text) =
  Some (B64.nearest negative (numeral (digits ++ fraction_of fraction))
                    (- Z.of_nat (String.length (fraction_of fraction)))).
Proof.
  intros Ht Hd Hf Hne Hr Hp.
  pose proof (replace_non_numeric_all_numeric text) as Hn. rewrite Ht in Hn.
  pose proof (B64_parseFloat_numeral negative digits fraction rest Hn Hd Hf Hne Hr Hp)
    as Hv.
  unfold B64.extractNumber.
  destruct text as [|c text'].
  { cbn [replace_non_numeric] in Ht. exfalso.
    destruct negative; [discriminate Ht|]. cbn [sign_text append] in Ht.
    destruct digits; [|discriminate Ht].
    destruct fraction; [discriminate Ht|discriminate Hne]. }
  cbn [nonempty negb]. cbv zeta. rewrite Ht, Hv, nearest_not_nan. reflexivity.
Qed.


(** The parser over binary64 and the parser over exact rationals find a
    number in the same texts. *)
Lemma extractNumber_null_agree (text : string) :
  B64.extractNumber (Some text) = None <-> extractNumber (Some text) = None.
Proof.
  rewrite B64_extractNumber_leading, extractNumber_leading.
  destruct (leading_number _); split; intros H; try reflexivity; discriminate H.
Qed.

(** The literals of two texts: ["$(1,234.56)"] keeps [1234.56], the digits
    [1234] and the fraction [56]; ["-45.5%..7"] keeps [-45.5..7], a minus
    sign, the digits [45], the fraction [5], and a rest that starts with a
    point. *)
Example literals_read :
  B64.extractNumber (Some "$(1,234.56)")
    = Some (B64.nearest false (numeral "123456") (-2)) /\
  B64.extractNumber (Some "-45.5%..7")
    = Some (B64.nearest true (numeral "455") (-1)) /\
  B64.nearest true (numeral "455") (-1) = (-45.5)%float.
Proof.
  split; [|split].
  - now apply (B64_extractNumber_literal "$(1,234.56)" false "1234" (Some "56")
                 EmptyString).
  - now apply (B64_extractNumber_literal "-45.5%..7" true "45" (Some "5") "..7").
  - vm_compute. reflexivity.
Qed.

(** The literal of the example above, and texts beyond what binary64
    holds: above 2^53 the nearest number is taken, beyond the
    largest number the result is [Infinity], and a negative zero keeps its
    sign. *)
Example B64_extractNumber_values :
  B64.nearest false (numeral "123456") (-2) = 1234.56%float /\
  B64.extractNumber (Some "9,007,199,254,740,993") = Some 9007199254740992%float /\
  B64.extractNumber (Some ("1" ++ String.concat EmptyString (repeat "0000000000" 31)))
    = Some infinity /\
  B64.extractNumber (Some "-0.0") = Some neg_zero /\
  B64.extractNumber (Some "1.2.3") = Some 1.2%float /\
  B64.extractNumber (Some "2023-12-31") = Some 2023%float /\
  B64.extractNumber (Some "-45.5%") = Some (-45.5)%float /\
  B64.extractNumber (Some "1e5") = Some 15%float /\
  B64.extractNumber (Some "-") = None /\
  B64.extractNumber (Some "n/a") = None.
Proof.
  repeat split; vm_compute; reflexivity.
Qed.

End Binary64Text.

(* ------------------------------------------------------------------ *)
(** ** Number formatting *)

(** C7, as stated, fails at 1,500,000,000: the formatter drops the
    trailing zero and gives ["1.5b"]. *)
Lemma C7_format_billions_counterexample :
  formatNumberWithCommas (Some (of_Z 1500000000)) = "1.5b" /\
  formatNumberWithCommas (Some (of_Z 1500000000)) <> "1.50b".
Proof.
  assert (H : formatNumberWithCommas (Some (of_Z 1500000000)) = "1.5b")
    by (vm_compute; reflexivity).
  split; [exact H|]. rewrite H. discriminate.
Qed.

(** C7 (amended). The formatter maps 1,234,567 to ["1.23m"],
    1,500,000,000 to ["1.5b"] (at most two fraction digits, trailing zeros
    dropped), and [null] and [NaN] to ["N/A"]. *)
Theorem C7_formatNumberWithCommas :
  formatNumberWithCommas (Some (of_Z 1234567)) = "1.23m" /\
  formatNumberWithCommas (Some (of_Z 1500000000)) = "1.5b" /\
  formatNumberWithCommas None = "N/A" /\
  formatNumberWithCommas (Some NaN) = "N/A".
Proof.
  repeat split; vm_compute; reflexivity.
Qed.

(** Further values: grouping, rounding, sign, no unit below a million. *)
Example formatNumberWithCommas_values :
  formatNumberWithCommas (Some (of_Z 1234)) = "1,234" /\
  formatNumberWithCommas (Some (of_Z 999999)) = "999,999" /\
  formatNumberWithCommas (Some (decimal 1256 3)) = "1.26" /\
  formatNumberWithCommas (Some (decimal 5 2)) = "0.05" /\
  formatNumberWithCommas (Some (of_Z (-2500000))) = "-2.5m" /\
  formatNumberWithCommas (Some (of_Z 1230000000000)) = "1,230b".
Proof.
  repeat split; vm_compute; reflexivity.
Qed.

(* ------------------------------------------------------------------ *)
(** ** Asynchronous functions: logs and outcomes *)

Lemma extends_ret {A : Type} (v : A) : extends (ret v).
Proof. intros net log. exists []. cbn. now rewrite app_nil_r. Qed.

Lemma extends_throw {A : Type} (e : Error) : extends (@throw A e).
Proof. intros net log. exists []. cbn. now rewrite app_nil_r. Qed.

Lemma extends_now : extends now.
Proof. intros net log. exists []. cbn. now rewrite app_nil_r. Qed.

Lemma extends_axios_get (url : string) : extends (axios_get url).
Proof.
  intros net log. exists [url]. unfold axios_get.
  destruct (respond net log url); reflexivity.
Qed.

Lemma extends_bind {A B : Type} (c : Async A) (k : A -> Async B) :
  extends c -> (forall v, extends (k v)) -> extends (bind c k).
Proof.
  intros Hc Hk net log. unfold bind.
  destruct (Hc net log) as [added Ha].
  destruct (c net log) as [[v|e] log']; cbn [snd] in Ha; subst log'.
  - destruct (Hk v net (log ++ added)%list) as [more Hm].
    exists (added ++ more)%list. now rewrite Hm, app_assoc.
  - now exists added.
Qed.

Lemma extends_try_catch {A : Type} (c : Async A) (h : Error -> Async A) :
  extends c -> (forall e, extends (h e)) -> extends (try_catch c h).
Proof.
  intros Hc Hh net log. unfold try_catch.
  destruct (Hc net log) as [added Ha].
  destruct (c net log) as [[v|e] log']; cbn [snd] in Ha; subst log'.
  - now exists added.
  - destruct (Hh e net (log ++ added)%list) as [more Hm].
    exists (added ++ more)%list. now rewrite Hm, app_assoc.
Qed.

Ltac extends_step :=
  first [ apply extends_bind; [|intros ?]
        | apply extends_try_catch; [|intros ?]
        | apply extends_ret | apply extends_throw | apply extends_now
        | apply extends_axios_get
        | match goal with
          | |- extends (if ?b then _ else _) => destruct b
          | |- extends (match ?x with _ => _ end) => destruct x
          end ].

(** [fetchHtml] makes exactly one request, for its URL. *)
Lemma fetchHtml_log (url : string) (net : Network) (log : list string) :
  snd (fetchHtml url net log) = (log ++ [url])%list.
Proof.
  unfold fetchHtml, try_catch, bind, axios_get.
  destruct (respond net log url) as [response|status|msg|msg]; cbn; try reflexivity.
  destruct (negb _); reflexivity.
Qed.

Lemma extends_fetchHtml (url : string) : extends (fetchHtml url).
Proof. intros net log. exists [url]. apply fetchHtml_log. Qed.

Lemma extends_getExchangeRate (currency : string) : extends (getExchangeRate currency).
Proof. unfold getExchangeRate. repeat extends_step. Qed.

Lemma extends_getCompanyName (t : string) : extends (getCompanyName t).
Proof.
  unfold getCompanyName. apply extends_bind; [apply extends_fetchHtml|intros page].
  repeat extends_step.
Qed.

Lemma extends_getCurrentPrice (t : string) : extends (getCurrentPrice t).
Proof.
  unfold getCurrentPrice.
  apply extends_try_catch; [|intros e; apply extends_throw].
  apply extends_bind; [apply extends_axios_get|intros response].
  destruct (if_truthy _); [apply extends_ret|].
  apply extends_bind; [apply extends_fetchHtml|intros page].
  repeat extends_step.
Qed.

Lemma extends_getFreeCashFlow (t : string) : extends (getFreeCashFlow t).
Proof.
  unfold getFreeCashFlow. apply extends_bind; [apply extends_fetchHtml|intros page].
  repeat extends_step.
Qed.

Lemma extends_getBalanceSheetData (t : string) : extends (getBalanceSheetData t).
Proof.
  unfold getBalanceSheetData. apply extends_bind; [apply extends_fetchHtml|intros page].
  destruct (balance_of_page page) as [[c|] [d|]]; repeat extends_step.
Qed.

Lemma extends_getSharesOutstanding (t : string) : extends (getSharesOutstanding t).
Proof.
  unfold getSharesOutstanding. apply extends_bind; [apply extends_fetchHtml|intros page].
  repeat extends_step.
Qed.

Lemma settle_all_extends {A B C D E : Type}
    (a : Async A) (b : Async B) (c : Async C) (d : Async D) (e : Async E) :
  extends a -> extends b -> extends c -> extends d -> extends e ->
  forall net log, exists added,
    snd (settle_all a b c d e net log) = (log ++ added)%list.
Proof.
  intros Ha Hb Hc Hd He net log. unfold settle_all.
  destruct (Ha net log) as [xa Ea]. destruct (a net log) as [ra la].
  cbn [snd] in Ea. subst la.
  destruct (Hb net (log ++ xa)%list) as [xb Eb]. destruct (b net _) as [rb lb].
  cbn [snd] in Eb. subst lb.
  destruct (Hc net ((log ++ xa) ++ xb)%list) as [xc Ec]. destruct (c net _) as [rc lc].
  cbn [snd] in Ec. subst lc.
  destruct (Hd net (((log ++ xa) ++ xb) ++ xc)%list) as [xd Ed]. destruct (d net _) as [rd ld].
  cbn [snd] in Ed. subst ld.
  destruct (He net ((((log ++ xa) ++ xb) ++ xc) ++ xd)%list) as [xe Ee].
  destruct (e net _) as [re le]. cbn [snd] in Ee. subst le.
  exists (xa ++ xb ++ xc ++ xd ++ xe)%list. cbn [snd].
  now rewrite <- !app_assoc.
Qed.

Lemma extends_Promise_all {A B C D E : Type}
    (a : Async A) (b : Async B) (c : Async C) (d : Async D) (e : Async E) :
  extends a -> extends b -> extends c -> extends d -> extends e ->
  extends (Promise_all a b c d e).
Proof.
  intros Ha Hb Hc Hd He net log. unfold Promise_all.
  destruct (settle_all_extends a b c d e Ha Hb Hc Hd He net log) as [added Hs].
  exists added.
  destruct (settle_all a b c d e net log) as [[[[[ra rb] rc] rd] re] log'].
  cbn [snd] in Hs. subst log'.
  destruct ra, rb, rc, rd, re; reflexivity.
Qed.

(** The exchange-rate resolver always resolves. *)
Lemma getExchangeRate_resolves (currency : string) (net : Network) (log : list string) :
  exists xr log', getExchangeRate currency net log = (Resolved xr, log').
Proof.
  unfold getExchangeRate.
  destruct (String.eqb currency "USD").
  - eexists _, _. reflexivity.
  - unfold try_catch, bind, axios_get, now, ret, throw.
    destruct (respond net log exchangeRateUrl) as [response|status|msg|msg];
      try (eexists _, _; reflexivity).
    destruct (rates response); eexists _, _; reflexivity.
Qed.

(** [handleError] always answers with a failure. *)
Lemma handleError_failure (e : Error) (t : string) :
  success (handleError e t) = false /\ data (handleError e t) = None.
Proof. split; reflexivity. Qed.

(** What a success response is made of: the page of the currency
    detection, the resolved rate, and five resolved extractions. *)
Lemma stock_route_success (param : string) (net : Network)
    (d : StockData) (log : list string) :
  stock_route param net = (json_success d, log) ->
  exists page log0 xr log2 name price fcf bs shares,
    ticker_format (toUpperCase param) = true /\
    fetchHtml (financialsUrl (toUpperCase param)) net [] = (Resolved page, log0) /\
    getExchangeRate (detectCurrency page) net log0 = (Resolved xr, log2) /\
    extractions (toUpperCase param) net log2 =
      ((Resolved name, Resolved price, Resolved fcf, Resolved bs, Resolved shares), log) /\
    d = compile_stockData (toUpperCase param) (detectCurrency page) xr
          name price fcf bs shares.
Proof.
  unfold stock_route, stock_try, extractions.
  set (t := toUpperCase param).
  destruct (ticker_format t) eqn:Hv; cbn [negb]; [|discriminate].
  unfold bind at 1. unfold detectReportingCurrency. unfold bind at 1.
  destruct (fetchHtml (financialsUrl t) net []) as [[page|e] log0] eqn:Hf;
    [|discriminate].
  unfold ret at 1. unfold bind at 1.
  destruct (getExchangeRate (detectCurrency page) net log0) as [[xr|e] log2] eqn:Hx;
    [|discriminate].
  unfold bind at 1. unfold Promise_all.
  destruct (settle_all _ _ _ _ _ net log2) as [[[[[ra rb] rc] rd] re] log3] eqn:Hs.
  destruct ra as [name|?], rb as [price|?], rc as [fcf|?], rd as [bs|?],
           re as [shares|?]; try discriminate.
  unfold ret. intros H. injection H as Hd Hl. subst log3.
  exists page, log0, xr, log2, name, price, fcf, bs, shares.
  repeat split; try reflexivity; try assumption. now symmetry.
Qed.

(** When one of the five extractions rejects, so does [Promise.all]. *)
Lemma Promise_all_rejects {A B C D E : Type}
    (a : Async A) (b : Async B) (c : Async C) (d : Async D) (e : Async E)
    (net : Network) (log : list string) outcomes (log' : list string) :
  settle_all a b c d e net log = (outcomes, log') ->
  any_rejected outcomes = true ->
  exists err, Promise_all a b c d e net log = (Rejected err, log').
Proof.
  intros Hs Hr. unfold Promise_all. rewrite Hs.
  destruct outcomes as [[[[ra rb] rc] rd] re].
  destruct ra, rb, rc, rd, re; try (eexists; reflexivity).
  discriminate Hr.
Qed.

(** C2. When one of the five field extractions of a request (company name,
    current price, free cash flow, balance sheet, shares outstanding)
    rejects, the endpoint answers [success: false] without a [data] field:
    no partial snapshot is sent. *)
Theorem C2_no_partial_snapshot (net : Network) (param currency : string)
    (xr : ExchangeRate) (log1 log2 log3 : list string)
    (outcomes : Outcome string * Outcome FieldResult * Outcome FieldResult
                * Outcome BalanceSheet * Outcome FieldResult) :
  detectReportingCurrency (toUpperCase param) net [] = (Resolved currency, log1) ->
  getExchangeRate currency net log1 = (Resolved xr, log2) ->
  extractions (toUpperCase param) net log2 = (outcomes, log3) ->
  any_rejected outcomes = true ->
  success (fst (stock_route param net)) = false /\
  data (fst (stock_route param net)) = None /\
  exists status message original,
    fst (stock_route param net) = json_failure status message original.
Proof.
  intros Hd Hx Hs Hr.
  assert (H : exists status message original,
             fst (stock_route param net) = json_failure status message original).
  { unfold stock_route, stock_try.
    destruct (ticker_format (toUpperCase param)); cbn [negb].
    - unfold bind at 1. rewrite Hd. unfold bind at 1. rewrite Hx.
      unfold bind at 1.
      destruct (Promise_all_rejects _ _ _ _ _ net log2 outcomes log3 Hs Hr) as [err He].
      rewrite He. cbn [fst]. unfold handleError. eexists _, _, _. reflexivity.
    - cbn. eexists _, _, _. reflexivity. }
  destruct H as (status & msg & original & H). rewrite H.
  repeat split. now exists status, msg, original.
Qed.

(** The theorem on a network whose cash-flow page has no table left: the
    free cash flow cannot be extracted. *)
Lemma C2_no_partial_snapshot_witness :
  success (fst (stock_route "TSM" no_cash_flow_net)) = false /\
  data (fst (stock_route "TSM" no_cash_flow_net)) = None /\
  exists status message original,
    fst (stock_route "TSM" no_cash_flow_net) = json_failure status message original.
Proof.
  pose (run1 := detectReportingCurrency "TSM" no_cash_flow_net []).
  pose (run2 := getExchangeRate "TWD" no_cash_flow_net (snd run1)).
  pose (run3 := extractions "TSM" no_cash_flow_net (snd run2)).
  apply (C2_no_partial_snapshot no_cash_flow_net "TSM" "TWD"
           {| rate := ratio 1 32; timestamp := clock no_cash_flow_net;
              fromCurrency := "TWD"; toCurrency := "USD"; error := false |}
           (snd run1) (snd run2) (snd run3) (fst run3)).
  - vm_compute. reflexivity.
  - vm_compute. reflexivity.
  - vm_compute. reflexivity.
  - vm_compute. reflexivity.
Defined.

(** What the endpoint sends on that network: status 503, the message for a
    source that cannot be read, and the error of the extraction that
    failed. *)
Example no_cash_flow_response :
  fst (stock_route "TSM" no_cash_flow_net) =
  json_failure 503
    "Unable to retrieve data for TSM. This could be due to temporary service issues or changes in the website structure."
    (Some "Failed to parse Free Cash Flow data for TSM").
Proof. vm_compute. reflexivity. Qed.

(* ------------------------------------------------------------------ *)
(** ** Ticker validation *)

Lemma upper_char_fixed (c : ascii) : is_upper c = true -> upper_char c = c.
Proof.
  destruct c as [[] [] [] [] [] [] [] []]; cbn; intros H;
    try discriminate H; reflexivity.
Qed.

Lemma toUpperCase_fixed (s : string) :
  all_chars is_upper s = true -> toUpperCase s = s.
Proof.
  unfold toUpperCase.
  induction s as [|c rest IH]; cbn [all_chars map_chars]; [reflexivity|].
  intros H. apply andb_prop in H as [Hc Hr].
  now rewrite upper_char_fixed, IH.
Qed.

Lemma ticker_format_upper (s : string) :
  ticker_format s = true -> ticker_format (toUpperCase s) = true.
Proof.
  intros H. rewrite toUpperCase_fixed; [exact H|].
  unfold ticker_format in H. now apply andb_prop in H as [_ H].
Qed.

Lemma bind_log_prefix {A B : Type} (c : Async A) (k : A -> Async B)
    (net : Network) (log pre : list string) :
  snd (c net log) = (log ++ pre)%list ->
  (forall v, extends (k v)) ->
  exists added, snd (bind c k net log) = (log ++ pre ++ added)%list.
Proof.
  intros Hc Hk. unfold bind.
  destruct (c net log) as [[v|e] log']; cbn [snd] in Hc; subst log'.
  - destruct (Hk v net (log ++ pre)%list) as [added Ha].
    exists added. now rewrite Ha, app_assoc.
  - exists []. now rewrite app_nil_r.
Qed.

Lemma detectReportingCurrency_log (t : string) (net : Network) (log : list string) :
  snd (detectReportingCurrency t net log) = (log ++ [financialsUrl t])%list.
Proof.
  unfold detectReportingCurrency, bind.
  pose proof (fetchHtml_log (financialsUrl t) net log) as Hl.
  destruct (fetchHtml (financialsUrl t) net log) as [[page|e] log']; exact Hl.
Qed.

Lemma stock_route_log (param : string) (net : Network) :
  snd (stock_route param net) = snd (stock_try (toUpperCase param) net []).
Proof.
  unfold stock_route.
  destruct (stock_try (toUpperCase param) net []) as [[response|e] log]; reflexivity.
Qed.

(** A ticker that passes validation: the financials page is requested
    first. *)
Lemma stock_try_valid_log (t : string) (net : Network) :
  ticker_format t = true ->
  exists rest, snd (stock_try t net []) = financialsUrl t :: rest.
Proof.
  intros Hv. unfold stock_try. rewrite Hv. cbn [negb].
  refine (bind_log_prefix _ _ net [] [financialsUrl t]
            (detectReportingCurrency_log t net []) _).
  intros currency.
  apply extends_bind; [apply extends_getExchangeRate|intros xr].
  apply extends_bind.
  - apply extends_Promise_all;
      [apply extends_getCompanyName|apply extends_getCurrentPrice
      |apply extends_getFreeCashFlow|apply extends_getBalanceSheetData
      |apply extends_getSharesOutstanding].
  - intros [[[[name price] fcf] bs] shares]. apply extends_ret.
Qed.

(** A ticker that passes validation: the handler goes on and requests the
    financials page first. *)
Lemma stock_route_valid (param : string) (net : Network) :
  ticker_format (toUpperCase param) = true ->
  exists response rest,
    stock_route param net = (response, financialsUrl (toUpperCase param) :: rest).
Proof.
  intros Hv.
  assert (Hlog : exists rest,
    snd (stock_route param net) = financialsUrl (toUpperCase param) :: rest).
  { rewrite stock_route_log. unfold stock_try. rewrite Hv. cbn [negb].
    set (t := toUpperCase param).
    refine (bind_log_prefix _ _ net [] [financialsUrl t]
              (detectReportingCurrency_log t net []) _).
    intros currency.
    apply extends_bind; [apply extends_getExchangeRate|intros xr].
    apply extends_bind.
    - apply extends_Promise_all;
        [apply extends_getCompanyName|apply extends_getCurrentPrice
        |apply extends_getFreeCashFlow|apply extends_getBalanceSheetData
        |apply extends_getSharesOutstanding].
    - intros [[[[name price] fcf] bs] shares]. apply extends_ret. }
  destruct Hlog as [rest Hrest].
  exists (fst (stock_route param net)), rest.
  rewrite <- Hrest. apply surjective_pairing.
Qed.

(** C3, as stated, fails on a lower-case ticker: ["tsm"] does not match
    [^[A-Z]{1,5}$], yet it is not refused; the handler upper-cases it, makes
    its requests and answers with a snapshot. *)
Lemma C3_lowercase_counterexample :
  ticker_format "tsm" = false /\
  success (fst (stock_route "tsm" tsm_net)) = true /\
  http_status (fst (stock_route "tsm" tsm_net)) <> 400 /\
  List.length (snd (stock_route "tsm" tsm_net)) = 7.
Proof.
  assert (H : exists d log, stock_route "tsm" tsm_net = (json_success d, log)
                            /\ List.length log = 7).
  { eexists _, _. split; vm_compute; reflexivity. }
  destruct H as (d & log & H & Hlen). rewrite H. cbn [fst snd success http_status].
  repeat split; [discriminate|exact Hlen].
Qed.

(* ------------------------------------------------------------------ *)
(** ** Exchange rate *)

Lemma getExchangeRate_USD (net : Network) (log : list string) :
  getExchangeRate "USD" net log =
  (Resolved {| rate := one; timestamp := clock net;
               fromCurrency := "USD"; toCurrency := "USD"; error := false |}, log).
Proof. reflexivity. Qed.

(** On a feed failure the resolver answers rate 1 with the error flag. *)
Lemma getExchangeRate_feed_fails (currency : string) (net : Network) (log : list string) :
  String.eqb currency "USD" = false ->
  feed_fails net log = true ->
  getExchangeRate currency net log =
  (Resolved {| rate := one; timestamp := clock net;
               fromCurrency := currency; toCurrency := "USD"; error := true |},
   (log ++ [exchangeRateUrl])%list).
Proof.
  intros Hc Hf. unfold getExchangeRate. rewrite Hc.
  unfold feed_fails in Hf.
  unfold try_catch, bind, axios_get, now, ret, throw.
  destruct (respond net log exchangeRateUrl) as [response|status|msg|msg];
    try reflexivity.
  destruct (rates response); [discriminate Hf|reflexivity].
Qed.

(** C6 does not hold of the code: the degraded-accuracy flag never reaches
    the snapshot.  On a request for TSM served while the rate feed is down
    the resolver answers rate 1 with [error: true]; the handler keeps the
    rate only, the request completes, and the response sent is the very
    response sent when the feed works and quotes a rate of 1: nothing in it
    tells the consumer that the conversion is approximate. *)
Theorem C6_error_flag_dropped :
  (exists xr log,
     getExchangeRate "TWD" feed_down_net [financialsUrl "TSM"] = (Resolved xr, log)
     /\ rate xr = one /\ error xr = true) /\
  (exists d,
     fst (stock_route "TSM" feed_down_net) = json_success d
     /\ exchangeRate d = one /\ reportingCurrency d = "TWD") /\
  fst (stock_route "TSM" feed_down_net) = fst (stock_route "TSM" feed_par_net) /\
  ~ (exists flag : ApiResponse -> bool,
       flag (fst (stock_route "TSM" feed_down_net)) = true /\
       flag (fst (stock_route "TSM" feed_par_net)) = false).
Proof.
  assert (Hsame : fst (stock_route "TSM" feed_down_net)
                  = fst (stock_route "TSM" feed_par_net))
    by (vm_compute; reflexivity).
  split; [|split; [|split]].
  - eexists _, _. split; [vm_compute; reflexivity|]. split; reflexivity.
  - eexists. split; [vm_compute; reflexivity|]. split; reflexivity.
  - exact Hsame.
  - intros (flag & Ht & Hf). rewrite Hsame, Hf in Ht. discriminate Ht.
Qed.

(* ------------------------------------------------------------------ *)
(** ** Currency detection *)

Lemma keyword_currency_known (text code : string) :
  keyword_currency text = Some code -> In code (map fst currencyPatterns).
Proof.
  unfold keyword_currency.
  destruct (find _ currencyPatterns) as [entry|] eqn:Hfind; [|discriminate].
  cbn [option_map]. intros H. injection H as <-.
  apply find_some in Hfind as [Hin _]. now apply in_map.
Qed.

Lemma known_code_in (code : string) :
  existsb (String.eqb code) (map fst currencyPatterns) = true ->
  In code (map fst currencyPatterns).
Proof.
  intros H. apply existsb_exists in H as (x & Hin & Heq).
  apply String.eqb_eq in Heq. now subst x.
Qed.

Lemma detectCurrency_known (page : Page) : In (detectCurrency page) known_codes.
Proof.
  assert (Hk : forall code, In code (map fst currencyPatterns) -> In code known_codes).
  { intros code H. right. exact H. }
  assert (Hkey : forall text fallback,
            In fallback known_codes ->
            In (match keyword_currency text with Some c => c | None => fallback end)
               known_codes).
  { intros text fallback Hf.
    destruct (keyword_currency text) as [c|] eqn:Hc; [|exact Hf].
    apply Hk. eapply keyword_currency_known. exact Hc. }
  unfold detectCurrency.
  set (headerText := toLowerCase (text_of page "h1, .financials-header, .table-header")).
  set (pageText := toLowerCase (text_of page "body")).
  assert (H1 : In (match keyword_currency headerText with
                   | Some c => c | None => "USD" end) known_codes).
  { apply Hkey. now left. }
  set (c1 := match keyword_currency headerText with Some c => c | None => "USD" end) in *.
  assert (H2 : In (if String.eqb c1 "USD"
                   then match keyword_currency pageText with
                        | Some c => c | None => c1 end
                   else c1) known_codes).
  { destruct (String.eqb c1 "USD"); [now apply Hkey|exact H1]. }
  destruct (match_financials pageText) as [captured|]; [|exact H2].
  cbv zeta.
  destruct (existsb _ _) eqn:He; [|exact H2].
  apply Hk. now apply known_code_in.
Qed.

(** C10. The currency detector answers with one of the seven codes USD,
    TWD, CNY, JPY, EUR, GBP, HKD on every page: the keyword table lists
    exactly the six others, and the override by [financials in millions
    <CODE>] applies only to a code of the table.  Hence the
    [reportingCurrency] of every snapshot sent is one of the seven. *)
Theorem C10_currency_codes :
  map fst currencyPatterns = ["TWD"; "CNY"; "JPY"; "EUR"; "GBP"; "HKD"] /\
  (forall page : Page, In (detectCurrency page) known_codes) /\
  (forall (net : Network) (param : string),
     match data (fst (stock_route param net)) with
     | Some d => In (reportingCurrency d) known_codes
     | None => True
     end).
Proof.
  split; [reflexivity|]. split; [exact detectCurrency_known|].
  intros net param.
  destruct (stock_route param net) as [response log] eqn:Hr. cbn [fst].
  destruct response as [d|status msg original]; cbn [data]; [|exact I].
  apply stock_route_success in Hr
    as (page & log0 & xr & log2 & name & price & fcf & bs & shares & _ & _ & _ & _ & ->).
  cbn [compile_stockData reportingCurrency]. apply detectCurrency_known.
Qed.

(* ------------------------------------------------------------------ *)
(** ** Extraction precedence *)

Lemma option_number_is (o : option number) (v : number) :
  match o with Some x => same x v | None => false end = true -> o = Some v.
Proof.
  destruct o as [x|]; [|discriminate]. intros H. f_equal. now apply same_eq.
Qed.

(** C9, as stated, fails when the row labelled [Free Cash Flow] has no
    figure to read: the exact-label attempt gives [null] and a later
    attempt supplies the value, from an earlier row that only mentions free
    cash flow, or from the operating cash flow and the capital
    expenditures. *)
Lemma C9_unparseable_exact_row_counterexample :
  existsb exact_label (table_rows dashed_cash_flow) = true /\
  existsb substring_label (table_rows dashed_cash_flow) = true /\
  fcf_exact dashed_cash_flow = None /\
  freeCashFlow_of_page dashed_cash_flow = Some (of_Z 612400) /\
  freeCashFlow_of_page dashed_cash_flow <> fcf_exact dashed_cash_flow /\
  existsb exact_label (table_rows derived_cash_flow) = true /\
  existsb substring_label (table_rows derived_cash_flow) = true /\
  fcf_exact derived_cash_flow = None /\
  freeCashFlow_of_page derived_cash_flow = Some (of_Z 870170).
Proof.
  assert (H1 : fcf_exact dashed_cash_flow = None) by (vm_compute; reflexivity).
  assert (H2 : freeCashFlow_of_page dashed_cash_flow = Some (of_Z 612400))
    by (apply option_number_is; vm_compute; reflexivity).
  assert (H3 : freeCashFlow_of_page derived_cash_flow = Some (of_Z 870170))
    by (apply option_number_is; vm_compute; reflexivity).
  split; [vm_compute; reflexivity|]. split; [vm_compute; reflexivity|].
  split; [exact H1|]. split; [exact H2|].
  split; [rewrite H1, H2; discriminate|].
  split; [vm_compute; reflexivity|]. split; [vm_compute; reflexivity|].
  split; [vm_compute; reflexivity|exact H3].
Qed.

(** C9 (amended). When the first row labelled exactly [Free Cash Flow] has
    a value that parses to a number, the chain returns that number: the
    rows that only mention free cash flow, and the derived computation, are
    not consulted, whatever they hold. *)
Theorem C9_exact_label_precedence (page : Page) (exact : Row) (v : number) :
  find exact_label (table_rows page) = Some exact ->
  rowValue exact = Some v ->
  fcf_exact page = Some v /\
  freeCashFlow_of_page page = Some v /\
  (forall (t : string) (net : Network) (log log' : list string),
     fetchHtml (cashFlowUrl t) net log = (Resolved page, log') ->
     getFreeCashFlow t net log =
     (Resolved {| value := v;
                  formattedValue := formatNumberWithCommas (Some v);
                  sourceUrl := cashFlowUrl t |}, log')).
Proof.
  intros Hfind Hval.
  assert (He : fcf_exact page = Some v).
  { unfold fcf_exact, first_row_value.
    change (fun row : Row => String.eqb (rowLabel row) "Free Cash Flow") with exact_label.
    now rewrite Hfind. }
  assert (Hc : freeCashFlow_of_page page = Some v).
  { unfold freeCashFlow_of_page. now rewrite He. }
  split; [exact He|]. split; [exact Hc|].
  intros t net log log' Hf.
  unfold getFreeCashFlow, bind. cbv zeta. rewrite Hf, Hc. reflexivity.
Qed.

(** The theorem on a page where an earlier row mentions free cash flow and
    the derived computation is possible as well. *)
Lemma C9_exact_label_precedence_witness :
  fcf_exact mixed_cash_flow = Some (of_Z 870170) /\
  freeCashFlow_of_page mixed_cash_flow = Some (of_Z 870170) /\
  (forall (t : string) (net : Network) (log log' : list string),
     fetchHtml (cashFlowUrl t) net log = (Resolved mixed_cash_flow, log') ->
     getFreeCashFlow t net log =
     (Resolved {| value := of_Z 870170;
                  formattedValue := formatNumberWithCommas (Some (of_Z 870170));
                  sourceUrl := cashFlowUrl t |}, log')).
Proof.
  apply (C9_exact_label_precedence mixed_cash_flow (row "Free Cash Flow" "870,170")).
  - vm_compute. reflexivity.
  - apply option_number_is. vm_compute. reflexivity.
Defined.

(** A label followed by a no-break space is the exact label once
    trimmed: the first row of this page decides. *)
Example padded_label_exact :
  rowLabel (row ("Free Cash Flow" ++ nbsp) "111") = "Free Cash Flow" /\
  find exact_label (table_rows padded_cash_flow)
    = Some (row ("Free Cash Flow" ++ nbsp) "111") /\
  fcf_exact padded_cash_flow = Some (of_Z 111) /\
  freeCashFlow_of_page padded_cash_flow = Some (of_Z 111).
Proof.
  split; [vm_compute; reflexivity|]. split; [vm_compute; reflexivity|].
  split; apply option_number_is; vm_compute; reflexivity.
Qed.

(** On that page the two later attempts, asked alone, answer differently
    or the same; the chain does not ask them. *)
Example mixed_cash_flow_tiers :
  fcf_substring mixed_cash_flow = Some (of_Z 612400) /\
  fcf_derived mixed_cash_flow = Some (of_Z 870170).
Proof. split; apply option_number_is; vm_compute; reflexivity. Qed.

(* ------------------------------------------------------------------ *)
(** ** The phrase [financials in millions <CODE>] *)

Lemma lower_char_not_upper (c : ascii) : is_upper (lower_char c) = false.
Proof. destruct c as [[] [] [] [] [] [] [] []]; reflexivity. Qed.

Lemma lowered_toLowerCase (t : string) : lowered (toLowerCase t) = true.
Proof.
  unfold lowered, toLowerCase.
  induction t as [|c rest IH]; cbn [map_chars all_chars]; [reflexivity|].
  now rewrite lower_char_not_upper, IH.
Qed.

Lemma toLowerCase_lowered (s : string) : lowered s = true -> toLowerCase s = s.
Proof.
  unfold lowered, toLowerCase.
  induction s as [|c rest IH]; cbn [map_chars all_chars]; [reflexivity|].
  intros H. apply andb_prop in H as [Hc Hr]. rewrite IH by exact Hr.
  unfold lower_char. now destruct (is_upper c).
Qed.

Lemma startsWith_split (p s : string) :
  startsWith s p = true -> s = p ++ drop (String.length p) s.
Proof.
  revert s. induction p as [|x p IH]; intros s H; [reflexivity|].
  destruct s as [|c s]; [discriminate H|].
  cbn [startsWith] in H. apply andb_prop in H as [Hx Hp].
  apply Ascii.eqb_eq in Hx. subst c. cbn [String.length drop append].
  f_equal. now apply IH.
Qed.

Lemma startsWith_append (p y : string) : startsWith (p ++ y) p = true.
Proof.
  induction p as [|x p IH]; [now destruct y|].
  cbn [append startsWith]. now rewrite Ascii.eqb_refl, IH.
Qed.

Lemma includes_here (s p : string) : startsWith s p = true -> includes s p = true.
Proof. intros H. destruct s; cbn [includes]; now rewrite H. Qed.

Lemma includes_cons (c : ascii) (s p : string) :
  includes s p = true -> includes (String c s) p = true.
Proof. intros H. cbn [includes]. rewrite H. apply orb_true_r. Qed.

Lemma includes_append (x y p : string) :
  includes y p = true -> includes (x ++ y) p = true.
Proof.
  intros H. induction x as [|c x IH]; [exact H|].
  cbn [append]. now apply includes_cons.
Qed.

Lemma upper_char_inv (a x : ascii) :
  upper_char a = x -> is_upper a = false -> is_upper x = true -> a = lower_char x.
Proof.
  intros H Ha Hx. subst x.
  destruct a as [[] [] [] [] [] [] [] []];
    try discriminate Ha; try discriminate Hx; reflexivity.
Qed.

Lemma known_capture (a b c : ascii) :
  is_upper a = false -> is_upper b = false -> is_upper c = false ->
  existsb (String.eqb (toUpperCase (String a (String b (String c EmptyString)))))
          (map fst currencyPatterns) = true ->
  In (String a (String b (String c EmptyString))) lower_codes.
Proof.
  intros Ha Hb Hc H. apply known_code_in in H.
  cbn [map fst currencyPatterns toUpperCase map_chars] in H.
  unfold lower_codes.
  repeat (destruct H as [H|H];
          [ injection H as H1 H2 H3;
            symmetry in H1, H2, H3;
            rewrite (upper_char_inv a _ H1 Ha eq_refl),
                    (upper_char_inv b _ H2 Hb eq_refl),
                    (upper_char_inv c _ H3 Hc eq_refl);
            cbn; tauto
          | ]).
  destruct H.
Qed.

(** Where the pattern matches at the start of a lower-cased text and
    captures a code of the table, the text contains the keyword
    [millions <code>]. *)
Lemma match_here_keyword (s cap : string) :
  lowered s = true ->
  match_here s = Some cap ->
  existsb (String.eqb (toUpperCase cap)) (map fst currencyPatterns) = true ->
  exists code, In code lower_codes /\ includes s ("millions " ++ code) = true.
Proof.
  intros Hl Hm Hk. unfold match_here in Hm.
  rewrite (toLowerCase_lowered s Hl) in Hm.
  destruct (startsWith s "financials in millions ") eqn:Hs; [|discriminate Hm].
  apply startsWith_split in Hs. cbn [String.length] in Hs.
  destruct (drop 23 s) as [|a [|b [|c r]]]; try discriminate Hm.
  destruct (is_letter a && is_letter b && is_letter c); [|discriminate Hm].
  injection Hm as <-.
  rewrite Hs in Hl. unfold lowered in Hl. cbn [append all_chars] in Hl.
  repeat match type of Hl with
         | (negb (is_upper (Ascii _ _ _ _ _ _ _ _)) && _)%bool = true =>
             apply andb_prop in Hl as [_ Hl]
         end.
  apply andb_prop in Hl as [Ha Hl]. apply andb_prop in Hl as [Hb Hl].
  apply andb_prop in Hl as [Hc _].
  apply negb_true_iff in Ha, Hb, Hc.
  exists (String a (String b (String c EmptyString))).
  split; [now apply known_capture|].
  rewrite Hs.
  change ("financials in millions " ++ String a (String b (String c r)))
    with ("financials in "
          ++ (("millions " ++ String a (String b (String c EmptyString))) ++ r)).
  apply includes_append, includes_here, startsWith_append.
Qed.

Lemma match_financials_keyword (s cap : string) :
  lowered s = true ->
  match_financials s = Some cap ->
  existsb (String.eqb (toUpperCase cap)) (map fst currencyPatterns) = true ->
  exists code, In code lower_codes /\ includes s ("millions " ++ code) = true.
Proof.
  intros Hl Hm Hk. induction s as [|x rest IH].
  - discriminate Hm.
  - cbn [match_financials] in Hm.
    destruct (match_here (String x rest)) as [captured|] eqn:Hh.
    + injection Hm as ->. now apply (match_here_keyword _ cap).
    + unfold lowered in Hl. cbn [all_chars] in Hl.
      apply andb_prop in Hl as [_ Hl].
      destruct (IH Hl Hm) as (code & Hin & Hinc).
      exists code. split; [exact Hin|]. now apply includes_cons.
Qed.

(** A text that contains [millions <code>] for a code of the table has a
    currency keyword. *)
Lemma keyword_of_millions (s code : string) :
  In code lower_codes ->
  includes s ("millions " ++ code) = true ->
  keyword_currency s <> None.
Proof.
  intros Hin Hinc Hnone. unfold keyword_currency in Hnone.
  destruct (find _ currencyPatterns) as [entry|] eqn:Hfind; [discriminate Hnone|].
  pose proof (find_none _ _ Hfind) as Hall.
  unfold lower_codes in Hin.
  repeat (destruct Hin as [<-|Hin];
          [ match type of Hinc with
            | includes s ?pattern = true =>
                match goal with
                | _ : _ |- _ =>
                    let entry := eval cbv in
                      (find (fun e => existsb (String.eqb pattern) (snd e)) currencyPatterns) in
                    match entry with
                    | Some ?e =>
                        assert (He : In e currencyPatterns) by (cbn; tauto);
                        specialize (Hall e He); cbn [snd existsb] in Hall;
                        cbn [append] in Hinc; rewrite Hinc in Hall;
                        discriminate Hall
                    end
                end
            end
          | ]).
  destruct Hin.
Qed.

Lemma no_keyword_no_override (s : string) :
  lowered s = true ->
  keyword_currency s = None ->
  match match_financials s with
  | Some cap => existsb (String.eqb (toUpperCase cap)) (map fst currencyPatterns)
  | None => false
  end = false.
Proof.
  intros Hl Hk.
  destruct (match_financials s) as [cap|] eqn:Hm; [|reflexivity].
  destruct (existsb _ _) eqn:He; [|reflexivity].
  destruct (match_financials_keyword s cap Hl Hm He) as (code & Hin & Hinc).
  now destruct (keyword_of_millions s code Hin Hinc).
Qed.

(** C8, as stated, fails on a page where the phrase with another code of
    the table comes first: the pattern captures at its leftmost match, so
    a text that contains ["financials in millions TWD"] after
    ["financials in millions JPY"] is classified as JPY. *)
Lemma C8_earlier_phrase_counterexample :
  includes (text_of two_statements_page "body") "financials in millions TWD" = true /\
  match_financials (toLowerCase (text_of two_statements_page "body")) = Some "jpy" /\
  In "JPY" (map fst currencyPatterns) /\
  detectCurrency two_statements_page = "JPY" /\
  detectCurrency two_statements_page <> "TWD".
Proof.
  assert (H : detectCurrency two_statements_page = "JPY") by (vm_compute; reflexivity).
  split; [vm_compute; reflexivity|]. split; [vm_compute; reflexivity|].
  split; [cbn; tauto|]. split; [exact H|]. rewrite H. discriminate.
Qed.

(** C8 (amended). On every page where the leftmost match of [financials in
    millions <CODE>] in the text of the body captures TWD, the detector
    answers TWD, whatever the heading and the rest of the text hold; the
    detector is total, and on every page where neither the heading nor the
    body holds a currency keyword it answers USD. *)
Theorem C8_currency_detection (phrase plain : Page) :
  match_financials (toLowerCase (text_of phrase "body")) = Some "twd" ->
  keyword_currency
    (toLowerCase (text_of plain "h1, .financials-header, .table-header")) = None ->
  keyword_currency (toLowerCase (text_of plain "body")) = None ->
  detectCurrency phrase = "TWD" /\ detectCurrency plain = "USD".
Proof.
  intros Hp Hh Hb. split.
  - unfold detectCurrency. rewrite Hp. reflexivity.
  - pose proof (no_keyword_no_override _ (lowered_toLowerCase (text_of plain "body")) Hb)
      as Ho.
    clear Hp. unfold detectCurrency. rewrite Hh, Hb.
    cbn [String.eqb Ascii.eqb Bool.eqb].
    destruct (match_financials (toLowerCase (text_of plain "body"))) as [cap|];
      [|reflexivity].
    cbv zeta. now rewrite Ho.
Qed.

(** The theorem on a page whose only mention of a currency is the phrase,
    and on a page that mentions none. *)
Lemma C8_currency_detection_witness :
  detectCurrency phrase_page = "TWD" /\ detectCurrency plain_page = "USD".
Proof.
  apply (C8_currency_detection phrase_page plain_page).
  - vm_compute. reflexivity.
  - vm_compute. reflexivity.
  - vm_compute. reflexivity.
Defined.

(** The phrase wins over a keyword of the heading. *)
Example phrase_overrides_heading :
  detectCurrency
    (statement_page "Yen Holdings (YENH) Financials"
                    "Yen Holdings (YENH) Financials Financials in millions TWD." [])
  = "TWD".
Proof. vm_compute. reflexivity. Qed.

(* ================================================================== *)
(** * Further properties of the code *)

(* ------------------------------------------------------------------ *)
(** ** Fetching a page *)

Lemma append_assoc3 (a b c : string) : (a ++ b) ++ c = a ++ (b ++ c).
Proof.
  induction a as [|x a IH]; cbn [append]; [reflexivity|]. now rewrite IH.
Qed.

Lemma startsWith_url_prefix (url rest : string) :
  startsWith ("Failed to fetch data from " ++ url ++ ": " ++ rest)
             ("Failed to fetch data from " ++ url ++ ": ") = true.
Proof.
  replace ("Failed to fetch data from " ++ url ++ ": " ++ rest)
    with (("Failed to fetch data from " ++ url ++ ": ") ++ rest).
  - apply startsWith_append.
  - now rewrite !append_assoc3.
Qed.

(** How [fetchHtml] fails. *)
Lemma fetchHtml_rejection_shape (url : string) (net : Network)
    (log log' : list string) (e : Error) :
  fetchHtml url net log = (Rejected e, log') ->
  log' = (log ++ [url])%list /\
  startsWith (message e) ("Failed to fetch data from " ++ url ++ ": ") = true /\
  response_status e = None /\
  has_request e = false /\
  match respond net log url with
  | Fulfilled response =>
      includes (match content_type response with Some v => v | None => EmptyString end)
               "text/html" = false
  | _ => True
  end.
Proof.
  intros H.
  pose proof (fetchHtml_log url net log) as Hl. rewrite H in Hl. cbn [snd] in Hl.
  split; [exact Hl|].
  unfold fetchHtml, try_catch, bind, axios_get in H.
  destruct (respond net log url) as [response|status|msg|msg].
  - destruct (includes _ "text/html") eqn:Hc; cbn in H; [discriminate H|].
    injection H as <- _. cbn [message response_status has_request new_Error].
    repeat split. apply startsWith_url_prefix.
  - cbn in H. injection H as <- _. cbn [message response_status has_request new_Error].
    repeat split. apply startsWith_url_prefix.
  - cbn in H. injection H as <- _. cbn [message response_status has_request new_Error].
    repeat split.
    apply (startsWith_url_prefix url
             "No response received. The service might be temporarily unavailable.").
  - cbn in H. injection H as <- _. cbn [message response_status has_request new_Error].
    repeat split. apply startsWith_url_prefix.
Qed.


(** X1. [fetchHtml] makes one request and does not retry; whatever makes it
    fail (a failure status, no response, a failure before sending, or a
    response whose content type is not HTML), it rejects with a plain
    [Error] whose message starts with [Failed to fetch data from <url>: ],
    so that no status of the source reaches the caller. *)
Theorem X1_fetchHtml_rejection (url : string) (net : Network)
    (log log' : list string) (e : Error) :
  fetchHtml url net log = (Rejected e, log') ->
  log' = (log ++ [url])%list /\
  startsWith (message e) ("Failed to fetch data from " ++ url ++ ": ") = true /\
  response_status e = None /\
  has_request e = false /\
  match respond net log url with
  | Fulfilled response =>
      includes (match content_type response with Some v => v | None => EmptyString end)
               "text/html" = false
  | _ => True
  end.
Proof. apply fetchHtml_rejection_shape. Qed.

(** The theorem on a network that answers nothing. *)
Lemma X1_fetchHtml_rejection_witness :
  [overviewUrl "TSM"] = ([] ++ [overviewUrl "TSM"])%list /\
  startsWith
    (message (new_Error ("Failed to fetch data from " ++ overviewUrl "TSM"
       ++ ": No response received. The service might be temporarily unavailable.")))
    ("Failed to fetch data from " ++ overviewUrl "TSM" ++ ": ") = true /\
  response_status (new_Error ("Failed to fetch data from " ++ overviewUrl "TSM"
       ++ ": No response received. The service might be temporarily unavailable.")) = None /\
  has_request (new_Error ("Failed to fetch data from " ++ overviewUrl "TSM"
       ++ ": No response received. The service might be temporarily unavailable.")) = false /\
  match respond dead_net [] (overviewUrl "TSM") with
  | Fulfilled response =>
      includes (match content_type response with Some v => v | None => EmptyString end)
               "text/html" = false
  | _ => True
  end.
Proof.
  apply (X1_fetchHtml_rejection (overviewUrl "TSM") dead_net [] [overviewUrl "TSM"]).
  vm_compute. reflexivity.
Defined.

(* ------------------------------------------------------------------ *)
(** ** The statuses of the endpoint *)

Lemma rejects_ret {A : Type} (P : Error -> Prop) (v : A) : rejects_with P (ret v).
Proof. intros net log e log' H. discriminate H. Qed.

Lemma rejects_throw {A : Type} (P : Error -> Prop) (err : Error) :
  P err -> rejects_with P (@throw A err).
Proof. intros Hp net log e log' H. injection H as <- _. exact Hp. Qed.

Lemma rejects_bind {A B : Type} (P : Error -> Prop) (c : Async A) (k : A -> Async B) :
  rejects_with P c -> (forall v, rejects_with P (k v)) -> rejects_with P (bind c k).
Proof.
  intros Hc Hk net log e log' H. unfold bind in H.
  destruct (c net log) as [[v|err] l] eqn:Hrun.
  - now apply (Hk v net l e log').
  - injection H as <- _. now apply (Hc net log err l).
Qed.

Lemma rejects_try_catch {A : Type} (P : Error -> Prop) (c : Async A)
    (h : Error -> Async A) :
  (forall err, rejects_with P (h err)) -> rejects_with P (try_catch c h).
Proof.
  intros Hh net log e log' H. unfold try_catch in H.
  destruct (c net log) as [[v|err] l]; [discriminate H|].
  now apply (Hh err net l e log').
Qed.

Lemma pipeline_error_fetch (rest : string) :
  pipeline_error (new_Error ("Failed to fetch" ++ rest)).
Proof.
  split; [reflexivity|]. unfold isScrapingError. cbn [message new_Error].
  rewrite (includes_here _ "Failed to fetch" (startsWith_append _ rest)).
  apply orb_true_r.
Qed.

Lemma pipeline_error_parse (rest : string) :
  pipeline_error (new_Error ("Failed to parse" ++ rest)).
Proof.
  split; [reflexivity|]. unfold isScrapingError. cbn [message new_Error].
  now rewrite (includes_here _ "Failed to parse" (startsWith_append _ rest)).
Qed.

Lemma rejects_fetchHtml (url : string) : rejects_with pipeline_error (fetchHtml url).
Proof.
  unfold fetchHtml. apply rejects_try_catch. intros err.
  destruct (response_status err); [|destruct (has_request err)];
    apply rejects_throw; apply (pipeline_error_fetch (" data from " ++ _)).
Qed.

Ltac rejects_step :=
  first [ apply rejects_ret
        | apply rejects_throw;
          first [ apply (pipeline_error_parse (" Free Cash Flow data for " ++ _))
                | apply (pipeline_error_parse (" Cash and Equivalents data for " ++ _))
                | apply (pipeline_error_parse (" Total Debt data for " ++ _))
                | apply (pipeline_error_parse (" Shares Outstanding data for " ++ _))
                | apply (pipeline_error_parse (" Company Name for " ++ _))
                | apply (pipeline_error_fetch (" current price for " ++ _)) ]
        | apply rejects_fetchHtml
        | apply rejects_bind; [|intros ?]
        | match goal with
          | |- rejects_with _ (if ?b then _ else _) => destruct b
          | |- rejects_with _ (match ?x with _ => _ end) => destruct x
          end ].

Lemma rejects_getFreeCashFlow (t : string) :
  rejects_with pipeline_error (getFreeCashFlow t).
Proof. unfold getFreeCashFlow. repeat rejects_step. Qed.

Lemma rejects_getBalanceSheetData (t : string) :
  rejects_with pipeline_error (getBalanceSheetData t).
Proof.
  unfold getBalanceSheetData. apply rejects_bind; [apply rejects_fetchHtml|intros page].
  destruct (balance_of_page page) as [[c|] [d|]]; repeat rejects_step.
Qed.

Lemma rejects_getSharesOutstanding (t : string) :
  rejects_with pipeline_error (getSharesOutstanding t).
Proof. unfold getSharesOutstanding. repeat rejects_step. Qed.

Lemma rejects_getCompanyName (t : string) :
  rejects_with pipeline_error (getCompanyName t).
Proof. unfold getCompanyName. repeat rejects_step. Qed.

Lemma rejects_getCurrentPrice (t : string) :
  rejects_with pipeline_error (getCurrentPrice t).
Proof.
  unfold getCurrentPrice. apply rejects_try_catch. intros err.
  apply rejects_throw.
  exact (pipeline_error_fetch (" current price for " ++ t ++ ": " ++ message err)).
Qed.

Lemma rejects_detectReportingCurrency (t : string) :
  rejects_with pipeline_error (detectReportingCurrency t).
Proof. unfold detectReportingCurrency. repeat rejects_step. Qed.

Lemma rejects_getExchangeRate (P : Error -> Prop) (currency : string) :
  rejects_with P (getExchangeRate currency).
Proof.
  intros net log e log' H.
  destruct (getExchangeRate_resolves currency net log) as (xr & l & Hx).
  rewrite Hx in H. discriminate H.
Qed.

(** The rejection [Promise.all] reports is one of those at hand. *)
Lemma first_rejection_in (order : list nat) (rejs : list (option Error)) :
  (exists i, In i order /\ nth i rejs None <> None) ->
  exists i, nth i rejs None = Some (first_rejection order rejs).
Proof.
  induction order as [|j rest IH]; intros (i & Hin & Hi); [destruct Hin|].
  cbn [first_rejection].
  destruct (nth j rejs None) as [err|] eqn:Hj; [now exists j|].
  apply IH. exists i. split; [|exact Hi].
  destruct Hin as [->|Hin]; [now rewrite Hj in Hi|exact Hin].
Qed.

Lemma settle_all_runs {A B C D E : Type}
    (a : Async A) (b : Async B) (c : Async C) (d : Async D) (e : Async E)
    (net : Network) (log : list string) ra rb rc rd re (log' : list string) :
  settle_all a b c d e net log = ((ra, rb, rc, rd, re), log') ->
  exists l1 l2 l3 l4,
    a net log = (ra, l1) /\ b net l1 = (rb, l2) /\ c net l2 = (rc, l3) /\
    d net l3 = (rd, l4) /\ e net l4 = (re, log').
Proof.
  unfold settle_all.
  destruct (a net log) as [xa l1] eqn:Ra. destruct (b net l1) as [xb l2] eqn:Rb.
  destruct (c net l2) as [xc l3] eqn:Rc. destruct (d net l3) as [xd l4] eqn:Rd.
  destruct (e net l4) as [xe l5] eqn:Re.
  intros H. injection H as H1 H2 H3 H4 H5 H6. subst.
  exists l1, l2, l3, l4. repeat split; assumption.
Qed.

Lemma rejects_Promise_all {A B C D E : Type} (P : Error -> Prop)
    (a : Async A) (b : Async B) (c : Async C) (d : Async D) (e : Async E) :
  rejects_with P a -> rejects_with P b -> rejects_with P c ->
  rejects_with P d -> rejects_with P e ->
  rejects_with P (Promise_all a b c d e).
Proof.
  intros Ha Hb Hc Hd He net log err log' H. unfold Promise_all in H.
  destruct (settle_all a b c d e net log) as [[[[[ra rb] rc] rd] re] l] eqn:Hs.
  apply settle_all_runs in Hs as (l1 & l2 & l3 & l4 & Ra & Rb & Rc & Rd & Re).
  set (rejs := [rejection ra; rejection rb; rejection rc; rejection rd; rejection re]) in *.
  assert (Hsome : exists i, In i (settle_order net ++ [0; 1; 2; 3; 4])%list
                            /\ nth i rejs None <> None).
  { destruct ra as [va|ea].
    2:{ exists 0. split; [apply in_or_app; right; cbn; tauto|discriminate]. }
    destruct rb as [vb|eb].
    2:{ exists 1. split; [apply in_or_app; right; cbn; tauto|discriminate]. }
    destruct rc as [vc|ec].
    2:{ exists 2. split; [apply in_or_app; right; cbn; tauto|discriminate]. }
    destruct rd as [vd|ed].
    2:{ exists 3. split; [apply in_or_app; right; cbn; tauto|discriminate]. }
    destruct re as [ve|ee].
    2:{ exists 4. split; [apply in_or_app; right; cbn; tauto|discriminate]. }
    discriminate H. }
  destruct (first_rejection_in _ rejs Hsome) as (i & Hi).
  assert (Herr : err = first_rejection (settle_order net ++ [0; 1; 2; 3; 4])%list rejs).
  { destruct ra, rb, rc, rd, re; try discriminate H; now injection H as <- _. }
  rewrite <- Herr in Hi. clear Herr H Hsome.
  subst rejs.
  destruct i as [|[|[|[|[|i]]]]]; cbn [nth] in Hi.
  - destruct ra; [discriminate Hi|]. injection Hi as ->. now apply (Ha net log err l1).
  - destruct rb; [discriminate Hi|]. injection Hi as ->. now apply (Hb net l1 err l2).
  - destruct rc; [discriminate Hi|]. injection Hi as ->. now apply (Hc net l2 err l3).
  - destruct rd; [discriminate Hi|]. injection Hi as ->. now apply (Hd net l3 err l4).
  - destruct re; [discriminate Hi|]. injection Hi as ->. now apply (He net l4 err l).
  - destruct i; discriminate Hi.
Qed.

Lemma rejects_stock_try (t : string) : rejects_with pipeline_error (stock_try t).
Proof.
  unfold stock_try. destruct (negb (ticker_format t)); [apply rejects_ret|].
  apply rejects_bind; [apply rejects_detectReportingCurrency|intros currency].
  apply rejects_bind; [apply rejects_getExchangeRate|intros xr].
  apply rejects_bind.
  - apply rejects_Promise_all;
      [apply rejects_getCompanyName|apply rejects_getCurrentPrice
      |apply rejects_getFreeCashFlow|apply rejects_getBalanceSheetData
      |apply rejects_getSharesOutstanding].
  - intros [[[[name price] fcf] bs] shares]. apply rejects_ret.
Qed.

Lemma handleError_pipeline (e : Error) (t : string) :
  pipeline_error e ->
  handleError e t = json_failure 503 (unavailable_message t) (Some (message e)).
Proof.
  intros [Hs Hi]. unfold handleError, isScrapingError in *. now rewrite Hs, Hi.
Qed.

(** What the body of the handler comes to: the refusal for a ticker of
    the wrong format; for another ticker a snapshot, or an error of the
    pipeline. *)
Lemma stock_try_answers (t : string) (net : Network) :
  match stock_try t net [] with
  | (Resolved response, _) =>
      if ticker_format t then exists d, response = json_success d
      else response = invalid_ticker_response
  | (Rejected e, _) => ticker_format t = true /\ pipeline_error e
  end.
Proof.
  destruct (stock_try t net []) as [[response|e] log] eqn:Hrun.
  - unfold stock_try in Hrun.
    destruct (ticker_format t); cbn [negb] in Hrun.
    + unfold bind at 1 in Hrun.
      destruct (detectReportingCurrency _ net []) as [[currency|e1] l1];
        [|discriminate Hrun].
      unfold bind at 1 in Hrun.
      destruct (getExchangeRate currency net l1) as [[xr|e2] l2]; [|discriminate Hrun].
      unfold bind at 1 in Hrun.
      destruct (Promise_all _ _ _ _ _ net l2) as [[[[[[name price] fcf] bs] shares]|e3] l3];
        [|discriminate Hrun].
      injection Hrun as <- _. eexists. reflexivity.
    + now injection Hrun as <- _.
  - split; [|exact (rejects_stock_try _ net [] e log Hrun)].
    unfold stock_try in Hrun.
    destruct (ticker_format t); [reflexivity|discriminate Hrun].
Qed.

(** A ticker whose upper-cased form passes validation: the handler
    requests the financials page first and answers with a snapshot or with
    status 503. *)
Lemma stock_route_on_valid (upper : string -> string) (param : string)
    (net : Network) :
  ticker_format (upper param) = true ->
  exists response rest,
    stock_route_on upper param net = (response, financialsUrl (upper param) :: rest) /\
    ((exists d, response = json_success d) \/
     (exists original,
        response = json_failure 503 (unavailable_message (upper param))
                                (Some original))).
Proof.
  intros Hv. unfold stock_route_on.
  pose proof (stock_try_answers (upper param) net) as Ha. rewrite Hv in Ha.
  destruct (stock_try_valid_log (upper param) net Hv) as [rest Hrest].
  destruct (stock_try (upper param) net []) as [[response|e] log];
    cbn [snd] in Hrest; subst log.
  - exists response, rest. split; [reflexivity|]. left. exact Ha.
  - exists (handleError e (upper param)), rest. split; [reflexivity|].
    right. exists (message e). apply handleError_pipeline. exact (proj2 Ha).
Qed.

(** C3 (amended). The path parameter is upper-cased first, by the
    [toUpperCase] of the host, whatever that function does to its
    characters.  When the upper-cased string matches [^[A-Z]{1,5}$]
    validation passes: the first request is for the financials page of the
    upper-cased ticker, and the answer is a snapshot or status 503, never
    the refusal.  Any other string is refused with status 400 and
    [success: false] before any request is made.  A string that matches
    already is left as it is by an upper-casing that leaves the letters A
    to Z alone, and so passes. *)
Theorem C3_ticker_validation (upper : string -> string) (param : string)
    (net : Network) :
  (if ticker_format (upper param)
   then exists response rest,
          stock_route_on upper param net
            = (response, financialsUrl (upper param) :: rest) /\
          ((exists d, response = json_success d) \/
           (exists original,
              response = json_failure 503 (unavailable_message (upper param))
                                      (Some original)))
   else stock_route_on upper param net = (invalid_ticker_response, [])) /\
  http_status invalid_ticker_response = 400 /\
  success invalid_ticker_response = false /\
  ((forall s, all_chars is_upper s = true -> upper s = s) ->
   ticker_format param = true ->
   upper param = param /\ ticker_format (upper param) = true) /\
  stock_route_on toUpperCase param net = stock_route param net /\
  (forall s, all_chars is_upper s = true -> toUpperCase s = s).
Proof.
  split; [|split; [reflexivity|split; [reflexivity|split; [|split]]]].
  - destruct (ticker_format (upper param)) eqn:Hv.
    + now apply stock_route_on_valid.
    + unfold stock_route_on, stock_try. rewrite Hv. reflexivity.
  - intros Hu Hp.
    assert (Hs : upper param = param).
    { apply Hu. unfold ticker_format in Hp. now apply andb_prop in Hp as [_ Hp]. }
    split; [exact Hs|now rewrite Hs].
  - reflexivity.
  - exact toUpperCase_fixed.
Qed.

(** A path parameter that is not ASCII: on a host that upper-cases the
    sharp s to [SS] it passes validation, and the pages of [SS] are
    requested. *)
Example sharp_s_accepted (upper : string -> string) (net : Network) :
  upper sharp_s = "SS" ->
  ticker_format sharp_s = false /\
  exists response rest,
    stock_route_on upper sharp_s net = (response, financialsUrl "SS" :: rest).
Proof.
  intros Hu. split; [reflexivity|].
  destruct (stock_route_on_valid upper sharp_s net) as (response & rest & H & _).
  - now rewrite Hu.
  - exists response, rest. now rewrite Hu in H.
Qed.

(** X2. Whatever the network does, the endpoint answers in one of three
    ways: a snapshot with status 200, the refusal of the ticker with status
    400, or status 503 with the message for a source that cannot be read
    and the message of the error that was thrown.  The status 500 and the
    statuses of the sources are never sent. *)
Theorem X2_endpoint_statuses (net : Network) (param : string) :
  (exists d, fst (stock_route param net) = json_success d) \/
  fst (stock_route param net) = invalid_ticker_response \/
  (exists original,
     fst (stock_route param net) =
     json_failure 503 (unavailable_message (toUpperCase param)) (Some original)).
Proof.
  unfold stock_route.
  destruct (stock_try (toUpperCase param) net []) as [[response|e] log] eqn:Hrun;
    cbn [fst].
  - unfold stock_try in Hrun.
    destruct (negb (ticker_format (toUpperCase param))).
    + injection Hrun as <- _. right. now left.
    + unfold bind at 1 in Hrun.
      destruct (detectReportingCurrency _ net []) as [[currency|e1] l1];
        [|discriminate Hrun].
      unfold bind at 1 in Hrun.
      destruct (getExchangeRate currency net l1) as [[xr|e2] l2]; [|discriminate Hrun].
      unfold bind at 1 in Hrun.
      destruct (Promise_all _ _ _ _ _ net l2) as [[[[[[name price] fcf] bs] shares]|e3] l3];
        [|discriminate Hrun].
      injection Hrun as <- _. left. eexists. reflexivity.
  - right. right. exists (message e).
    apply handleError_pipeline. exact (rejects_stock_try _ net [] e log Hrun).
Qed.

(* ------------------------------------------------------------------ *)
(** ** The requests of the endpoint *)

Lemma silent_ret {A : Type} (v : A) : silent (ret v).
Proof. intros net log. reflexivity. Qed.

Lemma silent_throw {A : Type} (e : Error) : silent (@throw A e).
Proof. intros net log. reflexivity. Qed.

Ltac silent_step :=
  first [ apply silent_ret | apply silent_throw
        | match goal with
          | |- silent (if ?b then _ else _) => destruct b
          | |- silent (match ?x with _ => _ end) => destruct x
          end ].

Lemma fetch_then_log {A : Type} (url : string) (k : Page -> Async A)
    (net : Network) (log : list string) :
  (forall page, silent (k page)) ->
  snd (bind (fetchHtml url) k net log) = (log ++ [url])%list.
Proof.
  intros Hk. unfold bind.
  pose proof (fetchHtml_log url net log) as Hl.
  destruct (fetchHtml url net log) as [[page|e] l]; cbn [snd] in Hl; subst l.
  - apply Hk.
  - reflexivity.
Qed.

Lemma getCompanyName_log (t : string) (net : Network) (log : list string) :
  snd (getCompanyName t net log) = (log ++ [overviewUrl t])%list.
Proof.
  unfold getCompanyName. apply fetch_then_log. intros page. repeat silent_step.
Qed.

Lemma getFreeCashFlow_log (t : string) (net : Network) (log : list string) :
  snd (getFreeCashFlow t net log) = (log ++ [cashFlowUrl t])%list.
Proof.
  unfold getFreeCashFlow. apply fetch_then_log. intros page. repeat silent_step.
Qed.

Lemma getBalanceSheetData_log (t : string) (net : Network) (log : list string) :
  snd (getBalanceSheetData t net log) = (log ++ [balanceSheetUrl t])%list.
Proof.
  unfold getBalanceSheetData. apply fetch_then_log. intros page.
  destruct (balance_of_page page) as [[c|] [d|]]; repeat silent_step.
Qed.

Lemma getSharesOutstanding_log (t : string) (net : Network) (log : list string) :
  snd (getSharesOutstanding t net log) = (log ++ [financialsUrl t])%list.
Proof.
  unfold getSharesOutstanding. apply fetch_then_log. intros page. repeat silent_step.
Qed.

(** The price lookup asks the quote feed, and the overview page only when
    the feed answers without a usable price. *)
Lemma getCurrentPrice_log (t : string) (net : Network) (log : list string) :
  snd (getCurrentPrice t net log) =
  (log ++ yahooUrl t ::
     match respond net log (yahooUrl t) with
     | Fulfilled response =>
         match if_truthy (regularMarketPrice response) with
         | Some _ => []
         | None => [overviewUrl t]
         end
     | _ => []
     end)%list.
Proof.
  unfold getCurrentPrice, try_catch. unfold bind at 1. unfold axios_get.
  destruct (respond net log (yahooUrl t)) as [response|status|msg|msg];
    try reflexivity.
  destruct (if_truthy (regularMarketPrice response)) as [price|]; [reflexivity|].
  cbv zeta.
  assert (Hs : forall page,
    silent (match price_from_selectors page priceSelectors with
            | Some currentPrice =>
                ret {| value := currentPrice;
                       formattedValue := formatNumberWithCommas (Some currentPrice);
                       sourceUrl := overviewUrl t |}
            | None => throw (new_Error ("Failed to parse Current Price data for " ++ t))
            end)).
  { intros page. repeat silent_step. }
  pose proof (fetch_then_log (overviewUrl t) _ net (log ++ [yahooUrl t])%list Hs) as Hl.
  destruct (bind (fetchHtml (overviewUrl t)) _ net (log ++ [yahooUrl t])%list)
    as [[v|e] l]; cbn [snd] in Hl |- *; subst l; now rewrite <- app_assoc.
Qed.

Lemma getExchangeRate_log (currency : string) (net : Network) (log : list string) :
  snd (getExchangeRate currency net log) = (log ++ rate_requests currency)%list.
Proof.
  unfold getExchangeRate, rate_requests.
  destruct (String.eqb currency "USD"); [cbn; now rewrite app_nil_r|].
  unfold try_catch, bind, axios_get, now, ret, throw.
  destruct (respond net log exchangeRateUrl) as [response|status|msg|msg];
    try reflexivity.
  destruct (rates response); reflexivity.
Qed.

Lemma Promise_all_log {A B C D E : Type}
    (a : Async A) (b : Async B) (c : Async C) (d : Async D) (e : Async E)
    (net : Network) (log : list string) :
  snd (Promise_all a b c d e net log) = snd (settle_all a b c d e net log).
Proof.
  unfold Promise_all.
  destruct (settle_all a b c d e net log) as [[[[[ra rb] rc] rd] re] l].
  destruct ra, rb, rc, rd, re; reflexivity.
Qed.

(** The five extractions are all launched, whatever becomes of each; the
    price lookup makes a second request when the quote feed answers
    without a usable price. *)
Lemma extractions_log (t : string) (net : Network) (log : list string) :
  snd (extractions t net log) =
  (log ++ [overviewUrl t; yahooUrl t]
       ++ fallback_requests t net (log ++ [overviewUrl t])
       ++ [cashFlowUrl t; balanceSheetUrl t; financialsUrl t])%list.
Proof.
  unfold extractions, fallback_requests.
  destruct (settle_all _ _ _ _ _ net log) as [[[[[ra rb] rc] rd] re] l] eqn:Hs.
  apply settle_all_runs in Hs as (l1 & l2 & l3 & l4 & Ra & Rb & Rc & Rd & Re).
  pose proof (getCompanyName_log t net log) as H1. rewrite Ra in H1.
  pose proof (getCurrentPrice_log t net l1) as H2. rewrite Rb in H2.
  pose proof (getFreeCashFlow_log t net l2) as H3. rewrite Rc in H3.
  pose proof (getBalanceSheetData_log t net l3) as H4. rewrite Rd in H4.
  pose proof (getSharesOutstanding_log t net l4) as H5. rewrite Re in H5.
  cbn [snd] in *. subst l1. subst l l4 l3 l2.
  rewrite <- !app_assoc. reflexivity.
Qed.

(** X3. For a ticker that passes validation and whose currency page is
    fetched, the endpoint requests the financials page, then the rate feed
    unless the currency is USD, then the pages of the five extractions:
    overview, quote feed, cash flow, balance sheet and financials, each
    once and in that order, all of them whatever becomes of the others.
    The overview page is requested once more, at some point after the
    quote feed, exactly when the quote feed answers without a usable
    price.  That is 6 to 8 requests, without a retry. *)
Theorem X3_request_trace (net : Network) (param currency : string)
    (log1 : list string) :
  ticker_format (toUpperCase param) = true ->
  detectReportingCurrency (toUpperCase param) net [] = (Resolved currency, log1) ->
  exists before extra after : list string,
    snd (stock_route param net) =
      ([financialsUrl (toUpperCase param)] ++ rate_requests currency
         ++ before ++ extra ++ after)%list /\
    (before ++ after)%list =
      [overviewUrl (toUpperCase param); yahooUrl (toUpperCase param);
       cashFlowUrl (toUpperCase param); balanceSheetUrl (toUpperCase param);
       financialsUrl (toUpperCase param)] /\
    In (yahooUrl (toUpperCase param)) before /\
    extra =
      fallback_requests (toUpperCase param) net
        ([financialsUrl (toUpperCase param)] ++ rate_requests currency
           ++ [overviewUrl (toUpperCase param)])%list /\
    (6 <= List.length (snd (stock_route param net)) <= 8)%nat.
Proof.
  intros Hv Hd. set (t := toUpperCase param) in *.
  pose proof (detectReportingCurrency_log t net []) as Hl1.
  rewrite Hd in Hl1. cbn [snd app] in Hl1. subst log1.
  pose proof (extractions_log t net ([financialsUrl t] ++ rate_requests currency)%list)
    as Hlog.
  set (extra := fallback_requests t net
                  (([financialsUrl t] ++ rate_requests currency) ++ [overviewUrl t])%list)
    in *.
  assert (Htrace : snd (stock_route param net) =
                   ([financialsUrl t] ++ rate_requests currency
                      ++ [overviewUrl t; yahooUrl t] ++ extra
                      ++ [cashFlowUrl t; balanceSheetUrl t; financialsUrl t])%list).
  { rewrite stock_route_log. fold t. unfold stock_try. rewrite Hv. cbn [negb].
    unfold bind at 1. rewrite Hd. unfold bind at 1.
    pose proof (getExchangeRate_log currency net [financialsUrl t]) as Hl2.
    destruct (getExchangeRate_resolves currency net [financialsUrl t]) as (xr & l2 & Hx).
    rewrite Hx in Hl2 |- *. cbn [snd] in Hl2. subst l2.
    unfold bind at 1.
    pose proof (Promise_all_log (getCompanyName t) (getCurrentPrice t) (getFreeCashFlow t)
                  (getBalanceSheetData t) (getSharesOutstanding t) net
                  ([financialsUrl t] ++ rate_requests currency)%list) as Hp.
    fold (extractions t net ([financialsUrl t] ++ rate_requests currency)%list) in Hp.
    rewrite Hlog in Hp.
    destruct (Promise_all _ _ _ _ _ net _) as [[[[[[name price] fcf] bs] shares]|e] l3];
      cbn [snd] in Hp |- *; subst l3; now rewrite <- !app_assoc. }
  exists [overviewUrl t; yahooUrl t], extra,
         [cashFlowUrl t; balanceSheetUrl t; financialsUrl t].
  split; [exact Htrace|]. split; [reflexivity|]. split; [right; now left|].
  split; [subst extra; now rewrite <- app_assoc|].
  rewrite Htrace. rewrite !List.length_app. cbn [List.length].
  assert (Hr : (List.length (rate_requests currency) <= 1)%nat).
  { unfold rate_requests. destruct (String.eqb currency "USD"); cbn; lia. }
  assert (He : (List.length extra <= 1)%nat).
  { subst extra. unfold fallback_requests.
    destruct (respond net _ _); cbn; try lia. destruct (if_truthy _); cbn; lia. }
  lia.
Qed.

(** The theorem on the sample network: seven requests. *)
Lemma X3_request_trace_witness :
  exists before extra after : list string,
    snd (stock_route "tsm" tsm_net) =
      ([financialsUrl (toUpperCase "tsm")] ++ rate_requests "TWD"
         ++ before ++ extra ++ after)%list /\
    (before ++ after)%list =
      [overviewUrl (toUpperCase "tsm"); yahooUrl (toUpperCase "tsm");
       cashFlowUrl (toUpperCase "tsm"); balanceSheetUrl (toUpperCase "tsm");
       financialsUrl (toUpperCase "tsm")] /\
    In (yahooUrl (toUpperCase "tsm")) before /\
    extra =
      fallback_requests (toUpperCase "tsm") tsm_net
        ([financialsUrl (toUpperCase "tsm")] ++ rate_requests "TWD"
           ++ [overviewUrl (toUpperCase "tsm")])%list /\
    (6 <= List.length (snd (stock_route "tsm" tsm_net)) <= 8)%nat.
Proof.
  apply (X3_request_trace tsm_net "tsm" "TWD" [financialsUrl "TSM"]).
  - vm_compute. reflexivity.
  - vm_compute. reflexivity.
Defined.

(* ------------------------------------------------------------------ *)
(** ** What a snapshot holds *)

Lemma if_truthy_some (price : option number) (p : number) :
  if_truthy price = Some p -> truthy p = true.
Proof.
  unfold if_truthy. destruct price as [q|]; [|discriminate].
  destruct (truthy q) eqn:Hq; [|discriminate]. now intros [= <-].
Qed.

Lemma positive_truthy (v : number) : gt v zero = true -> truthy v = true.
Proof.
  unfold gt, zero, of_Z. destruct v as [a| | |]; cbn [lt truthy];
    try discriminate; try reflexivity.
  destruct (Qc_eq_dec a 0) as [->|_]; [discriminate|reflexivity].
Qed.

Lemma price_from_selectors_positive (page : Page) (selectors : list string) (v : number) :
  price_from_selectors page selectors = Some v -> gt v zero = true.
Proof.
  induction selectors as [|selector rest IH]; cbn [price_from_selectors];
    [discriminate|].
  destruct (select page selector) as [text|]; [|exact IH].
  destruct (extractNumber (Some (trim text))) as [price|]; [|exact IH].
  destruct (gt price zero) eqn:Hg; [|exact IH].
  now intros [= <-].
Qed.

(** A price that is found is a usable number: not zero, not [NaN]. *)
Lemma getCurrentPrice_resolved (t : string) (net : Network) (log l : list string)
    (r : FieldResult) :
  getCurrentPrice t net log = (Resolved r, l) -> truthy (value r) = true.
Proof.
  unfold getCurrentPrice, try_catch. unfold bind at 1.
  destruct (axios_get (yahooUrl t) net log) as [[response|e] l1]; [|discriminate].
  destruct (if_truthy (regularMarketPrice response)) as [price|] eqn:Hp.
  - cbn. intros [= <- _]. cbn [value]. now apply if_truthy_some in Hp.
  - cbv zeta. unfold bind.
    destruct (fetchHtml (overviewUrl t) net l1) as [[page|e] l2]; [|discriminate].
    destruct (price_from_selectors page priceSelectors) as [v|] eqn:Hv; [|discriminate].
    cbn. intros [= <- _]. cbn [value].
    now apply positive_truthy, (price_from_selectors_positive page priceSelectors).
Qed.

(** A company name that is found is not empty. *)
Lemma getCompanyName_resolved (t : string) (net : Network) (log l : list string)
    (name : string) :
  getCompanyName t net log = (Resolved name, l) -> nonempty name = true.
Proof.
  unfold getCompanyName, bind.
  destruct (fetchHtml (overviewUrl t) net log) as [[page|e] l1]; [|discriminate].
  cbv zeta. destruct (nonempty (companyName_of_page t page)) eqn:Hn; cbn [negb].
  - now intros [= <- _].
  - discriminate.
Qed.

Lemma getExchangeRate_USD_rate (currency : string) (net : Network)
    (log l : list string) (xr : ExchangeRate) :
  String.eqb currency "USD" = true ->
  getExchangeRate currency net log = (Resolved xr, l) -> rate xr = one.
Proof.
  intros Hc. unfold getExchangeRate. rewrite Hc. cbn. now intros [= <- _].
Qed.

(** X4. Every snapshot the endpoint sends is whole and consistent: its
    ticker is the upper-cased parameter and has the ticker format; each
    amount in dollars is the amount in the reporting currency times the
    exchange rate of the same snapshot; the company name is not empty; the
    price is neither zero nor [NaN]; and when the reporting currency is USD
    the exchange rate is 1. *)
Theorem X4_snapshot_invariants (net : Network) (param : string) :
  match data (fst (stock_route param net)) with
  | None => True
  | Some d =>
      ticker d = toUpperCase param /\
      ticker_format (ticker d) = true /\
      freeCashFlowUSD d = mul (freeCashFlow d) (exchangeRate d) /\
      cashAndEquivalentsUSD d = mul (cashAndEquivalents d) (exchangeRate d) /\
      totalDebtUSD d = mul (totalDebt d) (exchangeRate d) /\
      nonempty (companyName d) = true /\
      truthy (currentPrice d) = true /\
      (if String.eqb (reportingCurrency d) "USD" then exchangeRate d = one else True)
  end.
Proof.
  destruct (stock_route param net) as [response log] eqn:Hr. cbn [fst].
  destruct response as [d|status msg original]; cbn [data]; [|exact I].
  apply stock_route_success in Hr
    as (page & log0 & xr & log2 & name & price & fcf & bs & shares
        & Hv & _ & Hx & Hs & ->).
  unfold extractions in Hs.
  apply settle_all_runs in Hs as (l1 & l2 & l3 & l4 & Ra & Rb & _ & _ & _).
  cbn [compile_stockData ticker freeCashFlowUSD freeCashFlow exchangeRate
       cashAndEquivalentsUSD cashAndEquivalents totalDebtUSD totalDebt
       companyName currentPrice reportingCurrency].
  repeat split; try assumption.
  - exact (getCompanyName_resolved _ _ _ _ _ Ra).
  - exact (getCurrentPrice_resolved _ _ _ _ _ Rb).
  - destruct (String.eqb (detectCurrency page) "USD") eqn:Hc; [|exact I].
    exact (getExchangeRate_USD_rate _ _ _ _ _ Hc Hx).
Qed.

(* ------------------------------------------------------------------ *)
(** ** The current price *)

Lemma startsWith_framed (a t b rest : string) :
  startsWith (a ++ t ++ b ++ rest) (a ++ t ++ b) = true.
Proof.
  replace (a ++ t ++ b ++ rest) with ((a ++ t ++ b) ++ rest).
  - apply startsWith_append.
  - now rewrite !append_assoc3.
Qed.

(** X5. When the request to the quote feed itself fails (failure status,
    no response, failure before sending), [getCurrentPrice] rejects at
    once: the overview page is not requested, so the price is not scraped
    as a fallback, and the message starts with [Failed to fetch current
    price for <ticker>: ].  The fallback serves only a quote response
    without a usable price. *)
Theorem X5_quote_failure_no_fallback (t : string) (net : Network) (log : list string) :
  is_fulfilled (respond net log (yahooUrl t)) = false ->
  exists e,
    getCurrentPrice t net log = (Rejected e, (log ++ [yahooUrl t])%list) /\
    startsWith (message e) ("Failed to fetch current price for " ++ t ++ ": ") = true.
Proof.
  intros Hf. unfold getCurrentPrice, try_catch. unfold bind at 1. unfold axios_get.
  destruct (respond net log (yahooUrl t)) as [response|status|msg|msg];
    [discriminate Hf| | |];
    (eexists; split; [reflexivity|]; cbn [message new_Error];
     apply startsWith_framed).
Qed.

(** The theorem on a network that answers nothing. *)
Lemma X5_quote_failure_no_fallback_witness :
  exists e,
    getCurrentPrice "TSM" dead_net [] = (Rejected e, ([] ++ [yahooUrl "TSM"])%list) /\
    startsWith (message e) ("Failed to fetch current price for " ++ "TSM" ++ ": ") = true.
Proof.
  apply (X5_quote_failure_no_fallback "TSM" dead_net []).
  vm_compute. reflexivity.
Defined.

(* ------------------------------------------------------------------ *)
(** ** Loops over the rows of a statement *)

(** A loop without a [break]: the last row that matches decides. *)
Lemma assign_loop_last (first second : Row -> bool) (rows : list Row)
    (a b : option number) :
  fold_left (assign_step first second) rows (a, b) =
  (last_row_value first rows a,
   last_row_value (fun r => negb (first r) && second r) rows b).
Proof.
  induction rows as [|r rows IH] using rev_ind; [reflexivity|].
  rewrite fold_left_app, IH. cbn [fold_left].
  unfold last_row_value. rewrite rev_app_distr. cbn [rev app find].
  unfold assign_step. cbn [fst snd].
  destruct (first r); cbn [negb andb]; [reflexivity|].
  destruct (second r); reflexivity.
Qed.

Lemma balance_step_assign (state : option number * option number) (r : Row) :
  balance_step state r =
  assign_step is_cash_row (fun r => includes (toLowerCase (rowLabel r)) "total debt")
              state r.
Proof. destruct state as [c d]. reflexivity. Qed.

Lemma fcf_derived_step_assign (state : option number * option number) (r : Row) :
  fcf_derived_step state r =
  assign_step is_operating_row
    (fun r => includes_any (toLowerCase (rowLabel r))
                ["capital expenditure"; "capex"; "purchases of property and equipment"])
    state r.
Proof. destruct state as [o c]. reflexivity. Qed.

Lemma fold_left_ext {A B : Type} (f g : A -> B -> A) (l : list B) (a : A) :
  (forall x y, f x y = g x y) -> fold_left f l a = fold_left g l a.
Proof.
  intros H. revert a. induction l as [|y l IH]; intros a; [reflexivity|].
  cbn [fold_left]. now rewrite H, IH.
Qed.

(** X8. The first loop of [getBalanceSheetData] has no [break]: the cash
    it leaves is read from the last row with a cash label and the debt
    from the last row that mentions total debt and has no cash label, also
    when that row's text does not parse, in which case the value is
    [null] again even if an earlier row had given one. *)
Theorem X8_balance_loop_last_row (rows : list Row) :
  fold_left balance_step rows (None, None) =
  (last_row_value is_cash_row rows None,
   last_row_value is_total_debt_row rows None).
Proof.
  rewrite (fold_left_ext _ _ rows (None, None) balance_step_assign).
  apply assign_loop_last.
Qed.

(** An earlier figure is lost to a later row without one. *)
Example balance_loop_overwritten :
  fold_left balance_step
    [row "Cash & Equivalents" "2,127,627"; row "Cash & Equivalents" "-"] (None, None)
  = (None, None).
Proof. vm_compute. reflexivity. Qed.

(* ------------------------------------------------------------------ *)
(** ** The derived free cash flow *)

Lemma Qc_minus_abs_le (a c : Qc) :
  ((a + - (if Qclt_le_dec c 0 then - c else c) ?= a)%Qc) <> Gt.
Proof.
  apply Qcle_alt.
  assert (Habs : (0 <= (if Qclt_le_dec c 0 then - c else c))%Qc).
  { destruct (Qclt_le_dec c 0) as [Hc|Hc]; [|exact Hc].
    apply Qclt_le_weak in Hc. apply Qcopp_le_compat in Hc.
    exact Hc. }
  set (m := if Qclt_le_dec c 0 then (- c)%Qc else c) in *.
  apply Qcopp_le_compat in Habs.
  replace a with (a + - 0)%Qc at 2 by ring.
  apply Qcplus_le_compat; [apply Qcle_refl|exact Habs].
Qed.

(** Subtracting a magnitude never raises a number. *)
Lemma sub_abs_not_above (op cx : number) : lt op (sub op (Math_abs cx)) = false.
Proof.
  destruct op as [a| | |], cx as [c| | |]; cbn [Math_abs neg sub add lt];
    try reflexivity.
  pose proof (Qc_minus_abs_le a c) as H.
  unfold Qccompare in *. rewrite <- Qcompare_antisym.
  destruct (_ ?= _)%Q; cbn [CompOpp]; try reflexivity. now elim H.
Qed.

(** The last element of a list that passes a test: nothing after it
    passes. *)
Lemma find_rev_last {A : Type} (test : A -> bool) (l : list A) (x : A) :
  find test (rev l) = Some x ->
  exists before after,
    l = (before ++ x :: after)%list /\ test x = true /\ existsb test after = false.
Proof.
  induction l as [|y l IH] using rev_ind; [discriminate|].
  rewrite rev_app_distr. cbn [rev app find].
  destruct (test y) eqn:Hy.
  - intros [= <-]. exists l, []. repeat split. exact Hy.
  - intros H. destruct (IH H) as (before & after & -> & Ht & Ha).
    exists before, (after ++ [y])%list. split; [|split; [exact Ht|]].
    + now rewrite <- app_assoc.
    + rewrite existsb_app, Ha. cbn. now rewrite Hy.
Qed.

Lemma last_row_value_last (test : Row -> bool) (rows : list Row) (v : number) :
  last_row_value test rows None = Some v ->
  exists r before after,
    rows = (before ++ r :: after)%list /\ test r = true /\
    existsb test after = false /\ rowValue r = Some v.
Proof.
  unfold last_row_value.
  destruct (find test (rev rows)) as [r|] eqn:Hf; [|discriminate].
  intros Hv. destruct (find_rev_last test rows r Hf) as (before & after & H1 & H2 & H3).
  now exists r, before, after.
Qed.

Lemma abs_neg (x : number) : Math_abs (neg x) = Math_abs x.
Proof.
  destruct x as [c| | |]; cbn [neg Math_abs]; try reflexivity.
  f_equal.
  destruct (Qclt_le_dec c 0) as [H1|H1], (Qclt_le_dec (- c) 0) as [H2|H2];
    try reflexivity.
  + exfalso. apply Qclt_le_weak in H1. apply Qcopp_le_compat in H1.
    apply (Qclt_not_le _ _ H2). exact H1.
  + now rewrite Qcopp_involutive.
  + apply Qcopp_le_compat in H2. rewrite Qcopp_involutive in H2.
    assert (Hz : c = 0%Qc) by (apply Qcle_antisym; assumption).
    rewrite Hz. reflexivity.
Qed.

(** X7. When the free cash flow is derived, it is the operating cash flow
    of the last row with an operating label (no row after it has one)
    minus the magnitude of the capital expenditures of the last row with a
    capital-expenditure label: the sign the source gives to the
    expenditures does not matter, and the result is never above the
    operating cash flow. *)
Theorem X7_derived_free_cash_flow (page : Page) (v : number) :
  fcf_derived page = Some v ->
  exists (operating capex : Row) (op cx : number)
         (before1 after1 before2 after2 : list Row),
    table_rows page = (before1 ++ operating :: after1)%list /\
    is_operating_row operating = true /\
    existsb is_operating_row after1 = false /\
    rowValue operating = Some op /\
    table_rows page = (before2 ++ capex :: after2)%list /\
    is_capex_row capex = true /\
    existsb is_capex_row after2 = false /\
    rowValue capex = Some cx /\
    v = sub op (Math_abs cx) /\
    v = sub op (Math_abs (neg cx)) /\
    lt op v = false.
Proof.
  unfold fcf_derived.
  rewrite (fold_left_ext _ _ (table_rows page) (None, None) fcf_derived_step_assign).
  rewrite assign_loop_last.
  destruct (last_row_value is_operating_row (table_rows page) None) as [op|] eqn:Ho;
    [|discriminate].
  destruct (last_row_value (fun r => negb _ && _) (table_rows page) None)
    as [cx|] eqn:Hc; [|discriminate].
  intros Hv. injection Hv as <-.
  apply last_row_value_last in Ho as (r1 & b1 & a1 & Hr1 & Ht1 & Ha1 & Hv1).
  apply (last_row_value_last is_capex_row) in Hc as (r2 & b2 & a2 & Hr2 & Ht2 & Ha2 & Hv2).
  exists r1, r2, op, cx, b1, a1, b2, a2.
  repeat split; try assumption.
  - now rewrite abs_neg.
  - apply sub_abs_not_above.
Qed.

(** The theorem on a statement with two rows of each kind: the later rows
    decide, 1,000 less 300, not 900 less 400. *)
Lemma X7_derived_free_cash_flow_witness :
  exists (operating capex : Row) (op cx : number)
         (before1 after1 before2 after2 : list Row),
    table_rows restated_cash_flow = (before1 ++ operating :: after1)%list /\
    is_operating_row operating = true /\
    existsb is_operating_row after1 = false /\
    rowValue operating = Some op /\
    table_rows restated_cash_flow = (before2 ++ capex :: after2)%list /\
    is_capex_row capex = true /\
    existsb is_capex_row after2 = false /\
    rowValue capex = Some cx /\
    of_Z 700 = sub op (Math_abs cx) /\
    of_Z 700 = sub op (Math_abs (neg cx)) /\
    lt op (of_Z 700) = false.
Proof.
  apply (X7_derived_free_cash_flow restated_cash_flow (of_Z 700)).
  apply option_number_is. vm_compute. reflexivity.
Defined.

(** On that statement the first rows alone would give 500. *)
Example restated_rows_decide :
  fcf_derived restated_cash_flow = Some (of_Z 700) /\
  rowValue (row "Operating Cash Flow" "900") = Some (of_Z 900) /\
  rowValue (row "Capital Expenditures" "-400") = Some (of_Z (-400)).
Proof. repeat split; apply option_number_is; vm_compute; reflexivity. Qed.

(* ------------------------------------------------------------------ *)
(** ** Shares outstanding *)





(** On that page the cell the figure comes from is the third one. *)
Example cells_page_cell :
  find is_shares_cell (table_cells cells_page)
  = Some {| cellText := "Shares Outstanding"; nextText := "25,930,380,000" |}.
Proof. vm_compute. reflexivity. Qed.

(* ------------------------------------------------------------------ *)
(** ** The sign of a parsed number *)

Lemma Qc_of_nonneg (q : Q) : (0 <= q)%Q -> ((Q2Qc q ?= 0)%Qc) <> Lt.
Proof.
  intros H. apply Qcge_alt. unfold Qcle. cbn [this Q2Qc].
  change (this 0%Qc) with (Qred 0). now apply Qred_le.
Qed.

Lemma magnitude_nonneg (mantissa : N) (z : Z) :
  (0 <= inject_Z (Z.of_N mantissa) * Qpower (10 # 1) z)%Q.
Proof.
  apply Qmult_le_0_compat.
  - change 0%Q with (inject_Z 0). rewrite <- Zle_Qle. apply N2Z.is_nonneg.
  - apply Qpower_0_le. discriminate.
Qed.

(** A text that does not start with a minus sign is not read as a negative
    number. *)
Lemma parseFloat_unsigned (s : string) :
  head_is "-" (trimStart s) = false -> lt (parseFloat s) zero = false.
Proof.
  intros H. unfold parseFloat. rewrite H. cbv zeta.
  destruct (startsWith _ "Infinity"); [reflexivity|].
  destruct (scan_digits _ 0 0) as [[ip id] rest].
  destruct (if head_is "." rest then _ else _) as [[m f] r'].
  destruct (id + f =? 0)%nat; [reflexivity|].
  unfold zero, of_Z. cbn [lt].
  pose proof (Qc_of_nonneg _ (magnitude_nonneg m (scan_exponent r' - Z.of_nat f))) as Hn.
  destruct (_ ?= _)%Qc; try reflexivity. now elim Hn.
Qed.

Lemma no_minus_head (text : string) :
  includes text "-" = false -> head_is "-" (replace_non_numeric text) = false.
Proof.
  induction text as [|c rest IH]; [reflexivity|].
  cbn [includes startsWith]. intros H.
  apply orb_false_elim in H as [Hc Hr].
  assert (Hne : Ascii.eqb c "-" = false).
  { rewrite Ascii.eqb_sym. destruct rest; cbn in Hc;
      now rewrite ?andb_true_r in Hc. }
  cbn [replace_non_numeric].
  destruct (numeric_char c); [cbn [head_is]; exact Hne|now apply IH].
Qed.

(** X9. A text without a minus sign is never read as a negative number,
    whatever else it holds: parentheses, as in the accounting notation
    [(1,234.56)], do not make the figure negative. *)
Theorem X9_no_minus_not_negative (text : string) (v : number) :
  includes text "-" = false ->
  extractNumber (Some text) = Some v ->
  ge v zero = true.
Proof.
  intros Hm He. rewrite extractNumber_leading in He.
  destruct (leading_number (replace_non_numeric text)) eqn:Hl; [|discriminate He].
  injection He as <-.
  pose proof (replace_non_numeric_all_numeric text) as Hn.
  pose proof (parseFloat_numeric _ Hn) as Hnan.
  rewrite Hl in Hnan. cbn [negb] in Hnan.
  assert (Hlt : lt (parseFloat (replace_non_numeric text)) zero = false).
  { apply parseFloat_unsigned. rewrite (trimStart_numeric _ Hn).
    now apply no_minus_head. }
  destruct (parseFloat (replace_non_numeric text)) as [a| | |].
  - unfold zero, of_Z in *. cbn [lt ge] in *.
    destruct (a ?= _)%Qc; try reflexivity. discriminate Hlt.
  - reflexivity.
  - discriminate Hlt.
  - discriminate Hnan.
Qed.

(** The theorem on a figure in accounting notation. *)
Lemma X9_no_minus_not_negative_witness :
  ge (decimal 123456 2) zero = true.
Proof.
  apply (X9_no_minus_not_negative "$(1,234.56)" (decimal 123456 2)).
  - vm_compute. reflexivity.
  - apply extractNumber_is. vm_compute. reflexivity.
Defined.

(* ------------------------------------------------------------------ *)
(** ** The form of the client *)

Lemma div_by_zero_not_finite (x : number) : is_finite (div x zero) = false.
Proof.
  unfold zero, of_Z. destruct x as [a| | |]; cbn [div]; try reflexivity.
  destruct (Qc_eq_dec (Q2Qc (inject_Z 0)) 0) as [_|Hn].
  - now destruct (a ?= 0)%Qc.
  - now elim Hn.
Qed.

(** X10. An edit of the shares field whose text does not parse to a
    usable number (an emptied field, a zero) stores 0 shares; the
    valuation that follows is not refused: it stores results whose equity
    value is unchanged and whose fair value per share, a division by zero,
    is [Infinity], [-Infinity] or [NaN]. *)
Theorem X10_zero_shares_unguarded (sd : StockData) (inputs : DCFInputs) (text : string) :
  truthy (parseFloat text) = false ->
  exists r : DCFResults,
    calculateDCF (Some (edit_sharesOutstanding text sd)) inputs = SetResults r /\
    sharesOutstanding (edit_sharesOutstanding text sd) = zero /\
    equityValue r = Formula.equity sd inputs /\
    fairValueInOriginalCurrency r = div (Formula.equity sd inputs) zero /\
    is_finite (fairValueInOriginalCurrency r) = false.
Proof.
  intros Ht.
  assert (Hz : sharesOutstanding (edit_sharesOutstanding text sd) = zero).
  { cbn [edit_sharesOutstanding sharesOutstanding]. unfold parse_or_zero.
    now rewrite Ht. }
  eexists. split; [apply calculateDCF_result|].
  cbn [equityValue fairValueInOriginalCurrency]. rewrite Hz.
  split; [reflexivity|]. split; [reflexivity|]. split; [reflexivity|].
  apply div_by_zero_not_finite.
Qed.

(** The theorem on the golden fixture when the shares field is emptied. *)
Lemma X10_zero_shares_unguarded_witness :
  exists r : DCFResults,
    calculateDCF (Some (edit_sharesOutstanding EmptyString golden_stock)) golden_inputs
      = SetResults r /\
    sharesOutstanding (edit_sharesOutstanding EmptyString golden_stock) = zero /\
    equityValue r = Formula.equity golden_stock golden_inputs /\
    fairValueInOriginalCurrency r = div (Formula.equity golden_stock golden_inputs) zero /\
    is_finite (fairValueInOriginalCurrency r) = false.
Proof.
  apply (X10_zero_shares_unguarded golden_stock golden_inputs EmptyString).
  vm_compute. reflexivity.
Defined.

Lemma upper_char_idempotent (c : ascii) : upper_char (upper_char c) = upper_char c.
Proof. destruct c as [[] [] [] [] [] [] [] []]; reflexivity. Qed.

Lemma toUpperCase_idempotent (s : string) : toUpperCase (toUpperCase s) = toUpperCase s.
Proof.
  unfold toUpperCase. induction s as [|c rest IH]; cbn [map_chars]; [reflexivity|].
  now rewrite upper_char_idempotent, IH.
Qed.

Lemma handleInputChange_ok (name value : string) (form : Form) :
  form_ok form -> form_ok (handleInputChange name value form).
Proof.
  intros (H1 & H2 & H3 & H4 & H5). unfold handleInputChange.
  destruct (String.eqb name "ticker").
  - repeat split; try assumption. cbn [form_ticker]. apply toUpperCase_idempotent.
  - cbv zeta. destruct (isNaN (parseFloat value)) eqn:Hn; cbn [negb].
    + repeat split; assumption.
    + unfold form_ok, set_input. cbn [form_inputs form_ticker].
      destruct (String.eqb name "growthRate1to5");
        [cbn; repeat split; assumption|].
      destruct (String.eqb name "perpetualGrowthRate");
        [cbn; repeat split; assumption|].
      destruct (String.eqb name "discountRate");
        [cbn; repeat split; assumption|].
      destruct (String.eqb name "marginOfSafety");
        [cbn; repeat split; assumption|].
      repeat split; assumption.
Qed.

Lemma fold_events_ok (events : list (string * string)) (form : Form) :
  form_ok form ->
  form_ok (fold_left (fun f event => handleInputChange (fst event) (snd event) f)
                     events form).
Proof.
  revert form. induction events as [|event rest IH]; intros form H; [exact H|].
  cbn [fold_left]. apply IH. now apply handleInputChange_ok.
Qed.

(** X11. Whatever is typed into the form, in whatever order, no parameter
    of the valuation ever becomes [NaN] (a text that does not parse leaves
    the parameter as it was), and the ticker held by the form is always in
    upper case. *)
Theorem X11_form_never_NaN (events : list (string * string)) :
  isNaN (growthRate1to5 (form_inputs (after_events events))) = false /\
  isNaN (perpetualGrowthRate (form_inputs (after_events events))) = false /\
  isNaN (discountRate (form_inputs (after_events events))) = false /\
  isNaN (marginOfSafety (form_inputs (after_events events))) = false /\
  toUpperCase (form_ticker (after_events events)) = form_ticker (after_events events).
Proof.
  apply (fold_events_ok events initial_form).
  repeat split.
Qed.

(* ------------------------------------------------------------------ *)
(** ** The history of calculations *)

Lemma history_after_firstn (saved stored : list Calculation) :
  history_after saved (firstn 5 stored) = firstn 5 (rev saved ++ stored)%list.
Proof.
  unfold history_after. revert stored.
  induction saved as [|c saved IH]; intros stored; [reflexivity|].
  cbn [fold_left rev]. unfold updatedCalculations at 2.
  rewrite firstn_firstn. cbn [Nat.min].
  change (c :: firstn 4 stored) with (firstn 5 (c :: stored)).
  rewrite IH, <- app_assoc. reflexivity.
Qed.

(** X12. The history kept in local storage never holds more than five
    calculations once one has been stored: after the calculations [first],
    then [later] in their order, it holds the five most recent, the newest
    first, whatever was stored before. *)
Theorem X12_history_keeps_five (first : Calculation) (later stored : list Calculation) :
  history_after (first :: later) stored =
    firstn 5 (rev (first :: later) ++ stored)%list /\
  (List.length (history_after (first :: later) stored) <= 5)%nat.
Proof.
  assert (H : history_after (first :: later) stored =
              firstn 5 (rev (first :: later) ++ stored)%list).
  { unfold history_after. cbn [fold_left]. unfold updatedCalculations at 2.
    change (first :: firstn 4 stored) with (firstn 5 (first :: stored)).
    fold (history_after later (firstn 5 (first :: stored))).
    rewrite history_after_firstn. cbn [rev]. now rewrite <- app_assoc. }
  split; [exact H|]. rewrite H. apply firstn_le_length.
Qed.

(* ------------------------------------------------------------------ *)
(** ** Heading before body *)

Lemma known_code_not_USD (code : string) :
  In code (map fst currencyPatterns) -> String.eqb code "USD" = false.
Proof.
  cbn [map fst currencyPatterns In].
  intros H. repeat (destruct H as [<-|H]; [reflexivity|]). destruct H.
Qed.

(** X13. When the text of the heading holds a currency keyword and the
    body holds no [financials in millions <CODE>] phrase, the detector
    answers with the code found in the heading (the first code of the table
    with a keyword there); the keywords of the body are not consulted. *)
Theorem X13_heading_before_body (page : Page) (code : string) :
  keyword_currency
    (toLowerCase (text_of page "h1, .financials-header, .table-header")) = Some code ->
  match_financials (toLowerCase (text_of page "body")) = None ->
  detectCurrency page = code.
Proof.
  intros Hh Hm. unfold detectCurrency. rewrite Hh, Hm.
  now rewrite (known_code_not_USD code (keyword_currency_known _ _ Hh)).
Qed.

(** The theorem on a page whose heading names the euro while its body
    mentions the yen. *)
Lemma X13_heading_before_body_witness :
  detectCurrency euro_heading_page = "EUR".
Proof.
  apply (X13_heading_before_body euro_heading_page "EUR").
  - vm_compute. reflexivity.
  - vm_compute. reflexivity.
Defined.

(** Asked alone, the body of that page would be classified as yen. *)
Example euro_heading_body_keyword :
  keyword_currency (toLowerCase (text_of euro_heading_page "body")) = Some "JPY".
Proof. vm_compute. reflexivity. Qed.

(* ------------------------------------------------------------------ *)
(** ** The exchange rate of a request *)

(** X14. The exchange-rate resolver never rejects: for [USD] it answers
    rate 1 without a request; for another currency, when the request to
    the feed fails or its answer has no table of rates, it answers rate 1
    with [error: true].  A request whose rate lookup fails in this way is
    not aborted: when its five extractions resolve it completes with a
    snapshot whose [exchangeRate] is 1. *)
Theorem X14_exchange_rate_soft_failure (net : Network) (param currency : string)
    (log1 log3 : list string)
    (results : string * FieldResult * FieldResult * BalanceSheet * FieldResult) :
  ticker_format (toUpperCase param) = true ->
  detectReportingCurrency (toUpperCase param) net [] = (Resolved currency, log1) ->
  String.eqb currency "USD" = false ->
  feed_fails net log1 = true ->
  Promise_all (getCompanyName (toUpperCase param)) (getCurrentPrice (toUpperCase param))
              (getFreeCashFlow (toUpperCase param))
              (getBalanceSheetData (toUpperCase param))
              (getSharesOutstanding (toUpperCase param))
              net (log1 ++ [exchangeRateUrl])%list = (Resolved results, log3) ->
  getExchangeRate currency net log1 =
    (Resolved {| rate := one; timestamp := clock net;
                 fromCurrency := currency; toCurrency := "USD"; error := true |},
     (log1 ++ [exchangeRateUrl])%list) /\
  (exists d, stock_route param net = (json_success d, log3)
             /\ exchangeRate d = one /\ reportingCurrency d = currency) /\
  (forall net' log,
     getExchangeRate "USD" net' log =
     (Resolved {| rate := one; timestamp := clock net';
                  fromCurrency := "USD"; toCurrency := "USD"; error := false |}, log)) /\
  (forall code net' log,
     exists xr log', getExchangeRate code net' log = (Resolved xr, log')).
Proof.
  intros Hv Hd Hc Hf Hp.
  pose proof (getExchangeRate_feed_fails currency net log1 Hc Hf) as Hx.
  split; [exact Hx|]. split; [|split].
  - unfold stock_route, stock_try. rewrite Hv. cbn [negb].
    unfold bind at 1. rewrite Hd. unfold bind at 1. rewrite Hx.
    unfold bind at 1. rewrite Hp.
    destruct results as [[[[name price] fcf] bs] shares].
    eexists. split; [reflexivity|]. split; reflexivity.
  - exact getExchangeRate_USD.
  - exact getExchangeRate_resolves.
Qed.

(** The theorem on the network whose rate feed is down. *)
Lemma X14_exchange_rate_soft_failure_witness :
  getExchangeRate "TWD" feed_down_net [financialsUrl "TSM"] =
    (Resolved {| rate := one; timestamp := clock feed_down_net;
                 fromCurrency := "TWD"; toCurrency := "USD"; error := true |},
     [financialsUrl "TSM"; exchangeRateUrl]) /\
  (exists d, stock_route "TSM" feed_down_net =
               (json_success d, snd (stock_route "TSM" feed_down_net))
             /\ exchangeRate d = one /\ reportingCurrency d = "TWD") /\
  (forall net' log,
     getExchangeRate "USD" net' log =
     (Resolved {| rate := one; timestamp := clock net';
                  fromCurrency := "USD"; toCurrency := "USD"; error := false |}, log)) /\
  (forall code net' log,
     exists xr log', getExchangeRate code net' log = (Resolved xr, log')).
Proof.
  pose (run := Promise_all (getCompanyName "TSM") (getCurrentPrice "TSM")
                 (getFreeCashFlow "TSM") (getBalanceSheetData "TSM")
                 (getSharesOutstanding "TSM")
                 feed_down_net [financialsUrl "TSM"; exchangeRateUrl]).
  assert (Hrun : exists results, run = (Resolved results, snd (stock_route "TSM" feed_down_net))).
  { eexists. vm_compute. reflexivity. }
  destruct Hrun as [results Hrun].
  apply (X14_exchange_rate_soft_failure feed_down_net "TSM" "TWD"
           [financialsUrl "TSM"] (snd (stock_route "TSM" feed_down_net)) results).
  - vm_compute. reflexivity.
  - vm_compute. reflexivity.
  - vm_compute. reflexivity.
  - vm_compute. reflexivity.
  - exact Hrun.
Defined.
